(** * PersonalTutor: retrieval aggregation and metadata filtering

    A shallow embedding of [rag/metadata_schema.py] and of the query
    operations of [rag/tools/corpus_tools.py] ([query_rag_corpus],
    [search_all_corpora], [search_corpus_by_name], [list_rag_corpora]),
    followed by the properties established about them.

    Conventions of the embedding.
    - A Python [str] is a [string]; the model covers ASCII code points
      (character classes and case mapping are the ASCII ones).
    - A Python [dict] is an association list in insertion order with
      unique keys.
    - A call into the Vertex AI SDK is a function of the record [rag_api]
      that returns an [outcome]: a value or a raised exception, the
      exception being represented by its [str(e)] text.
    - Relevance scores and distance thresholds are rationals. *)

From Stdlib Require Import String Ascii List ZArith NArith QArith Bool Lia.
From Stdlib Require Import DecimalString Permutation.
Import ListNotations.

Local Open Scope Z_scope.
Local Open Scope list_scope.
Local Open Scope string_scope.

(* ===================================================================== *)
(** ** Python strings *)
(* ===================================================================== *)

Module PyStr.

Definition code (c : ascii) : N := N_of_ascii c.

Definition between (lo hi : N) (c : ascii) : bool :=
  (N.leb lo (code c) && N.leb (code c) hi)%bool.

Definition is_upper (c : ascii) : bool := between 65 90 c.
Definition is_lower (c : ascii) : bool := between 97 122 c.
Definition is_digit (c : ascii) : bool := between 48 57 c.

(** [str.isspace], also the class [\s] of a str pattern: TAB..CR,
    FS..US and the space. *)
Definition is_space (c : ascii) : bool := between 9 13 c || between 28 32 c.

(** The whitespace [int()] skips around a literal: TAB..CR and the space. *)
Definition is_int_space (c : ascii) : bool := between 9 13 c || Ascii.eqb c " ".

(** The class [\w]. *)
Definition is_word (c : ascii) : bool :=
  is_upper c || is_lower c || is_digit c || Ascii.eqb c "_".

Definition to_upper (c : ascii) : ascii :=
  if is_lower c then ascii_of_N (code c - 32) else c.

Definition to_lower (c : ascii) : ascii :=
  if is_upper c then ascii_of_N (code c + 32) else c.

Fixpoint map_chars (f : ascii -> ascii) (s : string) : string :=
  match s with
  | EmptyString => EmptyString
  | String c r => String (f c) (map_chars f r)
  end.

(** [s.upper()], [s.lower()] *)
Definition upper : string -> string := map_chars to_upper.
Definition lower : string -> string := map_chars to_lower.

(** [s.replace(a, b)] for one-character [a] and [b]. *)
Definition replace_char (a b : ascii) : string -> string :=
  map_chars (fun c => if Ascii.eqb c a then b else c).

Fixpoint lstrip_by (p : ascii -> bool) (s : string) : string :=
  match s with
  | EmptyString => EmptyString
  | String c r => if p c then lstrip_by p r else s
  end.

Fixpoint rstrip_by (p : ascii -> bool) (s : string) : string :=
  match s with
  | EmptyString => EmptyString
  | String c r =>
      match rstrip_by p r with
      | EmptyString => if p c then EmptyString else String c EmptyString
      | r' => String c r'
      end
  end.

Definition strip_by (p : ascii -> bool) (s : string) : string :=
  lstrip_by p (rstrip_by p s).

(** [s.strip()] *)
Definition strip : string -> string := strip_by is_space.

(** [s.strip('_')] *)
Definition strip_underscores : string -> string :=
  strip_by (fun c => Ascii.eqb c "_").

(** [sub in s] *)
Fixpoint contains (sub s : string) : bool :=
  String.prefix sub s ||
  match s with
  | EmptyString => false
  | String _ r => contains sub r
  end.

(** [c in s] for a character. *)
Fixpoint has_char (c : ascii) (s : string) : bool :=
  match s with
  | EmptyString => false
  | String d r => Ascii.eqb c d || has_char c r
  end.

(** [s.split(sep)] for a non-empty [sep]: [skip] counts the characters of
    a separator just recognised that are still to be passed over, [cur]
    is the piece being collected. *)
Fixpoint split_go (sep : string) (skip : nat) (cur s : string) : list string :=
  match s with
  | EmptyString => [cur]
  | String c r =>
      match skip with
      | S k => split_go sep k cur r
      | O =>
          if String.prefix sep s
          then cur :: split_go sep (String.length sep - 1) EmptyString r
          else split_go sep 0 (cur ++ String c EmptyString) r
      end
  end.

Definition split (sep s : string) : list string := split_go sep 0 EmptyString s.

(** [sep.join(l)] *)
Fixpoint join (sep : string) (l : list string) : string :=
  match l with
  | [] => EmptyString
  | [x] => x
  | x :: r => x ++ sep ++ join sep r
  end.

(** [str(n)] for an int. *)
Definition of_Z (z : Z) : string := NilZero.string_of_int (Z.to_int z).

Definition of_nat (n : nat) : string := of_Z (Z.of_nat n).

Definition digit_val (c : ascii) : Z := Z.of_N (code c - 48).

(** The digit part of an [int()] literal in base ten: digits, single
    underscores allowed between two digits. [after_digit] says that the
    previous character was a digit. *)
Fixpoint int_digits (s : string) (acc : Z) (after_digit : bool) : option Z :=
  match s with
  | EmptyString => if after_digit then Some acc else None
  | String c r =>
      if is_digit c then int_digits r (10 * acc + digit_val c) true
      else if Ascii.eqb c "_" && after_digit then int_digits r acc false
      else None
  end.

(** [int(s)]: [None] stands for [ValueError]. The interpreter's limit on
    the number of digits of a literal is not modelled. *)
Definition py_int (s : string) : option Z :=
  match strip_by is_int_space s with
  | String "+" r => int_digits r 0 false
  | String "-" r => option_map Z.opp (int_digits r 0 false)
  | t => int_digits t 0 false
  end.

Definition hex_digit (n : N) : ascii :=
  if N.ltb n 10 then ascii_of_N (48 + n) else ascii_of_N (87 + n).

Definition dquote : ascii := ascii_of_N 34.
Definition squote : ascii := ascii_of_N 39.
Definition backslash : ascii := ascii_of_N 92.

Definition escaped (c : ascii) : string := String backslash (String c EmptyString).

(** One character of [repr(s)] inside the quote [q]. *)
Definition repr_char (q c : ascii) : string :=
  if Ascii.eqb c q || Ascii.eqb c backslash then escaped c
  else if N.eqb (code c) 9 then escaped "t"
  else if N.eqb (code c) 10 then escaped "n"
  else if N.eqb (code c) 13 then escaped "r"
  else if N.ltb (code c) 32 || N.eqb (code c) 127
  then String backslash
         (String "x" (String (hex_digit (N.div (code c) 16))
                        (String (hex_digit (N.modulo (code c) 16)) EmptyString)))
  else String c EmptyString.

Fixpoint repr_body (q : ascii) (s : string) : string :=
  match s with
  | EmptyString => EmptyString
  | String c r => repr_char q c ++ repr_body q r
  end.

(** [repr(s)]: single quotes, unless [s] has a single quote and no
    double quote. *)
Definition repr (s : string) : string :=
  let q := if has_char squote s && negb (has_char dquote s) then dquote else squote in
  String q (repr_body q s ++ String q EmptyString).

End PyStr.

(* ===================================================================== *)
(** ** Python values and dictionaries *)
(* ===================================================================== *)

Module Py.

(** The scalar values that metadata tags, filter criteria and page
    numbers take. *)
Inductive pyval : Type :=
| PNone
| PInt (z : Z)
| PStr (s : string).

Inductive pytype : Type := TNoneType | TInt | TStr.

Definition type_of (v : pyval) : pytype :=
  match v with
  | PNone => TNoneType
  | PInt _ => TInt
  | PStr _ => TStr
  end.

(** [t.__name__] *)
Definition type_name (t : pytype) : string :=
  match t with
  | TNoneType => "NoneType"
  | TInt => "int"
  | TStr => "str"
  end.

Definition pytype_eqb (a b : pytype) : bool :=
  match a, b with
  | TNoneType, TNoneType | TInt, TInt | TStr, TStr => true
  | _, _ => false
  end.

Definition isinstance (v : pyval) (t : pytype) : bool := pytype_eqb (type_of v) t.

(** [a == b] *)
Definition pyval_eqb (a b : pyval) : bool :=
  match a, b with
  | PNone, PNone => true
  | PInt x, PInt y => Z.eqb x y
  | PStr x, PStr y => String.eqb x y
  | _, _ => false
  end.

(** [bool(v)] *)
Definition truthy (v : pyval) : bool :=
  match v with
  | PNone => false
  | PInt z => negb (Z.eqb z 0)
  | PStr s => negb (String.eqb s "")
  end.

(** [a or b] *)
Definition py_or (a b : pyval) : pyval := if truthy a then a else b.

Definition is_none (v : pyval) : bool :=
  match v with PNone => true | _ => false end.

(** [str(v)] *)
Definition str_of (v : pyval) : string :=
  match v with
  | PNone => "None"
  | PInt z => PyStr.of_Z z
  | PStr s => s
  end.

(** [repr(v)] *)
Definition repr_of (v : pyval) : string :=
  match v with
  | PStr s => PyStr.repr s
  | _ => str_of v
  end.

(** A dict with str keys. *)
Definition dict : Type := list (string * pyval).

(** [d[k]] when [k in d] *)
Fixpoint dict_get {V : Type} (k : string) (d : list (string * V)) : option V :=
  match d with
  | [] => None
  | (k', v) :: r => if String.eqb k k' then Some v else dict_get k r
  end.

(** [k in d] *)
Definition dict_has {V : Type} (k : string) (d : list (string * V)) : bool :=
  match dict_get k d with Some _ => true | None => false end.

(** [d.get(k)] *)
Definition dict_get_default (k : string) (d : dict) : pyval :=
  match dict_get k d with Some v => v | None => PNone end.

(** [d[k] = v] *)
Fixpoint dict_set {V : Type} (k : string) (v : V) (d : list (string * V))
  : list (string * V) :=
  match d with
  | [] => [(k, v)]
  | (k', v') :: r =>
      if String.eqb k k' then (k, v) :: r else (k', v') :: dict_set k v r
  end.

Definition dict_keys {V : Type} (d : list (string * V)) : list string := map fst d.

(** [bool(d)] *)
Definition dict_truthy {A : Type} (d : list A) : bool :=
  match d with [] => false | _ => true end.

(** [repr(d)] *)
Definition dict_repr (d : dict) : string :=
  "{" ++ PyStr.join ", "
           (map (fun kv => PyStr.repr (fst kv) ++ ": " ++ repr_of (snd kv)) d)
      ++ "}".

(** [repr(l)] for a list of str. *)
Definition list_repr (l : list string) : string :=
  "[" ++ PyStr.join ", " (map PyStr.repr l) ++ "]".

(** [x in l] for a list of str. *)
Definition str_in (x : string) (l : list string) : bool :=
  existsb (String.eqb x) l.

End Py.

(* ===================================================================== *)
(** ** rag/metadata_schema.py *)
(* ===================================================================== *)

Module MetadataSchema.
Import Py.

Definition REQUIRED_METADATA_FIELDS : list (string * pytype) :=
  [("board", TStr); ("grade", TStr); ("subject", TStr)].

Definition OPTIONAL_METADATA_FIELDS : list (string * pytype) :=
  [("term", TStr); ("chapter", TStr); ("chapter_number", TStr);
   ("publisher", TStr); ("edition", TStr); ("language", TStr);
   ("content_type", TStr); ("difficulty", TStr)].

Definition ALLOWED_CONTENT_TYPES : list string :=
  ["theory"; "exercises"; "solutions"; "examples"].

Definition ALLOWED_DIFFICULTY_LEVELS : list string :=
  ["basic"; "medium"; "advanced"].

(** The value [validate_metadata] returns. [normalized = None] is the
    Python [None]. *)
Record validation : Type := mk_validation {
  valid : bool;
  errors : list string;
  warnings : list string;
  normalized : option dict
}.

(** The three locals the function accumulates into. *)
Record vstate : Type := mk_vstate {
  st_errors : list string;
  st_warnings : list string;
  st_normalized : dict
}.

Definition add_error (st : vstate) (msg : string) : vstate :=
  mk_vstate (st_errors st ++ [msg])%list (st_warnings st) (st_normalized st).

Definition add_warning (st : vstate) (msg : string) : vstate :=
  mk_vstate (st_errors st) (st_warnings st ++ [msg])%list (st_normalized st).

Definition set_normalized (st : vstate) (k : string) (v : pyval) : vstate :=
  mk_vstate (st_errors st) (st_warnings st) (dict_set k v (st_normalized st)).

Definition warn_if (b : bool) (st : vstate) (msg : string) : vstate :=
  if b then add_warning st msg else st.

(** Body of the loop over [REQUIRED_METADATA_FIELDS]. *)
Definition required_step (metadata : dict) (st : vstate) (fd : string * pytype)
  : vstate :=
  let field := fst fd in
  let field_type := snd fd in
  match dict_get field metadata with
  | None => add_error st ("Missing required field: '" ++ field ++ "'")
  | Some value =>
      if negb (isinstance value field_type) then
        add_error st ("Field '" ++ field ++ "' must be of type "
                        ++ type_name field_type ++ ", got "
                        ++ type_name (type_of value))
      else if String.eqb field "board" then
        let normalized_value :=
          PyStr.replace_char " " "_" (PyStr.upper (PyStr.strip (str_of value))) in
        let st1 :=
          warn_if (negb (pyval_eqb (PStr normalized_value) value)) st
            ("Board name normalized: '" ++ str_of value ++ "' -> '"
               ++ normalized_value ++ "'") in
        set_normalized st1 field (PStr normalized_value)
      else if String.eqb field "grade" then
        let normalized_value := PyStr.strip (str_of value) in
        let st1 :=
          warn_if (negb (String.eqb normalized_value (str_of value))) st
            ("Grade normalized to string: '" ++ str_of value ++ "' -> '"
               ++ normalized_value ++ "'") in
        set_normalized st1 field (PStr normalized_value)
      else if String.eqb field "subject" then
        set_normalized st field (PStr (PyStr.strip (str_of value)))
      else set_normalized st field value
  end.

(** Body of the loop over [OPTIONAL_METADATA_FIELDS]. *)
Definition optional_step (metadata : dict) (strict : bool) (st : vstate)
  (fd : string * pytype) : vstate :=
  let field := fst fd in
  let field_type := snd fd in
  match dict_get field metadata with
  | None => st
  | Some value =>
      if negb (isinstance value field_type) then
        add_error st ("Optional field '" ++ field ++ "' must be of type "
                        ++ type_name field_type ++ ", got "
                        ++ type_name (type_of value))
      else
        let st1 :=
          if String.eqb field "content_type" && strict
             && negb (str_in (str_of value) ALLOWED_CONTENT_TYPES)
          then add_error st ("content_type must be one of "
                               ++ list_repr ALLOWED_CONTENT_TYPES ++ ", got '"
                               ++ str_of value ++ "'")
          else st in
        let st2 :=
          if String.eqb field "difficulty" && strict
             && negb (str_in (str_of value) ALLOWED_DIFFICULTY_LEVELS)
          then add_error st1 ("difficulty must be one of "
                                ++ list_repr ALLOWED_DIFFICULTY_LEVELS ++ ", got '"
                                ++ str_of value ++ "'")
          else st1 in
        if pytype_eqb field_type TStr then
          let normalized_value := PyStr.strip (str_of value) in
          let st3 :=
            warn_if (negb (pyval_eqb (PStr normalized_value) value)) st2
              ("Field '" ++ field ++ "' normalized: '" ++ str_of value
                 ++ "' -> '" ++ normalized_value ++ "'") in
          set_normalized st3 field (PStr normalized_value)
        else set_normalized st2 field value
  end.

Definition is_schema_field (field : string) : bool :=
  str_in field (map fst REQUIRED_METADATA_FIELDS)
  || str_in field (map fst OPTIONAL_METADATA_FIELDS).

(** [set(metadata.keys()) - all_allowed_fields]; the set is listed in the
    order of the keys (Python leaves the order of a set unspecified). *)
Definition unknown_fields (metadata : dict) : list string :=
  filter (fun k => negb (is_schema_field k)) (dict_keys metadata).

(** Body of the loop over [metadata.keys()]. *)
Definition key_step (st : vstate) (key : string) : vstate :=
  warn_if (negb (String.eqb key (PyStr.lower key))) st
    ("Key '" ++ key ++ "' should be lowercase (use '" ++ PyStr.lower key ++ "')").

Definition validate_metadata (metadata : dict) (strict : bool) : validation :=
  let st0 := mk_vstate [] [] [] in
  let st1 := fold_left (required_step metadata) REQUIRED_METADATA_FIELDS st0 in
  let st2 := fold_left (optional_step metadata strict) OPTIONAL_METADATA_FIELDS st1 in
  let st3 :=
    warn_if (dict_truthy (unknown_fields metadata)) st2
      ("Unknown fields found (will be ignored): "
         ++ PyStr.join ", " (unknown_fields metadata)) in
  let st4 := fold_left key_step (dict_keys metadata) st3 in
  let no_errors := Nat.eqb (List.length (st_errors st4)) 0 in
  mk_validation no_errors (st_errors st4) (st_warnings st4)
    (if no_errors then Some (st_normalized st4) else None).

(** [re.sub(r'(?<!^)(?<!_)([A-Z])', r'_\1', s)]: an underscore goes
    before every capital letter that is neither the first character nor
    preceded by an underscore. [prev] is the character before the
    position in the string being scanned ([None] at its start). *)
Fixpoint camel_sub (prev : option ascii) (s : string) : string :=
  match s with
  | EmptyString => EmptyString
  | String c r =>
      let hit :=
        match prev with
        | None => false
        | Some p => PyStr.is_upper c && negb (Ascii.eqb p "_")
        end in
      if hit then String "_" (String c (camel_sub (Some c) r))
      else String c (camel_sub (Some c) r)
  end.

(** [re.sub(r'_+', '_', s)]; [in_run] says that the previous character
    was an underscore. *)
Fixpoint collapse_underscores (in_run : bool) (s : string) : string :=
  match s with
  | EmptyString => EmptyString
  | String c r =>
      if Ascii.eqb c "_" then
        if in_run then collapse_underscores true r
        else String c (collapse_underscores true r)
      else String c (collapse_underscores false r)
  end.

(** The [board] branch of [create_metadata_filter], on [str(value)]. *)
Definition normalize_board (value : string) : string :=
  let normalized := PyStr.strip value in
  let normalized := PyStr.replace_char "." "_" (PyStr.replace_char "-" "_" normalized) in
  let normalized := camel_sub None normalized in
  let normalized := PyStr.replace_char " " "_" (PyStr.upper normalized) in
  PyStr.strip_underscores (collapse_underscores false normalized).

(** Body of the loop over [metadata_criteria.items()]. *)
Definition filter_step (filter_dict : dict) (item : string * pyval) : dict :=
  let field := fst item in
  let value := snd item in
  if is_schema_field field then
    if String.eqb field "board" then
      dict_set field (PStr (normalize_board (str_of value))) filter_dict
    else if String.eqb field "grade" then
      dict_set field (PStr (PyStr.strip (str_of value))) filter_dict
    else
      dict_set field (PStr (PyStr.strip (str_of value))) filter_dict
  else filter_dict.

Definition create_metadata_filter (metadata_criteria : dict) : dict :=
  fold_left filter_step metadata_criteria [].

End MetadataSchema.

(* ===================================================================== *)
(** ** The regular expressions of the page heuristics *)
(* ===================================================================== *)

Module PyRe.

Inductive char_class : Type :=
| CSpace   (** [\s] *)
| CDigit.  (** [\d] *)

Definition in_class (k : char_class) (c : ascii) : bool :=
  match k with
  | CSpace => PyStr.is_space c
  | CDigit => PyStr.is_digit c
  end.

(** The pieces the six page patterns are made of. Every pattern has one
    group, [(\d+)]. *)
Inductive atom : Type :=
| Lit (c : ascii)          (** a literal character, under [re.IGNORECASE] *)
| WordB                    (** [\b] *)
| Star (k : char_class)    (** [k*], greedy *)
| Plus (k : char_class)    (** [k+], greedy *)
| OptLit (c : ascii)       (** [c?], greedy *)
| Group.                   (** [(\d+)], greedy *)

Definition pattern : Type := list atom.

Definition lit_eqb (c d : ascii) : bool :=
  Ascii.eqb (PyStr.to_lower c) (PyStr.to_lower d).

Definition word_before (prev : option ascii) : bool :=
  match prev with Some p => PyStr.is_word p | None => false end.

Definition word_after (s : string) : bool :=
  match s with String c _ => PyStr.is_word c | EmptyString => false end.

Definition or_else {A : Type} (a b : option A) : option A :=
  match a with Some _ => a | None => b end.

(** A continuation of the matcher: the character before the position, the
    rest of the subject, the text of the group so far; it answers the
    group's text when the rest of the pattern matches. *)
Definition cont : Type := option ascii -> string -> string -> option string.

(** Greedy repetition of a class: the longest run first, shorter ones on
    backtracking. [grp] says whether the run is the group. *)
Fixpoint greedy (k : char_class) (grp : bool) (next : cont)
  (prev : option ascii) (s : string) (cap : string) : option string :=
  match s with
  | String c r =>
      if in_class k c
      then or_else
             (greedy k grp next (Some c) r
                (if grp then cap ++ String c EmptyString else cap))
             (next prev s cap)
      else next prev s cap
  | EmptyString => next prev s cap
  end.

(** At least one character of the class, then a greedy run. *)
Definition greedy1 (k : char_class) (grp : bool) (next : cont) : cont :=
  fun prev s cap =>
    match s with
    | String c r =>
        if in_class k c
        then greedy k grp next (Some c) r
               (if grp then cap ++ String c EmptyString else cap)
        else None
    | EmptyString => None
    end.

(** The pattern matched at one position. *)
Fixpoint match_here (p : pattern) : cont :=
  match p with
  | [] => fun _ _ cap => Some cap
  | a :: p' =>
      let next := match_here p' in
      match a with
      | Lit c => fun _ s cap =>
          match s with
          | String d r => if lit_eqb c d then next (Some d) r cap else None
          | EmptyString => None
          end
      | WordB => fun prev s cap =>
          if xorb (word_before prev) (word_after s) then next prev s cap else None
      | Star k => greedy k false next
      | Plus k => greedy1 k false next
      | OptLit c => fun prev s cap =>
          match s with
          | String d r =>
              if lit_eqb c d
              then or_else (next (Some d) r cap) (next prev s cap)
              else next prev s cap
          | EmptyString => next prev s cap
          end
      | Group => greedy1 CDigit true next
      end
  end.

(** [re.search(p, s, re.IGNORECASE)], answering [match.group(1)] of the
    leftmost match. *)
Fixpoint search_from (p : pattern) (prev : option ascii) (s : string)
  : option string :=
  or_else (match_here p prev s EmptyString)
    match s with
    | String c r => search_from p (Some c) r
    | EmptyString => None
    end.

Definition search (p : pattern) (s : string) : option string :=
  search_from p None s.

Definition lits (s : string) : pattern :=
  map Lit (list_ascii_of_string s).

End PyRe.

(* ===================================================================== *)
(** ** rag/tools/corpus_tools.py: the query operations *)
(* ===================================================================== *)

Module CorpusTools.
Import Py MetadataSchema.

(** The constants imported from [rag.config]. *)
Record config : Type := mk_config {
  PROJECT_ID : string;
  LOCATION : string;
  RAG_DEFAULT_TOP_K : Z;
  RAG_DEFAULT_SEARCH_TOP_K : Z;
  RAG_DEFAULT_VECTOR_DISTANCE_THRESHOLD : Q
}.

(** *** Exceptions *)

(** What evaluating a piece of code gives: a value, or an exception that
    [except Exception as e] would catch, kept as [str(e)]. *)
Inductive outcome (A : Type) : Type :=
| Ok (a : A)
| Raise (e : string).

Arguments Ok {A} a.
Arguments Raise {A} e.

Definition bind {A B : Type} (m : outcome A) (k : A -> outcome B) : outcome B :=
  match m with
  | Ok a => k a
  | Raise e => Raise e
  end.

Notation "x <- m ;; k" := (bind m (fun x => k))
  (at level 61, m at next level, right associativity).

(** [try: body  except Exception as e: handler(e)] *)
Definition try_except {A : Type} (body : outcome A) (handler : string -> A) : A :=
  match body with
  | Ok a => a
  | Raise e => handler e
  end.

(** A call that may raise the exception [e] and gives nothing else. *)
Definition raising (e : option string) : outcome unit :=
  match e with
  | Some m => Raise m
  | None => Ok tt
  end.

(** *** The objects of the SDK *)

Record RagResource : Type := mk_RagResource { rr_rag_corpus : string }.

Record Filter : Type := mk_Filter { f_vector_distance_threshold : Q }.

Record RagRetrievalConfig : Type := mk_RagRetrievalConfig {
  rc_top_k : Z;
  rc_filter : option Filter
}.

(** The value of the attribute [metadata] or [rag_metadata] of a
    context. *)
Inductive metadata_obj : Type :=
| MetaDict (d : dict)
    (** a dict *)
| MetaObject (attrs vars : dict)
    (** an object with a [__dict__]: [getattr] reads [attrs], [__dict__]
        is [vars] *)
| MetaOther (nonempty : bool) (as_dict : option dict).
    (** anything else: its truth value, and what [dict(m)] gives
        ([None] when it raises) *)

(** [bool(m)] *)
Definition meta_truthy (m : metadata_obj) : bool :=
  match m with
  | MetaDict d => dict_truthy d
  | MetaObject _ _ => true
  | MetaOther b _ => b
  end.

(** One retrieved context, as the attribute probes of the code see it. An
    attribute that is absent is [None]. *)
Record context : Type := mk_context {
  ctx_text : option string;
  ctx_source_uri : option string;
  ctx_relevance_score : option Q;
  ctx_attrs : dict;                 (** the attributes [hasattr] finds among
                                        page_number, page, page_num, pageNumber *)
  ctx_vars : option dict;           (** [__dict__], when there is one *)
  ctx_dir : list string;            (** [dir(context)] *)
  ctx_metadata : option metadata_obj;
  ctx_rag_metadata : option metadata_obj
}.

(** The object [rag.retrieval_query] returns. *)
Inductive retrieval_response : Type :=
| NoContexts                          (** no attribute [contexts] *)
| Contexts (l : list context)         (** [response.contexts] is the list *)
| NestedContexts (l : list context).  (** [response.contexts.contexts] is *)

(** One corpus as [rag.list_corpora] lists it. *)
Record RagCorpus : Type := mk_RagCorpus {
  sdk_name : string;
  sdk_display_name : string
}.

(** The calls into the SDK. A constructor can only succeed or raise. *)
Record rag_api : Type := mk_rag_api {
  RagResource_raises : string -> option string;
  Filter_raises : Q -> option string;
  RagRetrievalConfig_raises : Z -> option Filter -> option string;
  retrieval_query : list RagResource -> string -> RagRetrievalConfig
                    -> outcome retrieval_response;
  list_corpora : outcome (list RagCorpus);
  list_files : string -> outcome (option nat)
    (** [len(files_response.rag_files)], when the attribute is there *)
}.

(** *** Results and responses *)

(** One entry of [results]: a dict with these keys. A key that is absent
    or bound to [None] is [None]. *)
Record result : Type := mk_result {
  r_text : string;
  r_source_uri : option string;
  r_relevance_score : option Q;
  r_metadata : option dict;
  r_page_number : option pyval;
  r_debug_info : option (list string);
  r_corpus_id : option string;
  r_corpus_name : option string;
  r_citation : option string
}.

(** One value of [corpus_results_map]. *)
Record corpus_result : Type := mk_corpus_result {
  cr_corpus_id : string;
  cr_corpus_name : string;
  cr_results : list result;
  cr_count : nat
}.

(** The dict a query operation returns. A key that is absent or bound to
    [None] is [None]; [status] is in every returned dict. *)
Record response : Type := mk_response {
  status : string;
  corpus_id : option string;
  results : option (list result);
  count : option nat;
  query : option string;
  metadata_filter : option dict;
  message : option string;
  note : option string;
  error_message : option string;
  corpus_results : option (list (string * corpus_result));
  searched_corpora : option (list string);
  citations_summary : option (list string);
  citation_note : option string
}.

(** *** Page numbers *)

(** The [if/elif] chain over the direct attributes. *)
Definition page_direct (c : context) : pyval :=
  if dict_has "page_number" (ctx_attrs c) then dict_get_default "page_number" (ctx_attrs c)
  else if dict_has "page" (ctx_attrs c) then dict_get_default "page" (ctx_attrs c)
  else if dict_has "page_num" (ctx_attrs c) then dict_get_default "page_num" (ctx_attrs c)
  else if dict_has "pageNumber" (ctx_attrs c) then dict_get_default "pageNumber" (ctx_attrs c)
  else PNone.

(** The probe of [context.__dict__]. *)
Definition page_vars (c : context) (page_number : pyval) : pyval :=
  match ctx_vars c with
  | Some context_dict =>
      if is_none page_number then
        py_or (dict_get_default "page_number" context_dict)
          (py_or (dict_get_default "page" context_dict)
             (py_or (dict_get_default "page_num" context_dict)
                (dict_get_default "pageNumber" context_dict)))
      else page_number
  | None => page_number
  end.

(** [context_metadata]: [metadata] when present and true, else
    [rag_metadata] when present and true. *)
Definition select_metadata (c : context) : option metadata_obj :=
  match ctx_metadata c with
  | Some m => if meta_truthy m then Some m else
      match ctx_rag_metadata c with
      | Some m' => if meta_truthy m' then Some m' else None
      | None => None
      end
  | None =>
      match ctx_rag_metadata c with
      | Some m' => if meta_truthy m' then Some m' else None
      | None => None
      end
  end.

(** [d.get("page_number") or d.get("page") or d.get("page_num")] *)
Definition page_of_dict (d : dict) : pyval :=
  py_or (dict_get_default "page_number" d)
    (py_or (dict_get_default "page" d) (dict_get_default "page_num" d)).

Definition starts_with_underscore (k : string) : bool := String.prefix "_" k.

(** The block that stores the metadata: the value of [result["metadata"]]
    (when set) and the new [page_number]. *)
Definition store_metadata (context_metadata : option metadata_obj)
  (page_number : pyval) : option dict * pyval :=
  match context_metadata with
  | None => (None, page_number)
  | Some (MetaDict d) =>
      (Some d, if is_none page_number then page_of_dict d else page_number)
  | Some (MetaObject attrs vars) =>
      (Some (List.filter (fun kv => negb (starts_with_underscore (fst kv))) vars),
       if is_none page_number then page_of_dict attrs else page_number)
  | Some (MetaOther _ (Some d)) =>
      (Some d, if is_none page_number then page_of_dict d else page_number)
  | Some (MetaOther _ None) => (Some [], page_number)
  end.

(** [int(source_uri.split("#page=")[1].split("&")[0])] inside its [try],
    under the tests [result.get("source_uri")] and ["#page=" in source_uri]. *)
Definition page_from_uri (source_uri : option string) : option Z :=
  match source_uri with
  | Some u =>
      if negb (String.eqb u "") && PyStr.contains "#page=" u
      then PyStr.py_int
             (hd "" (PyStr.split "&" (nth 1 (PyStr.split "#page=" u) "")))
      else None
  | None => None
  end.

Definition page_patterns : list PyRe.pattern :=
  [ (PyRe.WordB :: PyRe.lits "page" ++ [PyRe.Plus PyRe.CSpace; PyRe.Group; PyRe.WordB])%list;
    (PyRe.WordB :: PyRe.lits "p." ++ [PyRe.Star PyRe.CSpace; PyRe.Group; PyRe.WordB])%list;
    (PyRe.WordB :: PyRe.lits "pg"
       ++ [PyRe.OptLit "."; PyRe.Star PyRe.CSpace; PyRe.Group; PyRe.WordB])%list;
    (PyRe.WordB :: PyRe.lits "page"
       ++ [PyRe.Star PyRe.CSpace; PyRe.Lit ":"; PyRe.Star PyRe.CSpace;
           PyRe.Group; PyRe.WordB])%list;
    (PyRe.lits "(page" ++ [PyRe.Plus PyRe.CSpace; PyRe.Group; PyRe.Lit ")"])%list;
    (PyRe.lits "[page" ++ [PyRe.Plus PyRe.CSpace; PyRe.Group; PyRe.Lit "]"])%list ].

(** The loop over [page_patterns]: the first pattern that matches and
    whose group [int()] accepts. *)
Fixpoint first_pattern (ps : list PyRe.pattern) (text : string) : option Z :=
  match ps with
  | [] => None
  | p :: rest =>
      match PyRe.search p text with
      | Some g =>
          match PyStr.py_int g with
          | Some n => Some n
          | None => first_pattern rest text
          end
      | None => first_pattern rest text
      end
  end.

Definition page_from_text (text : string) : option Z :=
  if String.eqb text "" then None else first_pattern page_patterns text.

(** The locals [page_number] and [result] while one context is
    processed. *)
Record pstate : Type := mk_pstate {
  page_number : pyval;
  res : result
}.

Definition set_page (r : result) (p : pyval) : result :=
  mk_result (r_text r) (r_source_uri r) (r_relevance_score r) (r_metadata r)
    (Some p) (r_debug_info r) (r_corpus_id r) (r_corpus_name r) (r_citation r).

Definition set_debug_info (r : result) (d : list string) : result :=
  mk_result (r_text r) (r_source_uri r) (r_relevance_score r) (r_metadata r)
    (r_page_number r) (Some d) (r_corpus_id r) (r_corpus_name r) (r_citation r).

(** From the creation of [result] to "Store page number if found". *)
Definition structured_block (c : context) : pstate :=
  let page_number := page_vars c (page_direct c) in
  let mp := store_metadata (select_metadata c) page_number in
  let page_number := snd mp in
  let result :=
    mk_result (match ctx_text c with Some t => t | None => "" end)
      (ctx_source_uri c) (ctx_relevance_score c) (fst mp)
      None None None None None in
  mk_pstate page_number
    (if is_none page_number then result else set_page result page_number).

(** "Try to extract page number from source_uri". *)
Definition uri_block (st : pstate) : pstate :=
  if is_none (page_number st) then
    match page_from_uri (r_source_uri (res st)) with
    | Some n => mk_pstate (PInt n) (set_page (res st) (PInt n))
    | None => st
    end
  else st.

(** "Try to extract page number from text content". *)
Definition text_block (st : pstate) : pstate :=
  if is_none (page_number st) then
    match page_from_text (r_text (res st)) with
    | Some n => mk_pstate (PInt n) (set_page (res st) (PInt n))
    | None => st
    end
  else st.

(** "Store debug info": the first twenty public names of [dir(context)]. *)
Definition debug_block (c : context) (st : pstate) : pstate :=
  if is_none (page_number st) then
    mk_pstate (page_number st)
      (set_debug_info (res st)
         (firstn 20 (List.filter (fun a => negb (starts_with_underscore a)) (ctx_dir c))))
  else st.

(** The result built for one context, before the metadata filter. *)
Definition build_result (c : context) : result :=
  res (debug_block c (text_block (uri_block (structured_block c)))).

(** *** Client-side metadata filter *)

(** [norm_meta] of the board comparison. *)
Definition board_meta_norm (metadata_value : string) : string :=
  let norm_meta := PyStr.upper (PyStr.strip metadata_value) in
  let norm_meta := PyStr.replace_char "." "_" (PyStr.replace_char "-" "_" norm_meta) in
  let norm_meta := camel_sub None norm_meta in
  PyStr.strip_underscores
    (collapse_underscores false (PyStr.replace_char " " "_" norm_meta)).

(** [norm_filter] of the board comparison. *)
Definition board_filter_norm (value : string) : string :=
  let norm_filter := PyStr.upper (PyStr.strip value) in
  let norm_filter := PyStr.replace_char "." "_" (PyStr.replace_char "-" "_" norm_filter) in
  PyStr.strip_underscores
    (collapse_underscores false (PyStr.replace_char " " "_" norm_filter)).

(** One turn of the loop over [normalized_filter.items()]: [false] is
    [matches = False; break]. *)
Definition criterion_matches (metadata : dict) (item : string * pyval) : bool :=
  let key := fst item in
  let value := snd item in
  match dict_get key metadata with
  | None => false
  | Some metadata_value =>
      match metadata_value, value with
      | PStr mv, PStr fv =>
          if String.eqb key "board"
          then String.eqb (board_meta_norm mv) (board_filter_norm fv)
          else String.eqb (PyStr.lower (PyStr.strip mv)) (PyStr.lower (PyStr.strip fv))
      | _, _ => pyval_eqb metadata_value value
      end
  end.

(** Whether a result survives the filter: it has metadata that is not
    empty, and every criterion matches. *)
Definition passes_filter (normalized_filter : dict) (r : result) : bool :=
  match r_metadata r with
  | Some metadata => dict_truthy metadata && forallb (criterion_matches metadata) normalized_filter
  | None => false
  end.

(** [if normalized_filter:] with the filter at hand. *)
Definition active_filter (normalized_filter : option dict) : option dict :=
  match normalized_filter with
  | Some f => if dict_truthy f then Some f else None
  | None => None
  end.

(** The loop over [contexts]; [results] is the list built so far. *)
Fixpoint collect (top_k : Z) (normalized_filter : option dict)
  (contexts : list context) (results : list result) : list result :=
  match contexts with
  | [] => results
  | context :: rest =>
      let result := build_result context in
      match active_filter normalized_filter with
      | Some f =>
          if passes_filter f result then
            let results' := (results ++ [result])%list in
            if Z.geb (Z.of_nat (List.length results')) top_k then results'
            else collect top_k normalized_filter rest results'
          else collect top_k normalized_filter rest results
      | None => collect top_k normalized_filter rest (results ++ [result])%list
      end
  end.

Definition source_eqb (a b : option string) : bool :=
  match a, b with
  | Some x, Some y => String.eqb x y
  | None, None => true
  | _, _ => false
  end.

(** [file_counts[source] = file_counts.get(source, 0) + 1] *)
Fixpoint bump (source : option string) (file_counts : list (option string * nat))
  : list (option string * nat) :=
  match file_counts with
  | [] => [(source, 1%nat)]
  | (s, n) :: r =>
      if source_eqb source s then (s, S n) :: r else (s, n) :: bump source r
  end.

Definition multiple_chunks_note : string :=
  " Note: Multiple chunks retrieved from the same document(s) - this is normal as documents are split into chunks for better search.".

Definition note_for (results : list result) : string :=
  if Nat.ltb 1 (List.length results) then
    let file_counts := fold_left (fun fc r => bump (r_source_uri r) fc) results [] in
    let multiple_from_same_file := List.filter (fun kv => Nat.ltb 1 (snd kv)) file_counts in
    if dict_truthy multiple_from_same_file then multiple_chunks_note else ""
  else "".

(** *** query_rag_corpus *)

Definition or_default {A : Type} (o : option A) (d : A) : A :=
  match o with Some a => a | None => d end.

(** [x if x else None] for a dict. *)
Definition dict_or_none (d : option dict) : option dict :=
  match d with
  | Some m => if dict_truthy m then Some m else None
  | None => None
  end.

(** What is ready when [rag.retrieval_query] is called. *)
Record prepared : Type := mk_prepared {
  p_rag_resource : RagResource;
  p_normalized_filter : option dict;
  p_retrieval_config : RagRetrievalConfig
}.

(** From the start of the [try] to the retrieval configuration. *)
Definition prepare (cfg : config) (api : rag_api) (corpus_id : string)
  (top_k : Z) (vector_distance_threshold : Q) (metadata_filter : option dict)
  : outcome prepared :=
  let corpus_path :=
    "projects/" ++ PROJECT_ID cfg ++ "/locations/" ++ LOCATION cfg
      ++ "/ragCorpora/" ++ corpus_id in
  _ <- raising (RagResource_raises api corpus_path) ;;
  let rag_resource := mk_RagResource corpus_path in
  let normalized_filter :=
    match dict_or_none metadata_filter with
    | Some mf => Some (create_metadata_filter mf)
    | None => None
    end in
  let filter_obj :=
    match Filter_raises api vector_distance_threshold with
    | None => Some (mk_Filter vector_distance_threshold)
    | Some _ => None
    end in
  let requested :=
    match active_filter normalized_filter with
    | Some _ => top_k * 2
    | None => top_k
    end in
  _ <- raising (RagRetrievalConfig_raises api requested filter_obj) ;;
  Ok (mk_prepared rag_resource normalized_filter
        (mk_RagRetrievalConfig requested filter_obj)).

(** "Process the results": the list [results]. *)
Definition process_response (top_k : Z) (normalized_filter : option dict)
  (response : retrieval_response) : list result :=
  match response with
  | NoContexts => []
  | Contexts contexts | NestedContexts contexts =>
      collect top_k normalized_filter contexts []
  end.

Definition query_success (corpus_id query_text : string)
  (metadata_filter : option dict) (results : list result) : response :=
  let note := note_for results in
  mk_response "success" (Some corpus_id) (Some results) (Some (List.length results))
    (Some query_text) (dict_or_none metadata_filter)
    (Some ("Found " ++ PyStr.of_nat (List.length results) ++ " results for query: '"
             ++ query_text ++ "'"
             ++ match dict_or_none metadata_filter with
                | Some mf => " with metadata filter: " ++ dict_repr mf
                | None => ""
                end
             ++ note))
    (if String.eqb note "" then None else Some note)
    None None None None None.

Definition query_error (corpus_id e : string) : response :=
  mk_response "error" (Some corpus_id) None None None None
    (Some ("Failed to query corpus: " ++ e)) None (Some e) None None None None.

(** The body of the [try] of [query_rag_corpus]. *)
Definition query_body (cfg : config) (api : rag_api) (corpus_id query_text : string)
  (top_k : Z) (vector_distance_threshold : Q) (metadata_filter : option dict)
  : outcome response :=
  p <- prepare cfg api corpus_id top_k vector_distance_threshold metadata_filter ;;
  response <- retrieval_query api [p_rag_resource p] query_text (p_retrieval_config p) ;;
  Ok (query_success corpus_id query_text metadata_filter
        (process_response top_k (p_normalized_filter p) response)).

Definition query_rag_corpus (cfg : config) (api : rag_api)
  (corpus_id query_text : string) (top_k : option Z)
  (vector_distance_threshold : option Q) (metadata_filter : option dict)
  : response :=
  let top_k := or_default top_k (RAG_DEFAULT_TOP_K cfg) in
  let vector_distance_threshold :=
    or_default vector_distance_threshold (RAG_DEFAULT_VECTOR_DISTANCE_THRESHOLD cfg) in
  try_except
    (query_body cfg api corpus_id query_text top_k vector_distance_threshold
       metadata_filter)
    (query_error corpus_id).

(** *** list_rag_corpora *)

(** One entry of [corpus_list], with the keys the query operations read
    and the file count. *)
Record corpus_entry : Type := mk_corpus_entry {
  ce_id : string;
  ce_name : string;
  ce_display_name : string;
  ce_files_count : nat
}.

(** The dict [list_rag_corpora] returns. *)
Record listing : Type := mk_listing {
  l_status : string;
  l_corpora : option (list corpus_entry);
  l_count : option nat;
  l_error_message : option string;
  l_message : string
}.

(** Body of the loop over [corpora]. *)
Definition list_step (api : rag_api) (corpus : RagCorpus) : corpus_entry :=
  let corpus_id := last (PyStr.split "/" (sdk_name corpus)) "" in
  let files_count :=
    match list_files api (sdk_name corpus) with
    | Ok (Some n) => n
    | Ok None => 0%nat
    | Raise _ => 0%nat
    end in
  mk_corpus_entry corpus_id (sdk_name corpus) (sdk_display_name corpus) files_count.

Definition list_rag_corpora (api : rag_api) : listing :=
  try_except
    (corpora <- list_corpora api ;;
     let corpus_list := map (list_step api) corpora in
     Ok (mk_listing "success" (Some corpus_list) (Some (List.length corpus_list)) None
           ("Found " ++ PyStr.of_nat (List.length corpus_list) ++ " RAG corpora")))
    (fun e => mk_listing "error" None None (Some e) ("Failed to list RAG corpora: " ++ e)).

(** *** search_all_corpora *)

(** The citation of one result of the corpus [corpus_name] ([corpus_id]). *)
Definition citation_of (corpus_id corpus_name : string) (r : result) : string :=
  let citation := "[Source: " ++ corpus_name ++ " (" ++ corpus_id ++ ")]" in
  let citation :=
    match r_source_uri r with
    | Some source_path =>
        if String.eqb source_path "" then citation
        else
          let file_name :=
            if PyStr.has_char "/" source_path
            then last (PyStr.split "/" source_path) ""
            else source_path in
          let file_name :=
            if PyStr.has_char "#" file_name
            then hd "" (PyStr.split "#" file_name)
            else file_name in
          citation ++ " File: " ++ file_name
    | None => citation
    end in
  match r_page_number r with
  | Some p => if is_none p then citation else citation ++ " Page: " ++ str_of p
  | None => citation
  end.

(** Body of the loop over [results]: the three keys added to a result. *)
Definition annotate (corpus_id corpus_name : string) (r : result) : result :=
  mk_result (r_text r) (r_source_uri r) (r_relevance_score r) (r_metadata r)
    (r_page_number r) (r_debug_info r)
    (Some corpus_id) (Some corpus_name) (Some (citation_of corpus_id corpus_name r)).

(** The three accumulators of the loop over [all_corpora]. *)
Record astate : Type := mk_astate {
  all_results : list result;
  corpus_results_map : list (string * corpus_result);
  searched : list string
}.

(** The loop body after the call of [query_rag_corpus], whose answer is
    [corpus_results]. *)
Definition absorb (st : astate) (corpus_id corpus_name : string)
  (corpus_results : response) : astate :=
  if String.eqb (status corpus_results) "success" then
    let corpus_specific_results :=
      map (annotate corpus_id corpus_name) (or_default (results corpus_results) []) in
    let all := (all_results st ++ corpus_specific_results)%list in
    if dict_truthy corpus_specific_results then
      mk_astate all
        (dict_set corpus_name
           (mk_corpus_result corpus_id corpus_name corpus_specific_results
              (List.length corpus_specific_results))
           (corpus_results_map st))
        (searched st ++ [corpus_name])%list
    else mk_astate all (corpus_results_map st) (searched st)
  else st.

(** Body of the loop over [all_corpora]. *)
Definition corpus_step (cfg : config) (api : rag_api) (query_text : string)
  (top_k_per_corpus : Z) (vector_distance_threshold : Q)
  (metadata_filter : option dict) (st : astate) (corpus : corpus_entry) : astate :=
  let corpus_id := ce_id corpus in
  let corpus_name := ce_display_name corpus in
  absorb st corpus_id corpus_name
    (query_rag_corpus cfg api corpus_id query_text (Some top_k_per_corpus)
       (Some vector_distance_threshold) metadata_filter).

(** The sort key: the relevance score, 0 when there is none. *)
Definition sort_key (x : result) : Q := or_default (r_relevance_score x) (0 # 1).

(** [sort(key=..., reverse=True)] is stable: an element goes after the
    elements whose key is greater, before those with the same key that
    followed it. *)
Fixpoint insert_desc (x : result) (l : list result) : list result :=
  match l with
  | [] => [x]
  | y :: r =>
      if Qle_bool (sort_key y) (sort_key x) then x :: y :: r
      else y :: insert_desc x r
  end.

Fixpoint sort_desc (l : list result) : list result :=
  match l with
  | [] => []
  | x :: r => insert_desc x (sort_desc r)
  end.

(** The loop that formats [citations_summary]; a name without an entry
    in the map is a [KeyError]. *)
Fixpoint summarize (corpus_results_map : list (string * corpus_result))
  (names : list string) : outcome (list string) :=
  match names with
  | [] => Ok []
  | corpus_name :: rest =>
      match dict_get corpus_name corpus_results_map with
      | Some corpus_data =>
          lines <- summarize corpus_results_map rest ;;
          Ok ((corpus_name ++ " (" ++ cr_corpus_id corpus_data ++ "): "
                 ++ PyStr.of_nat (cr_count corpus_data) ++ " results") :: lines)
      | None => Raise (PyStr.repr corpus_name)
      end
  end.

Definition search_error (e : string) : response :=
  mk_response "error" None None None None None
    (Some ("Failed to search all corpora: " ++ e)) None (Some e) None None None None.

(** The body of the [try] of [search_all_corpora]. *)
Definition search_all_body (cfg : config) (api : rag_api) (query_text : string)
  (top_k_per_corpus : Z) (vector_distance_threshold : Q)
  (metadata_filter : option dict) : outcome response :=
  let corpora_response := list_rag_corpora api in
  if negb (String.eqb (l_status corpora_response) "success") then
    Ok (mk_response "error" None None None None None
          (Some "Failed to search all corpora - could not retrieve corpus list") None
          (Some ("Failed to list corpora: "
                   ++ or_default (l_error_message corpora_response) ""))
          None None None None)
  else
    let all_corpora := or_default (l_corpora corpora_response) [] in
    if negb (dict_truthy all_corpora) then
      Ok (mk_response "warning" None None None None None
            (Some "No corpora found to search in") None None None None None None)
    else
      let st :=
        fold_left
          (corpus_step cfg api query_text top_k_per_corpus vector_distance_threshold
             metadata_filter)
          all_corpora (mk_astate [] [] []) in
      let all_results := sort_desc (all_results st) in
      citations_summary <- summarize (corpus_results_map st) (searched st) ;;
      Ok (mk_response "success" None (Some all_results)
            (Some (List.length all_results)) (Some query_text)
            (dict_or_none metadata_filter)
            (Some ("Found " ++ PyStr.of_nat (List.length all_results)
                     ++ " results for query '" ++ query_text ++ "' across "
                     ++ PyStr.of_nat (List.length (searched st)) ++ " corpora"
                     ++ match dict_or_none metadata_filter with
                        | Some mf => " with metadata filter: " ++ dict_repr mf
                        | None => ""
                        end))
            None None
            (Some (corpus_results_map st)) (Some (searched st))
            (Some citations_summary)
            (Some "Each result includes a citation indicating its source corpus and file.")).

Definition search_all_corpora (cfg : config) (api : rag_api) (query_text : string)
  (top_k_per_corpus : option Z) (vector_distance_threshold : option Q)
  (metadata_filter : option dict) : response :=
  let top_k_per_corpus := or_default top_k_per_corpus (RAG_DEFAULT_SEARCH_TOP_K cfg) in
  let vector_distance_threshold :=
    or_default vector_distance_threshold (RAG_DEFAULT_VECTOR_DISTANCE_THRESHOLD cfg) in
  try_except
    (search_all_body cfg api query_text top_k_per_corpus vector_distance_threshold
       metadata_filter)
    search_error.

(** *** search_corpus_by_name *)

(** The test of the loop that looks for [target_corpus]. *)
Definition name_matches (corpus_name : string) (corpus : corpus_entry) : bool :=
  negb (String.eqb (ce_display_name corpus) "")
  && String.eqb (PyStr.lower (PyStr.strip (ce_display_name corpus)))
       (PyStr.lower (PyStr.strip corpus_name)).

Definition by_name_body (cfg : config) (api : rag_api)
  (corpus_name query_text : string) (metadata_filter : option dict)
  : outcome response :=
  let corpora_response := list_rag_corpora api in
  if negb (String.eqb (l_status corpora_response) "success") then
    Ok (mk_response "error" None None None None None
          (Some ("Could not find corpus '" ++ corpus_name
                   ++ "' because listing corpora failed.")) None
          (Some ("Failed to list corpora to find '" ++ corpus_name ++ "'."))
          None None None None)
  else
    match find (name_matches corpus_name) (or_default (l_corpora corpora_response) []) with
    | None =>
        Ok (mk_response "error" None None None None None
              (Some ("❌ Error: Corpus with name '" ++ corpus_name ++ "' not found."))
              None None None None None None)
    | Some target_corpus =>
        Ok (query_rag_corpus cfg api (ce_id target_corpus) query_text None None
              metadata_filter)
    end.

Definition search_corpus_by_name (cfg : config) (api : rag_api)
  (corpus_name query_text : string) (metadata_filter : option dict) : response :=
  try_except (by_name_body cfg api corpus_name query_text metadata_filter)
    (fun e =>
       mk_response "error" None None None None None
         (Some ("An unexpected error occurred while searching by name: " ++ e))
         None (Some e) None None None None).

End CorpusTools.

(* ===================================================================== *)
(** ** The page chain as the specification words it *)
(* ===================================================================== *)

Module PageSpec.
Import Py CorpusTools.

(** Methods tried in a fixed order, stopping at the first that gives a
    page. *)
Fixpoint first_success {A : Type} (methods : list (option A)) : option A :=
  match methods with
  | [] => None
  | Some a :: _ => Some a
  | None :: rest => first_success rest
  end.

(** A probe found a page when its value is not [None]. *)
Definition found (p : pyval) : option pyval :=
  if is_none p then None else Some p.

(** (1) a structured page field: on the response object, ... *)
Definition object_field (c : context) : option pyval := found (page_direct c).

(** ... in its instance dictionary, ... *)
Definition instance_field (c : context) : option pyval := found (page_vars c PNone).

(** ... or on its metadata. *)
Definition metadata_field (c : context) : option pyval :=
  found (snd (store_metadata (select_metadata c) PNone)).

(** (2) the [#page=N] fragment of the source URI. *)
Definition uri_fragment (c : context) : option pyval :=
  option_map PInt (page_from_uri (ctx_source_uri c)).

(** (3) the textual patterns in the passage body. *)
Definition text_pattern (c : context) : option pyval :=
  option_map PInt (page_from_text (or_default (ctx_text c) "")).

Definition page_chain (c : context) : option pyval :=
  first_success
    [object_field c; instance_field c; metadata_field c; uri_fragment c; text_pattern c].

(** The names of a structured page field: on the response object and in
    its instance dictionary, and on its metadata. *)
Definition object_names : list string := ["page_number"; "page"; "page_num"; "pageNumber"].
Definition metadata_names : list string := ["page_number"; "page"; "page_num"].

(** The value of the first of the names that [d] has. *)
Fixpoint first_bound (names : list string) (d : dict) : option pyval :=
  match names with
  | [] => None
  | n :: rest =>
      match dict_get n d with
      | Some v => Some v
      | None => first_bound rest d
      end
  end.

(** The first true value that [d] holds under one of the names. *)
Fixpoint first_true (names : list string) (d : dict) : option pyval :=
  match names with
  | [] => None
  | n :: rest =>
      match dict_get n d with
      | Some v => if truthy v then Some v else first_true rest d
      | None => first_true rest d
      end
  end.

(** [d] holds no page under the names: each of them is missing or bound
    to [None]. *)
Definition lacks_page (names : list string) (d : dict) : bool :=
  forallb
    (fun n => match dict_get n d with Some PNone | None => true | Some _ => false end)
    names.

(** The metadata value holds no page, where a page is looked for: in the
    dict, among the attributes of an object, in what [dict(m)] gives. *)
Definition metadata_lacks_page (m : option metadata_obj) : bool :=
  match m with
  | None => true
  | Some (MetaDict d) => lacks_page metadata_names d
  | Some (MetaObject attrs _) => lacks_page metadata_names attrs
  | Some (MetaOther _ (Some d)) => lacks_page metadata_names d
  | Some (MetaOther _ None) => true
  end.

(** A passage with no structured page field: none on the object, none in
    its instance dictionary, none on its metadata. *)
Definition unstructured (c : context) : bool :=
  lacks_page object_names (ctx_attrs c)
  && match ctx_vars c with
     | Some vars => lacks_page object_names vars
     | None => true
     end
  && metadata_lacks_page (ctx_metadata c)
  && metadata_lacks_page (ctx_rag_metadata c).

(** The source URI has no page fragment. *)
Definition no_page_fragment (c : context) : bool :=
  match ctx_source_uri c with
  | Some u => negb (PyStr.contains "#page=" u)
  | None => true
  end.

End PageSpec.

(* ===================================================================== *)
(** ** Concrete inputs *)
(* ===================================================================== *)

Module Samples.
Import Py MetadataSchema CorpusTools.

Definition cfg : config := mk_config "proj" "us-central1" 10 5 (1 # 2).

(** A passage of gs://b/unit3.pdf whose page number 7 is a field of the
    context. *)
Definition unit3_context : context :=
  mk_context (Some "Photosynthesis converts light.") (Some "gs://b/unit3.pdf")
    (Some (3 # 4)) [("page_number", PInt 7)] None ["page_number"; "source_uri"; "text"]
    None None.

(** A passage with metadata [md] and nothing that gives a page. *)
Definition tagged_context (text : string) (md : dict) : context :=
  mk_context (Some text) (Some "gs://b/book.pdf") (Some (1 # 2)) [] None [] (Some (MetaDict md))
    None.

(** An SDK where nothing raises; every corpus answers [contexts]. *)
Definition steady_api (corpora : list RagCorpus) (contexts : list context) : rag_api :=
  mk_rag_api (fun _ => None) (fun _ => None) (fun _ _ => None)
    (fun _ _ _ => Ok (Contexts contexts)) (Ok corpora) (fun _ => Ok (Some 1%nat)).

(** An SDK where the retrieval of the corpus whose path is [bad] raises,
    the corpus whose path is [silent] answers no context, and every
    other corpus answers [contexts]. *)
Definition flaky_api (corpora : list RagCorpus) (bad silent : string)
  (contexts : list context) : rag_api :=
  mk_rag_api (fun _ => None) (fun _ => None) (fun _ _ => None)
    (fun rs _ _ =>
       if existsb (fun r => String.eqb (rr_rag_corpus r) bad) rs
       then Raise "503 backend unavailable"
       else if existsb (fun r => String.eqb (rr_rag_corpus r) silent) rs
       then Ok (Contexts [])
       else Ok (Contexts contexts))
    (Ok corpora) (fun _ => Ok (Some 1%nat)).


(** A passage of gs://b/f.pdf whose source URI says page 12 and whose
    text says page 45, with the given attributes, instance dictionary and
    metadata. *)
Definition paged_context (attrs : dict) (vars : option dict)
  (metadata : option metadata_obj) : context :=
  mk_context (Some "as shown on page 45") (Some "gs://b/f.pdf#page=12") (Some (1 # 2))
    attrs vars ["source_uri"; "text"] metadata None.


(** An SDK whose retrieval raises with the requested [top_k] as its
    text, so that the request can be read in the response. *)
Definition echo_api : rag_api :=
  mk_rag_api (fun _ => None) (fun _ => None) (fun _ _ => None)
    (fun _ _ c => Raise (PyStr.of_Z (rc_top_k c))) (Ok []) (fun _ => Ok None).

Definition corpus_path (n : string) : string :=
  "projects/proj/locations/us-central1/ragCorpora/" ++ n.

Definition science : RagCorpus := mk_RagCorpus (corpus_path "42") "Science".
Definition history : RagCorpus := mk_RagCorpus (corpus_path "43") "History".
Definition maths : RagCorpus := mk_RagCorpus (corpus_path "44") "Maths".

(** What ingestion stores for a document tagged board "Tamil Nadu Board". *)
Definition ingested : dict :=
  or_default
    (normalized
       (validate_metadata
          [("board", PStr "Tamil Nadu Board"); ("grade", PStr "10");
           ("subject", PStr "Science")] false))
    [].

End Samples.

(* ===================================================================== *)
(** ** Notions used in the statements *)
(* ===================================================================== *)

Module Notions.
Import Py MetadataSchema CorpusTools.

(** What holds of the two locals between the blocks: the key
    [page_number] of the result is set exactly when the local is not
    [None], to the same value. *)
Definition page_synced (st : pstate) : Prop :=
  r_page_number (res st) = PageSpec.found (page_number st).


Section PerCorpus.

Variables (cfg : config) (api : rag_api) (query_text : string).
Variables (top_k_per_corpus : Z) (vector_distance_threshold : Q).
Variable metadata_filter : option dict.

(** What [query_rag_corpus] answers for a corpus inside
    [search_all_corpora]. *)
Definition answer (c : corpus_entry) : response :=
  query_rag_corpus cfg api (ce_id c) query_text (Some top_k_per_corpus)
    (Some vector_distance_threshold) metadata_filter.

(** The query of the corpus succeeded. *)
Definition succeeded (c : corpus_entry) : bool :=
  String.eqb (status (answer c)) "success".

(** The results of the corpus, annotated. *)
Definition kept (c : corpus_entry) : list result :=
  map (annotate (ce_id c) (ce_display_name c)) (or_default (results (answer c)) []).

(** The query succeeded and kept at least one result. *)
Definition contributes (c : corpus_entry) : bool :=
  succeeded c && dict_truthy (kept c).

End PerCorpus.

(** The line of [citations_summary] for a name, read from the map. *)
Definition summary_line (crm : list (string * corpus_result)) (corpus_name : string)
  : string :=
  match dict_get corpus_name crm with
  | Some corpus_data =>
      corpus_name ++ " (" ++ cr_corpus_id corpus_data ++ "): "
        ++ PyStr.of_nat (cr_count corpus_data) ++ " results"
  | None => ""
  end.

End Notions.

From Stdlib Require Import DecimalZ Sorting.Sorted.

(* ===================================================================== *)
(** ** rag/tools/corpus_tools.py: importing a document *)
(* ===================================================================== *)

Module CorpusImport.
Import Py MetadataSchema CorpusTools.

(** The keyword arguments of [rag.import_files]. A key that is not
    passed is [None]. *)
Record import_params : Type := mk_import_params {
  ip_corpus_name : string;
  ip_paths : list string;
  ip_chunk_size : option Z;
  ip_chunk_overlap : option Z;
  ip_rag_metadata : option dict
}.

(** The call of [rag.import_files] with these keyword arguments; what it
    returns is not used. *)
Definition import_api : Type := import_params -> outcome unit.

(** The dict [metadata_validation]. *)
Record metadata_validation : Type := mk_metadata_validation {
  mv_valid : bool;
  mv_errors : list string;
  mv_warnings : list string
}.

(** The dict [import_document_to_corpus] returns. A key that is absent
    or bound to [None] is [None]. *)
Record import_response : Type := mk_import_response {
  ir_status : string;
  ir_corpus_id : string;
  ir_message : string;
  ir_error_message : option string;
  ir_metadata_validation : option metadata_validation;
  ir_metadata : option dict
}.

Definition import_error (corpus_id e : string) : import_response :=
  mk_import_response "error" corpus_id ("Failed to import document: " ++ e) (Some e)
    None None.

(** From "Prepare import parameters" to the end of the [try]. *)
Definition import_call (import_files : import_api) (corpus_name corpus_id gcs_uri : string)
  (chunk_size chunk_overlap : option Z) (normalized_metadata : option dict)
  (validation : option metadata_validation) : outcome import_response :=
  let import_params :=
    mk_import_params corpus_name [gcs_uri] chunk_size chunk_overlap
      (dict_or_none normalized_metadata) in
  _ <- import_files import_params ;;
  Ok (mk_import_response "success" corpus_id
        ("Successfully imported document " ++ gcs_uri ++ " to corpus '" ++ corpus_id ++ "'")
        None validation
        (match validation with Some _ => normalized_metadata | None => None end)).

(** The body of the [try]: the lines printed, and the value returned or
    the exception raised. *)
Definition import_body (cfg : config) (import_files : import_api)
  (corpus_id gcs_uri : string) (rag_metadata : option dict)
  (chunk_size chunk_overlap : option Z) : list string * outcome import_response :=
  let corpus_name :=
    "projects/" ++ PROJECT_ID cfg ++ "/locations/" ++ LOCATION cfg
      ++ "/ragCorpora/" ++ corpus_id in
  match dict_or_none rag_metadata with
  | Some metadata =>
      let validation_result := validate_metadata metadata false in
      let validation :=
        mk_metadata_validation (valid validation_result) (errors validation_result)
          (warnings validation_result) in
      if negb (valid validation_result) then
        ([],
         Ok (mk_import_response "error" corpus_id
               ("Failed to import document: Invalid metadata. Errors: "
                  ++ PyStr.join ", " (errors validation_result))
               (Some ("Metadata validation failed: "
                        ++ PyStr.join ", " (errors validation_result)))
               (Some validation) None))
      else
        (if dict_truthy (warnings validation_result)
         then ["Metadata warnings: " ++ PyStr.join ", " (warnings validation_result)]
         else [],
         import_call import_files corpus_name corpus_id gcs_uri chunk_size chunk_overlap
           (normalized validation_result) (Some validation))
  | None =>
      ([],
       import_call import_files corpus_name corpus_id gcs_uri chunk_size chunk_overlap
         None None)
  end.

(** [import_document_to_corpus]: the dict returned and the lines
    printed. *)
Definition import_document_to_corpus (cfg : config) (import_files : import_api)
  (corpus_id gcs_uri : string) (rag_metadata : option dict)
  (chunk_size chunk_overlap : option Z) : import_response * list string :=
  let run :=
    import_body cfg import_files corpus_id gcs_uri rag_metadata chunk_size
      chunk_overlap in
  (try_except (snd run) (import_error corpus_id), fst run).

End CorpusImport.

(* ===================================================================== *)
(** ** Notions used in the further statements *)
(* ===================================================================== *)

Module SchemaReading.
Import Py MetadataSchema.

(** The names of the schema, required fields first. *)
Definition required_names : list string := map fst REQUIRED_METADATA_FIELDS.
Definition optional_names : list string := map fst OPTIONAL_METADATA_FIELDS.
Definition schema_names : list string := (required_names ++ optional_names)%list.

(** The normal form of the value of a field: trimmed; for the board also
    upper-cased, with spaces turned into underscores. *)
Definition field_norm (field s : string) : string :=
  if String.eqb field "board"
  then PyStr.replace_char " " "_" (PyStr.upper (PyStr.strip s))
  else PyStr.strip s.

(** What a field adds to [normalized]: its normal form when it is present
    with a str value, nothing otherwise. *)
Definition normal_entry (metadata : dict) (field : string) : dict :=
  match dict_get field metadata with
  | Some (PStr s) => [(field, PStr (field_norm field s))]
  | _ => []
  end.

(** [d[k] = v] for the entries of a field. *)
Definition apply_entry (e d : dict) : dict :=
  fold_left (fun acc kv => dict_set (fst kv) (snd kv) acc) e d.

(** The errors a required field gives. *)
Definition required_errors (metadata : dict) (field : string) : list string :=
  match dict_get field metadata with
  | None => ["Missing required field: '" ++ field ++ "'"]
  | Some (PStr _) => []
  | Some value =>
      ["Field '" ++ field ++ "' must be of type str, got " ++ type_name (type_of value)]
  end.

(** The error of an enum field in strict mode. *)
Definition enum_errors (strict : bool) (field name : string) (allowed : list string)
  (s : string) : list string :=
  if String.eqb field name && strict && negb (str_in s allowed)
  then [name ++ " must be one of " ++ list_repr allowed ++ ", got '" ++ s ++ "'"]
  else [].

(** The errors an optional field gives. *)
Definition optional_errors (metadata : dict) (strict : bool) (field : string)
  : list string :=
  match dict_get field metadata with
  | None => []
  | Some (PStr s) =>
      (enum_errors strict field "content_type" ALLOWED_CONTENT_TYPES s
         ++ enum_errors strict field "difficulty" ALLOWED_DIFFICULTY_LEVELS s)%list
  | Some value =>
      ["Optional field '" ++ field ++ "' must be of type str, got "
         ++ type_name (type_of value)]
  end.

(** The warning a required field gives. *)
Definition required_warnings (metadata : dict) (field : string) : list string :=
  match dict_get field metadata with
  | Some (PStr s) =>
      if String.eqb field "board" then
        if String.eqb (field_norm field s) s then []
        else ["Board name normalized: '" ++ s ++ "' -> '" ++ field_norm field s ++ "'"]
      else if String.eqb field "grade" then
        if String.eqb (PyStr.strip s) s then []
        else ["Grade normalized to string: '" ++ s ++ "' -> '" ++ PyStr.strip s ++ "'"]
      else []
  | _ => []
  end.

(** The warning an optional field gives. *)
Definition optional_warnings (metadata : dict) (field : string) : list string :=
  match dict_get field metadata with
  | Some (PStr s) =>
      if String.eqb (PyStr.strip s) s then []
      else ["Field '" ++ field ++ "' normalized: '" ++ s ++ "' -> '"
              ++ PyStr.strip s ++ "'"]
  | _ => []
  end.

(** The errors of a validation, in the order of the schema. *)
Definition validation_errors (metadata : dict) (strict : bool) : list string :=
  (flat_map (required_errors metadata) required_names
     ++ flat_map (optional_errors metadata strict) optional_names)%list.

(** The warning of a key that is not lowercase. *)
Definition key_warnings (key : string) : list string :=
  if String.eqb key (PyStr.lower key) then []
  else ["Key '" ++ key ++ "' should be lowercase (use '" ++ PyStr.lower key ++ "')"].

(** The warning for the keys outside the schema. *)
Definition unknown_warnings (metadata : dict) : list string :=
  if dict_truthy (unknown_fields metadata)
  then ["Unknown fields found (will be ignored): "
          ++ PyStr.join ", " (unknown_fields metadata)]
  else [].

(** The warnings of a validation, in the order they are appended. *)
Definition validation_warnings (metadata : dict) : list string :=
  (flat_map (required_warnings metadata) required_names
     ++ flat_map (optional_warnings metadata) optional_names
     ++ unknown_warnings metadata
     ++ flat_map key_warnings (dict_keys metadata))%list.

(** The normalized dict of a validation, whether or not it is returned. *)
Definition validation_normalized (metadata : dict) : dict :=
  flat_map (normal_entry metadata) schema_names.

(** A string without whitespace at either end. *)
Definition trimmed (s : string) : Prop :=
  PyStr.lstrip_by PyStr.is_space s = s /\ PyStr.rstrip_by PyStr.is_space s = s.

(** Every character of the string satisfies [p]. *)
Fixpoint all_chars (p : ascii -> bool) (s : string) : bool :=
  match s with
  | EmptyString => true
  | String c r => p c && all_chars p r
  end.

(** The metadata validation accepts: the three required fields are str,
    the optional fields that are present are str, and in strict mode the
    two enum fields hold an allowed value. *)
Definition well_tagged (metadata : dict) (strict : bool) : Prop :=
  (forall f, In f required_names -> exists s, dict_get f metadata = Some (PStr s))
  /\ (forall f, In f optional_names ->
                dict_get f metadata = None
                \/ exists s, dict_get f metadata = Some (PStr s))
  /\ (strict = true ->
      (forall s, dict_get "content_type" metadata = Some (PStr s) ->
                 str_in s ALLOWED_CONTENT_TYPES = true)
      /\ (forall s, dict_get "difficulty" metadata = Some (PStr s) ->
                    str_in s ALLOWED_DIFFICULTY_LEVELS = true)).

(** The value [create_metadata_filter] stores for a recognised field. *)
Definition filter_value (field : string) (value : pyval) : pyval :=
  PStr (if String.eqb field "board"
        then normalize_board (str_of value)
        else PyStr.strip (str_of value)).

(** What an item of the criteria adds to the filter. *)
Definition filter_entry (item : string * pyval) : dict :=
  if is_schema_field (fst item)
  then [(fst item, filter_value (fst item) (snd item))]
  else [].

(** A character the board normal form of the filter can hold: no
    lowercase letter, no space, no hyphen, no dot. *)
Definition board_char (c : ascii) : bool :=
  negb (PyStr.is_lower c) && negb (Ascii.eqb c " ")
  && negb (Ascii.eqb c "-") && negb (Ascii.eqb c ".").

(** A character that stays as it is through the board normalizations:
    no whitespace, no lowercase letter, no hyphen, no dot. *)
Definition settled_char (c : ascii) : bool :=
  negb (PyStr.is_space c) && negb (PyStr.is_lower c)
  && negb (Ascii.eqb c "-") && negb (Ascii.eqb c ".").

(** A character that is no whitespace other than the space itself. *)
Definition ordinary_char (c : ascii) : bool :=
  negb (PyStr.is_space c) || Ascii.eqb c " ".

End SchemaReading.

Module QueryReading.
Import Py MetadataSchema CorpusTools.

(** Equality of two source locators is decidable. *)
Definition source_eq_dec (a b : option string) : {a = b} + {a <> b}.
Proof. decide equality. apply string_dec. Defined.

(** [file_counts.get(source, 0)] *)
Fixpoint count_of (source : option string) (file_counts : list (option string * nat))
  : nat :=
  match file_counts with
  | [] => 0%nat
  | (s, n) :: r => if source_eqb source s then n else count_of source r
  end.

(** The file name a citation shows for a source locator. *)
Definition citation_file_name (source_path : string) : string :=
  let file_name :=
    if PyStr.has_char "/" source_path
    then last (PyStr.split "/" source_path) ""
    else source_path in
  if PyStr.has_char "#" file_name
  then hd "" (PyStr.split "#" file_name)
  else file_name.

(** The resource name the operations build from a corpus id. *)
Definition resource_name (cfg : config) (corpus_id : string) : string :=
  "projects/" ++ PROJECT_ID cfg ++ "/locations/" ++ LOCATION cfg
    ++ "/ragCorpora/" ++ corpus_id.

(** [x] may stand before [y] in the merged results: its score is not
    lower. *)
Definition score_ge (x y : result) : Prop := Qle (sort_key y) (sort_key x).

(** The result has the score [q]. *)
Definition same_score (q : Q) (x : result) : bool := Qeq_bool (sort_key x) q.

(** An entry of [corpus_results] agrees with its key and with itself. *)
Definition entry_consistent (kv : string * corpus_result) : Prop :=
  cr_corpus_name (snd kv) = fst kv
  /\ cr_count (snd kv) = List.length (cr_results (snd kv))
  /\ cr_results (snd kv) <> []
  /\ Forall (fun x => r_corpus_name x = Some (fst kv)
                      /\ r_corpus_id x = Some (cr_corpus_id (snd kv))
                      /\ r_citation x
                         = Some (citation_of (cr_corpus_id (snd kv)) (fst kv) x))
       (cr_results (snd kv)).

End QueryReading.

(* ===================================================================== *)
(** ** Properties *)
(* ===================================================================== *)

Import Py MetadataSchema CorpusTools Notions.

(** *** Metadata validation *)

Lemma length_zero_iff_nil {A : Type} (l : list A) :
  Nat.eqb (List.length l) 0 = true <-> l = [].
Proof.
  destruct l as [|a l]; simpl; split; intro H; try reflexivity; discriminate H.
Qed.

Lemma validate_metadata_valid_iff (metadata : dict) (strict : bool) :
  valid (validate_metadata metadata strict) = true
  <-> errors (validate_metadata metadata strict) = [].
Proof.
  unfold validate_metadata; cbn [valid errors]. apply length_zero_iff_nil.
Qed.

Lemma validate_metadata_normalized_iff (metadata : dict) (strict : bool) :
  normalized (validate_metadata metadata strict) <> None
  <-> errors (validate_metadata metadata strict) = [].
Proof.
  unfold validate_metadata; cbn [normalized errors].
  match goal with |- context [Nat.eqb (List.length ?e) 0] => destruct e as [|x e'] end;
    simpl; split; intro H; try reflexivity; try discriminate; try congruence.
Qed.

(** C8. Validating [{subject: "Math"}] gives [valid = false], exactly the
    two errors for the missing [board] and [grade], and
    [normalized = None]; and for every input, strict or not, [normalized]
    is a mapping exactly when the error list is empty (and [None]
    otherwise), which is also exactly when [valid] holds. *)
Theorem required_field_gate :
  (forall strict,
      validate_metadata [("subject", PStr "Math")] strict
      = mk_validation false
          ["Missing required field: 'board'"; "Missing required field: 'grade'"]
          [] None)
  /\ (forall metadata strict,
         (normalized (validate_metadata metadata strict) <> None
          <-> errors (validate_metadata metadata strict) = [])
         /\ (errors (validate_metadata metadata strict) <> []
             <-> normalized (validate_metadata metadata strict) = None)
         /\ (valid (validate_metadata metadata strict) = true
             <-> errors (validate_metadata metadata strict) = [])).
Proof.
  split.
  - intros [|]; reflexivity.
  - intros metadata strict.
    pose proof (validate_metadata_normalized_iff metadata strict) as Hn.
    pose proof (validate_metadata_valid_iff metadata strict) as Hv.
    split; [exact Hn|]. split; [|exact Hv].
    destruct (normalized (validate_metadata metadata strict)) eqn:E.
    + split; intro H; [|discriminate H].
      exfalso. apply H, Hn. discriminate.
    + split; intro H; [reflexivity|].
      intro He. apply Hn in He. congruence.
Qed.

(** *** Board normalization *)

(** C3. The board normalization of [create_metadata_filter] is not
    idempotent: "cbse" becomes "CBSE", and "CBSE" becomes "C_B_S_E",
    because the substitution puts an underscore before every capital that
    follows a capital. *)
Theorem normalize_board_not_idempotent :
  normalize_board "cbse" = "CBSE"
  /\ normalize_board (normalize_board "cbse") = "C_B_S_E"
  /\ normalize_board (normalize_board "cbse") <> normalize_board "cbse".
Proof.
  repeat split; try reflexivity. vm_compute. discriminate.
Qed.

(** C2. A document ingested with board "Tamil Nadu Board" is stored with
    board "TAMIL_NADU_BOARD"; the inclusion logic of [query_rag_corpus]
    drops it for the filter board "TamilNaduBoard" (the stored value is
    upper-cased before the capital-letter substitution and becomes
    "T_A_M_I_L_N_A_D_U_B_O_A_R_D", while the filter value, normalized to
    "TAMIL_NADU_BOARD", is compared without that substitution), and keeps
    it for the filter board "TAMIL_NADU_BOARD". *)
Theorem board_filter_asymmetry :
  let doc := Samples.tagged_context "Cells are the unit of life." Samples.ingested in
  let api := Samples.steady_api [] [doc] in
  let ask board :=
    results (query_rag_corpus Samples.cfg api "42" "cells" (Some 5) None
               (Some [("board", PStr board)])) in
  dict_get "board" Samples.ingested = Some (PStr "TAMIL_NADU_BOARD")
  /\ ask "TamilNaduBoard" = Some []
  /\ ask "TAMIL_NADU_BOARD" = Some [build_result doc]
  /\ board_meta_norm "TAMIL_NADU_BOARD" = "T_A_M_I_L_N_A_D_U_B_O_A_R_D"
  /\ board_filter_norm (normalize_board "TamilNaduBoard") = "TAMIL_NADU_BOARD"
  /\ board_filter_norm (normalize_board "TAMIL_NADU_BOARD")
     = "T_A_M_I_L_N_A_D_U_B_O_A_R_D".
Proof.
  repeat split; vm_compute; reflexivity.
Qed.

(** *** Citations *)

(** C1. For the corpus Science (id 42), a passage of gs://b/unit3.pdf
    with page 7 gets the citation
    "[Source: Science (42)] File: unit3.pdf Page: 7": the bracket is
    closed after the corpus id, before the file and the page, so the
    citation is not "[Source: Science (42) File: unit3.pdf Page: 7]". *)
Theorem citation_bracket_closed_early :
  let r :=
    search_all_corpora Samples.cfg
      (Samples.steady_api [Samples.science] [Samples.unit3_context])
      "photosynthesis" None None None in
  status r = "success"
  /\ map r_citation (or_default (results r) [])
     = [Some "[Source: Science (42)] File: unit3.pdf Page: 7"]
  /\ map r_citation (or_default (results r) [])
     <> [Some "[Source: Science (42) File: unit3.pdf Page: 7]"].
Proof.
  repeat split; vm_compute; try reflexivity. discriminate.
Qed.

(** *** Page numbers *)

Lemma found_not_none (p : pyval) : is_none p = false -> PageSpec.found p = Some p.
Proof. unfold PageSpec.found. intros ->. reflexivity. Qed.

Lemma is_none_true (p : pyval) : is_none p = true -> p = PNone.
Proof. destruct p; simpl; intro H; try discriminate H; reflexivity. Qed.

Lemma page_vars_keeps (c : context) (p : pyval) :
  is_none p = false -> page_vars c p = p.
Proof.
  intro H. unfold page_vars. destruct (ctx_vars c); [rewrite H|]; reflexivity.
Qed.

Lemma store_metadata_keeps (m : option metadata_obj) (p : pyval) :
  is_none p = false -> snd (store_metadata m p) = p.
Proof.
  intro H. unfold store_metadata.
  destruct m as [[d|attrs vars|b [d|]]|]; simpl; rewrite ?H; reflexivity.
Qed.

Lemma store_metadata_fst (m : option metadata_obj) (p q : pyval) :
  fst (store_metadata m p) = fst (store_metadata m q).
Proof.
  destruct m as [[d|attrs vars|b [d|]]|]; reflexivity.
Qed.

(** The three structured probes, in their order. *)
Lemma structured_page (c : context) :
  PageSpec.found (snd (store_metadata (select_metadata c) (page_vars c (page_direct c))))
  = PageSpec.first_success
      [PageSpec.object_field c; PageSpec.instance_field c; PageSpec.metadata_field c].
Proof.
  unfold PageSpec.object_field, PageSpec.instance_field, PageSpec.metadata_field.
  destruct (is_none (page_direct c)) eqn:Hd.
  - apply is_none_true in Hd. rewrite Hd. simpl.
    destruct (is_none (page_vars c PNone)) eqn:Hv.
    + apply is_none_true in Hv. rewrite Hv. simpl.
      destruct (PageSpec.found (snd (store_metadata (select_metadata c) PNone)));
        reflexivity.
    + rewrite store_metadata_keeps by exact Hv.
      rewrite (found_not_none _ Hv). reflexivity.
  - rewrite (page_vars_keeps _ _ Hd), (store_metadata_keeps _ _ Hd).
    rewrite (found_not_none _ Hd). reflexivity.
Qed.

Lemma structured_block_synced (c : context) : page_synced (structured_block c).
Proof.
  unfold page_synced, structured_block. cbn [page_number res].
  unfold PageSpec.found.
  destruct (is_none (snd (store_metadata (select_metadata c) (page_vars c (page_direct c)))));
    reflexivity.
Qed.

Lemma structured_block_fields (c : context) :
  r_source_uri (res (structured_block c)) = ctx_source_uri c
  /\ r_text (res (structured_block c)) = or_default (ctx_text c) "".
Proof.
  unfold structured_block. cbn [res].
  destruct (is_none _); split; destruct (ctx_text c); reflexivity.
Qed.

Lemma uri_block_fields (st : pstate) :
  r_source_uri (res (uri_block st)) = r_source_uri (res st)
  /\ r_text (res (uri_block st)) = r_text (res st).
Proof.
  unfold uri_block.
  destruct (is_none (page_number st)); [|split; reflexivity].
  destruct (page_from_uri _); split; reflexivity.
Qed.

(** A block that tries one more method [m] when nothing was found. *)
Lemma fallback_synced (st st' : pstate) (m : option Z) :
  page_synced st ->
  st' = (if is_none (page_number st) then
           match m with
           | Some n => mk_pstate (PInt n) (set_page (res st) (PInt n))
           | None => st
           end
         else st) ->
  page_synced st'
  /\ r_page_number (res st')
     = PageSpec.first_success [r_page_number (res st); option_map PInt m].
Proof.
  unfold page_synced. intros Hs ->.
  destruct (is_none (page_number st)) eqn:Hn.
  - apply is_none_true in Hn. rewrite Hn in Hs. simpl in Hs.
    destruct m as [n|]; simpl.
    + rewrite Hs. split; reflexivity.
    + rewrite Hn. simpl. rewrite Hs. split; reflexivity.
  - split; [exact Hs|]. rewrite Hs, (found_not_none _ Hn). reflexivity.
Qed.

(** The six text patterns on small passages, and the leftmost match. *)
Example page_patterns_evaluated :
  map page_from_text
    ["Page 45"; "see p. 12"; "pg 7"; "pg.8"; "page: 9"; "(page 3)"; "[PAGE 4]";
     "page 45th, then page 6"; "homepage 5"; ""]
  = [Some 45; Some 12; Some 7; Some 8; Some 9; Some 3; Some 4; Some 6; None; None].
Proof. vm_compute. reflexivity. Qed.

(** What the three structured probes give, read from the fields of the
    context. *)
Lemma first_bound_direct (c : context) (p : pyval) :
  PageSpec.first_bound PageSpec.object_names (ctx_attrs c) = Some p -> page_direct c = p.
Proof.
  unfold page_direct, dict_has, dict_get_default. cbn [PageSpec.object_names PageSpec.first_bound].
  destruct (dict_get "page_number" (ctx_attrs c)); [intro H; inversion H; reflexivity|].
  destruct (dict_get "page" (ctx_attrs c)); [intro H; inversion H; reflexivity|].
  destruct (dict_get "page_num" (ctx_attrs c)); [intro H; inversion H; reflexivity|].
  destruct (dict_get "pageNumber" (ctx_attrs c)); [intro H; inversion H; reflexivity|].
  discriminate.
Qed.

Lemma lacks_page_direct (c : context) :
  PageSpec.lacks_page PageSpec.object_names (ctx_attrs c) = true -> page_direct c = PNone.
Proof.
  unfold page_direct, dict_has, dict_get_default, PageSpec.lacks_page.
  cbn [PageSpec.object_names forallb].
  destruct (dict_get "page_number" (ctx_attrs c)) as [[| |]|];
    try discriminate; try reflexivity.
  destruct (dict_get "page" (ctx_attrs c)) as [[| |]|];
    try discriminate; try reflexivity.
  destruct (dict_get "page_num" (ctx_attrs c)) as [[| |]|];
    try discriminate; try reflexivity.
  destruct (dict_get "pageNumber" (ctx_attrs c)) as [[| |]|];
    try discriminate; reflexivity.
Qed.

Lemma truthy_not_none (p : pyval) : truthy p = true -> is_none p = false.
Proof. destruct p; [discriminate|reflexivity|reflexivity]. Qed.

Lemma first_true_vars (d : dict) (p : pyval) :
  PageSpec.first_true PageSpec.object_names d = Some p ->
  py_or (dict_get_default "page_number" d)
    (py_or (dict_get_default "page" d)
       (py_or (dict_get_default "page_num" d) (dict_get_default "pageNumber" d))) = p
  /\ is_none p = false.
Proof.
  unfold py_or, dict_get_default. cbn [PageSpec.object_names PageSpec.first_true].
  destruct (dict_get "page_number" d) as [v1|];
    [destruct (truthy v1) eqn:H1;
     [intro H; inversion H; subst; split; [reflexivity|apply truthy_not_none, H1]|]|];
    cbn [truthy];
    (destruct (dict_get "page" d) as [v2|];
     [destruct (truthy v2) eqn:H2;
      [intro H; inversion H; subst; split; [reflexivity|apply truthy_not_none, H2]|]|];
     cbn [truthy];
     (destruct (dict_get "page_num" d) as [v3|];
      [destruct (truthy v3) eqn:H3;
       [intro H; inversion H; subst; split; [reflexivity|apply truthy_not_none, H3]|]|];
      cbn [truthy];
      (destruct (dict_get "pageNumber" d) as [v4|];
       [destruct (truthy v4) eqn:H4;
        [intro H; inversion H; subst; split; [reflexivity|apply truthy_not_none, H4]|]|];
       discriminate))).
Qed.

Lemma first_true_metadata (d : dict) (p : pyval) :
  PageSpec.first_true PageSpec.metadata_names d = Some p ->
  page_of_dict d = p /\ is_none p = false /\ dict_truthy d = true.
Proof.
  intro H. assert (Hd : dict_truthy d = true) by (destruct d; [discriminate H|reflexivity]).
  revert H. unfold page_of_dict, py_or, dict_get_default.
  cbn [PageSpec.metadata_names PageSpec.first_true].
  destruct (dict_get "page_number" d) as [v1|];
    [destruct (truthy v1) eqn:H1;
     [intro H; inversion H; subst; repeat split;
      [apply truthy_not_none, H1|exact Hd]|]|];
    cbn [truthy];
    (destruct (dict_get "page" d) as [v2|];
     [destruct (truthy v2) eqn:H2;
      [intro H; inversion H; subst; repeat split;
       [apply truthy_not_none, H2|exact Hd]|]|];
     cbn [truthy];
     (destruct (dict_get "page_num" d) as [v3|];
      [destruct (truthy v3) eqn:H3;
       [intro H; inversion H; subst; repeat split;
        [apply truthy_not_none, H3|exact Hd]|]|];
      discriminate)).
Qed.

Lemma lacks_page_vars (d : dict) :
  PageSpec.lacks_page PageSpec.object_names d = true ->
  py_or (dict_get_default "page_number" d)
    (py_or (dict_get_default "page" d)
       (py_or (dict_get_default "page_num" d) (dict_get_default "pageNumber" d))) = PNone.
Proof.
  unfold py_or, dict_get_default, PageSpec.lacks_page.
  cbn [PageSpec.object_names forallb].
  destruct (dict_get "page_number" d) as [[| |]|]; try discriminate;
    destruct (dict_get "page" d) as [[| |]|]; try discriminate;
    destruct (dict_get "page_num" d) as [[| |]|]; try discriminate;
    destruct (dict_get "pageNumber" d) as [[| |]|]; try discriminate; reflexivity.
Qed.

Lemma lacks_page_metadata (d : dict) :
  PageSpec.lacks_page PageSpec.metadata_names d = true -> page_of_dict d = PNone.
Proof.
  unfold page_of_dict, py_or, dict_get_default, PageSpec.lacks_page.
  cbn [PageSpec.metadata_names forallb].
  destruct (dict_get "page_number" d) as [[| |]|]; try discriminate;
    destruct (dict_get "page" d) as [[| |]|]; try discriminate;
    destruct (dict_get "page_num" d) as [[| |]|]; try discriminate; reflexivity.
Qed.

Lemma lacks_page_instance (c : context) :
  (forall vars, ctx_vars c = Some vars ->
                PageSpec.lacks_page PageSpec.object_names vars = true) ->
  page_vars c PNone = PNone.
Proof.
  intro H. unfold page_vars. destruct (ctx_vars c) as [vars|]; [|reflexivity].
  cbn [is_none]. apply lacks_page_vars, H. reflexivity.
Qed.

Lemma lacks_page_stored (m : option metadata_obj) :
  PageSpec.metadata_lacks_page m = true -> snd (store_metadata m PNone) = PNone.
Proof.
  destruct m as [[d|attrs vars|b [d|]]|]; cbn [PageSpec.metadata_lacks_page store_metadata snd is_none];
    try reflexivity; apply lacks_page_metadata.
Qed.

(** A passage without a structured page field leaves the structured
    probes without a page. *)
Lemma unstructured_fields (c : context) :
  PageSpec.unstructured c = true ->
  PageSpec.object_field c = None
  /\ PageSpec.instance_field c = None
  /\ PageSpec.metadata_field c = None.
Proof.
  unfold PageSpec.unstructured. intro H.
  apply andb_prop in H. destruct H as [H Hr].
  apply andb_prop in H. destruct H as [H Hm].
  apply andb_prop in H. destruct H as [Ha Hv].
  unfold PageSpec.object_field, PageSpec.instance_field, PageSpec.metadata_field.
  rewrite (lacks_page_direct c Ha).
  rewrite lacks_page_instance
    by (intros vars Hvars; rewrite Hvars in Hv; exact Hv).
  assert (Hsel : PageSpec.metadata_lacks_page (select_metadata c) = true).
  { unfold select_metadata.
    destruct (ctx_metadata c) as [m|]; [destruct (meta_truthy m); [exact Hm|]|];
      (destruct (ctx_rag_metadata c) as [m'|]; [destruct (meta_truthy m'); [exact Hr|]|];
       reflexivity). }
  rewrite (lacks_page_stored _ Hsel). repeat split.
Qed.

(** C7. The page number attached to a retrieved passage is the result of
    the first method that succeeds, in the order: structured page field
    (on the object, in its instance dictionary, on its metadata), then the
    [#page=N] fragment of the source URI, then the textual patterns; the
    key holds one value or is absent. Read from the fields of the passage:
    the first page attribute the object has ([page_number], [page],
    [page_num], [pageNumber]), when it is not [None], is the page number,
    whatever the metadata, the source URI and the text are; without one,
    the first true value under these names in the instance dictionary is;
    without one, the first true value under [page_number], [page],
    [page_num] of the metadata ([metadata], or [rag_metadata] when
    [metadata] is missing) is, whatever the source URI and the text are.
    A passage without a structured page field whose source URI is
    gs://b/f.pdf#page=12 gets page 12 whatever its text is; a passage
    without a structured page field and without [#page=] in its source
    URI gets what the text patterns give, and no page number when they
    give none. The patterns read the 45 of "see page 45", "p. 45",
    "pg 45", "(page 45)" and "[page 45]". *)
Theorem page_extraction_priority :
  (forall c : context, r_page_number (build_result c) = PageSpec.page_chain c)
  /\ (forall c p,
         PageSpec.first_bound PageSpec.object_names (ctx_attrs c) = Some p ->
         p <> PNone ->
         r_page_number (build_result c) = Some p)
  /\ (forall c vars p,
         PageSpec.lacks_page PageSpec.object_names (ctx_attrs c) = true ->
         ctx_vars c = Some vars ->
         PageSpec.first_true PageSpec.object_names vars = Some p ->
         r_page_number (build_result c) = Some p)
  /\ (forall c m d p,
         PageSpec.lacks_page PageSpec.object_names (ctx_attrs c) = true ->
         (forall vars, ctx_vars c = Some vars ->
                       PageSpec.lacks_page PageSpec.object_names vars = true) ->
         ctx_metadata c = Some m \/ (ctx_metadata c = None /\ ctx_rag_metadata c = Some m) ->
         m = MetaDict d \/ (exists vars, m = MetaObject d vars) ->
         PageSpec.first_true PageSpec.metadata_names d = Some p ->
         r_page_number (build_result c) = Some p)
  /\ (forall c,
         PageSpec.unstructured c = true ->
         ctx_source_uri c = Some "gs://b/f.pdf#page=12" ->
         r_page_number (build_result c) = Some (PInt 12))
  /\ (forall c,
         PageSpec.unstructured c = true ->
         PageSpec.no_page_fragment c = true ->
         r_page_number (build_result c)
         = option_map PInt (page_from_text (or_default (ctx_text c) "")))
  /\ map page_from_text
       ["see page 45"; "p. 45"; "pg 45"; "(page 45)"; "[page 45]"; "chapter 45"]
     = [Some 45; Some 45; Some 45; Some 45; Some 45; None].
Proof.
  assert (Hmain : forall c, r_page_number (build_result c) = PageSpec.page_chain c).
  { intro c. unfold build_result.
    assert (Hdbg : forall st, r_page_number (res (debug_block c st)) = r_page_number (res st)).
    { intro st. unfold debug_block. destruct (is_none (page_number st)); reflexivity. }
    rewrite Hdbg.
    destruct (structured_block_fields c) as [Huri Htext].
    destruct (uri_block_fields (structured_block c)) as [_ Htext'].
    destruct (fallback_synced (structured_block c) (uri_block (structured_block c))
                (page_from_uri (ctx_source_uri c)) (structured_block_synced c))
      as [Hs1 Hp1].
    { unfold uri_block. rewrite Huri. reflexivity. }
    destruct (fallback_synced (uri_block (structured_block c))
                (text_block (uri_block (structured_block c)))
                (page_from_text (or_default (ctx_text c) "")) Hs1)
      as [_ Hp2].
    { unfold text_block. rewrite Htext', Htext. reflexivity. }
    rewrite Hp2, Hp1, (structured_block_synced c).
    unfold structured_block at 1. cbn [page_number].
    rewrite structured_page.
    unfold PageSpec.page_chain, PageSpec.uri_fragment, PageSpec.text_pattern.
    destruct (PageSpec.object_field c); [reflexivity|].
    destruct (PageSpec.instance_field c); [reflexivity|].
    destruct (PageSpec.metadata_field c); [reflexivity|].
    simpl. destruct (option_map PInt (page_from_uri (ctx_source_uri c))); reflexivity. }
  split; [exact Hmain|].
  split; [|split; [|split; [|split; [|split]]]].
  - intros c p Hp Hnone. rewrite Hmain. unfold PageSpec.page_chain, PageSpec.object_field.
    rewrite (first_bound_direct c p Hp).
    rewrite found_not_none by (destruct p; [exfalso; apply Hnone|..]; reflexivity).
    reflexivity.
  - intros c vars p Ha Hv Hp. rewrite Hmain.
    unfold PageSpec.page_chain, PageSpec.object_field, PageSpec.instance_field.
    rewrite (lacks_page_direct c Ha). cbn [PageSpec.found is_none PageSpec.first_success].
    destruct (first_true_vars vars p Hp) as [Hor Hnn].
    unfold page_vars. rewrite Hv. cbn [is_none]. rewrite Hor.
    rewrite (found_not_none _ Hnn). reflexivity.
  - intros c m d p Ha Hv Hm Hd Hp. rewrite Hmain.
    unfold PageSpec.page_chain, PageSpec.object_field, PageSpec.instance_field,
      PageSpec.metadata_field.
    rewrite (lacks_page_direct c Ha), (lacks_page_instance c Hv).
    cbn [PageSpec.found is_none PageSpec.first_success].
    destruct (first_true_metadata d p Hp) as [Hpage [Hnn Htrue]].
    assert (Hsel : select_metadata c = Some m).
    { assert (Hm' : meta_truthy m = true).
      { destruct Hd as [->|[vars ->]]; [exact Htrue|reflexivity]. }
      unfold select_metadata.
      destruct Hm as [Hm|[Hm Hr]]; rewrite Hm; [|rewrite Hr]; rewrite Hm'; reflexivity. }
    rewrite Hsel.
    assert (Hst : snd (store_metadata (Some m) PNone) = p).
    { destruct Hd as [->|[vars ->]]; cbn [store_metadata snd is_none]; exact Hpage. }
    rewrite Hst, (found_not_none _ Hnn). reflexivity.
  - intros c Hu Huri. rewrite Hmain. unfold PageSpec.page_chain.
    destruct (unstructured_fields c Hu) as [-> [-> ->]].
    unfold PageSpec.uri_fragment. rewrite Huri. reflexivity.
  - intros c Hu Hf. rewrite Hmain. unfold PageSpec.page_chain.
    destruct (unstructured_fields c Hu) as [-> [-> ->]].
    unfold PageSpec.uri_fragment, PageSpec.text_pattern, PageSpec.no_page_fragment in *.
    assert (Hnone : page_from_uri (ctx_source_uri c) = None).
    { unfold page_from_uri. destruct (ctx_source_uri c) as [u|]; [|reflexivity].
      apply negb_true_iff in Hf. rewrite Hf, andb_false_r. reflexivity. }
    rewrite Hnone. cbn [option_map PageSpec.first_success].
    destruct (option_map PInt (page_from_text (or_default (ctx_text c) ""))); reflexivity.
  - vm_compute. reflexivity.
Qed.

(** The passage of gs://b/f.pdf#page=12 whose text says page 45: a page
    attribute of the object, a page in its instance dictionary and a page
    in its metadata each win over the fragment, the fragment wins over
    the text, and the text is read when there is no fragment. *)
Lemma page_extraction_priority_witness :
  r_page_number (build_result (Samples.paged_context [("page", PInt 7)] None None))
  = Some (PInt 7)
  /\ r_page_number
       (build_result (Samples.paged_context [] (Some [("page_num", PInt 8)]) None))
     = Some (PInt 8)
  /\ r_page_number
       (build_result
          (Samples.paged_context [("page_number", PNone)] None
             (Some (MetaDict [("board", PStr "CBSE"); ("page", PInt 9)]))))
     = Some (PInt 9)
  /\ r_page_number
       (build_result
          (Samples.paged_context [] None (Some (MetaDict [("board", PStr "CBSE")]))))
     = Some (PInt 12)
  /\ r_page_number
       (build_result
          (mk_context (Some "as shown on page 45") (Some "gs://b/f.pdf") None [] None []
             None None))
     = Some (PInt 45).
Proof.
  destruct page_extraction_priority as [_ [Hobj [Hinst [Hmeta [Huri [Htext _]]]]]].
  split; [|split; [|split; [|split]]].
  - apply Hobj; [reflexivity|discriminate].
  - apply (Hinst _ [("page_num", PInt 8)]); reflexivity.
  - apply (Hmeta _ (MetaDict [("board", PStr "CBSE"); ("page", PInt 9)])
             [("board", PStr "CBSE"); ("page", PInt 9)]).
    + reflexivity.
    + intros vars Hv. discriminate Hv.
    + left. reflexivity.
    + left. reflexivity.
    + reflexivity.
  - apply Huri; reflexivity.
  - exact (Htext
             (mk_context (Some "as shown on page 45") (Some "gs://b/f.pdf") None [] None []
                None None)
             eq_refl eq_refl).
Defined.

(** *** The request size and the cap on kept results *)

Lemma create_metadata_filter_nonempty (mf : dict) :
  create_metadata_filter mf <> [] -> dict_or_none (Some mf) = Some mf.
Proof.
  destruct mf as [|kv mf]; [intro H; exfalso; apply H; reflexivity|reflexivity].
Qed.

Lemma active_filter_nonempty (f : dict) : f <> [] -> active_filter (Some f) = Some f.
Proof.
  destruct f as [|kv f]; [intro H; exfalso; apply H; reflexivity|reflexivity].
Qed.

(** [prepare] gives a value only through its last line; the request it
    holds is read off there. *)
Lemma prepare_request (cfg : config) (api : rag_api) (corpus_id : string)
  (top_k : Z) (thr : Q) (metadata_filter : option dict) (p : prepared) :
  prepare cfg api corpus_id top_k thr metadata_filter = Ok p ->
  p_normalized_filter p = option_map create_metadata_filter (dict_or_none metadata_filter)
  /\ rc_top_k (p_retrieval_config p)
     = match active_filter (p_normalized_filter p) with
       | Some _ => top_k * 2
       | None => top_k
       end.
Proof.
  unfold prepare.
  destruct (RagResource_raises api _); simpl; [discriminate|].
  destruct (RagRetrievalConfig_raises api _ _); simpl; [discriminate|].
  intro H. inversion H; subst; clear H. cbn [p_normalized_filter p_retrieval_config rc_top_k].
  split; [|reflexivity].
  destruct (dict_or_none metadata_filter); reflexivity.
Qed.

(** While fewer than [top_k] results are kept, the loop under an active
    filter ends with at most [top_k]. *)
Lemma collect_capped (top_k : Z) (f : dict) (contexts : list context) :
  f <> [] ->
  forall results : list result,
    Z.of_nat (List.length results) < top_k ->
    Z.of_nat (List.length (collect top_k (Some f) contexts results)) <= top_k.
Proof.
  intros Hf. induction contexts as [|context rest IH]; intros results Hlt.
  - simpl. lia.
  - cbn [collect]. rewrite (active_filter_nonempty f Hf).
    destruct (passes_filter f (build_result context)).
    + destruct (Z.geb (Z.of_nat (List.length (results ++ [build_result context])%list)) top_k)
        eqn:Hge.
      * rewrite length_app in *. simpl in *. lia.
      * apply IH. rewrite Z.geb_leb in Hge. apply Z.leb_gt in Hge. exact Hge.
    + apply IH. exact Hlt.
Qed.

Lemma process_response_capped (top_k : Z) (f : dict) (response : retrieval_response) :
  f <> [] -> 1 <= top_k ->
  Z.of_nat (List.length (process_response top_k (Some f) response)) <= top_k.
Proof.
  intros Hf Hk. destruct response as [|l|l]; simpl; [lia| |];
    apply collect_capped; simpl; try assumption; lia.
Qed.

(** C4 (amended). When the metadata filter keeps at least one recognised
    schema field after [create_metadata_filter] and [top_k] is at least 1,
    the retrieval request asks for [2 * top_k] candidates and [results]
    has at most [top_k] entries (a response without [results] is an error
    response). When no filter is given, or the filter is empty or has no
    recognised field, the request asks for exactly [top_k]. *)
Theorem top_k_cap_under_filter (cfg : config) (api : rag_api)
  (corpus_id query_text : string) (top_k : Z) (thr : Q) (mf : dict) :
  create_metadata_filter mf <> [] ->
  1 <= top_k ->
  (forall p, prepare cfg api corpus_id top_k thr (Some mf) = Ok p ->
             rc_top_k (p_retrieval_config p) = 2 * top_k)
  /\ (let r := query_rag_corpus cfg api corpus_id query_text (Some top_k) (Some thr)
                 (Some mf) in
      match results r with
      | Some l => Z.of_nat (List.length l) <= top_k
      | None => status r = "error"
      end)
  /\ (forall other p,
         option_map create_metadata_filter (dict_or_none other) = None
         \/ option_map create_metadata_filter (dict_or_none other) = Some [] ->
         prepare cfg api corpus_id top_k thr other = Ok p ->
         rc_top_k (p_retrieval_config p) = top_k).
Proof.
  intros Hf Hk. split; [|split].
  - intros p Hp. apply prepare_request in Hp. destruct Hp as [Hnf Hreq].
    rewrite Hreq, Hnf, (create_metadata_filter_nonempty mf Hf). cbn [option_map].
    rewrite (active_filter_nonempty _ Hf). lia.
  - unfold query_rag_corpus, query_body. cbn [or_default].
    destruct (prepare cfg api corpus_id top_k thr (Some mf)) as [p|e] eqn:Hp;
      [|reflexivity].
    cbn [bind]. apply prepare_request in Hp. destruct Hp as [Hnf _].
    destruct (retrieval_query api _ _ _) as [response|e]; [|reflexivity].
    cbn [bind try_except query_success results].
    rewrite Hnf, (create_metadata_filter_nonempty mf Hf). cbn [option_map].
    apply process_response_capped; assumption.
  - intros other p Hother Hp. apply prepare_request in Hp. destruct Hp as [Hnf Hreq].
    rewrite Hreq, Hnf. destruct Hother as [-> | ->]; reflexivity.
Qed.

(** Ten passages that all match the filter board CBSE, asked with
    [top_k = 5]. *)
Lemma top_k_cap_under_filter_witness :
  let cbse := Samples.tagged_context "Light travels in straight lines."
                [("board", PStr "CBSE")] in
  let api := Samples.steady_api [] (repeat cbse 10) in
  (forall p, prepare Samples.cfg api "42" 5 (1 # 2) (Some [("board", PStr "CBSE")]) = Ok p ->
             rc_top_k (p_retrieval_config p) = 2 * 5)
  /\ (let r := query_rag_corpus Samples.cfg api "42" "light" (Some 5) (Some (1 # 2))
                 (Some [("board", PStr "CBSE")]) in
      match results r with
      | Some l => Z.of_nat (List.length l) <= 5
      | None => status r = "error"
      end)
  /\ (forall other p,
         option_map create_metadata_filter (dict_or_none other) = None
         \/ option_map create_metadata_filter (dict_or_none other) = Some [] ->
         prepare Samples.cfg api "42" 5 (1 # 2) other = Ok p ->
         rc_top_k (p_retrieval_config p) = 5).
Proof.
  intros cbse api.
  apply (top_k_cap_under_filter Samples.cfg api "42" "light" 5 (1 # 2)
           [("board", PStr "CBSE")]).
  - vm_compute. discriminate.
  - lia.
Defined.

(** In that call all ten candidates pass the filter and five are kept. *)
Example ten_matching_five_kept :
  let cbse := Samples.tagged_context "Light travels in straight lines."
                [("board", PStr "CBSE")] in
  let api := Samples.steady_api [] (repeat cbse 10) in
  forallb (passes_filter (create_metadata_filter [("board", PStr "CBSE")]))
    (map build_result (repeat cbse 10)) = true
  /\ count (query_rag_corpus Samples.cfg api "42" "light" (Some 5) (Some (1 # 2))
              (Some [("board", PStr "CBSE")])) = Some 5%nat.
Proof.
  split; vm_compute; reflexivity.
Qed.

(** The number of candidates the retrieval call receives for [top_k = 5]:
    10 with a recognised filter field, 5 with an unrecognised one, 5
    without a filter. *)
Example requested_top_k_observed :
  let ask mf := error_message
                  (query_rag_corpus Samples.cfg Samples.echo_api "42" "light" (Some 5)
                     None mf) in
  ask (Some [("board", PStr "CBSE")]) = Some "10"
  /\ ask (Some [("author", PStr "Rao")]) = Some "5"
  /\ ask None = Some "5".
Proof.
  repeat split; vm_compute; reflexivity.
Qed.

(** A filter whose only field is not in the schema: the filter is
    supplied, its normal form is empty, and the request asks for
    [top_k = 5] candidates, not 10. *)
Lemma unrecognised_filter_requests_top_k :
  let api := Samples.steady_api [] [] in
  exists p,
    prepare Samples.cfg api "42" 5 (1 # 2) (Some [("author", PStr "Rao")]) = Ok p
    /\ p_normalized_filter p = Some []
    /\ rc_top_k (p_retrieval_config p) = 5
    /\ rc_top_k (p_retrieval_config p) <> 2 * 5.
Proof.
  eexists. split; [reflexivity|]. repeat split. discriminate.
Qed.

(** *** No corpora *)

(** C5 (amended). When the listing succeeds with no corpus,
    [search_all_corpora] returns the dict with status "warning" and the
    message "No corpora found to search in", and no other key: there is no
    [results] key in it. *)
Theorem empty_corpus_warning (cfg : config) (api : rag_api) (query_text : string)
  (top_k_per_corpus : option Z) (thr : option Q) (metadata_filter : option dict) :
  list_corpora api = Ok [] ->
  search_all_corpora cfg api query_text top_k_per_corpus thr metadata_filter
  = mk_response "warning" None None None None None
      (Some "No corpora found to search in") None None None None None None.
Proof.
  intro Hl. unfold search_all_corpora, search_all_body, list_rag_corpora.
  rewrite Hl. reflexivity.
Qed.

Lemma empty_corpus_warning_witness :
  search_all_corpora Samples.cfg (Samples.steady_api [] []) "cells" None None None
  = mk_response "warning" None None None None None
      (Some "No corpora found to search in") None None None None None None.
Proof.
  apply (empty_corpus_warning Samples.cfg (Samples.steady_api [] [])).
  reflexivity.
Defined.

(** With no corpus the returned dict has no [results]; it is not the
    empty list. *)
Lemma empty_corpus_no_results_key :
  let r := search_all_corpora Samples.cfg (Samples.steady_api [] []) "cells" None None
             None in
  status r = "warning" /\ results r = None /\ results r <> Some [].
Proof.
  repeat split. discriminate.
Qed.

(** *** Exceptions stop at the three operations *)




(** *** The aggregation loop *)

Lemma dict_has_set {V : Type} (key k : string) (v : V) (d : list (string * V)) :
  dict_has key (dict_set k v d) = String.eqb key k || dict_has key d.
Proof.
  unfold dict_has. induction d as [|[k' v'] d IH]; simpl.
  - destruct (String.eqb key k); reflexivity.
  - destruct (String.eqb k k') eqn:Hk; simpl.
    + apply String.eqb_eq in Hk. subst k'.
      destruct (String.eqb key k); reflexivity.
    + destruct (String.eqb key k') eqn:Hkey.
      * destruct (String.eqb key k); reflexivity.
      * exact IH.
Qed.

Lemma existsb_eqb_In (key : string) (l : list string) :
  existsb (String.eqb key) l = true <-> In key l.
Proof.
  rewrite existsb_exists. split.
  - intros [x [Hin Heq]]. apply String.eqb_eq in Heq. subst. exact Hin.
  - intro Hin. exists key. split; [exact Hin|apply String.eqb_refl].
Qed.

Lemma insert_desc_perm (x : result) (l : list result) :
  Permutation (insert_desc x l) (x :: l).
Proof.
  induction l as [|y l IH]; simpl.
  - apply Permutation_refl.
  - destruct (Qle_bool (sort_key y) (sort_key x)).
    + apply Permutation_refl.
    + apply perm_trans with (y :: x :: l).
      * apply perm_skip, IH.
      * apply perm_swap.
Qed.

Lemma sort_desc_perm (l : list result) : Permutation (sort_desc l) l.
Proof.
  induction l as [|x l IH]; simpl.
  - apply perm_nil.
  - apply perm_trans with (x :: sort_desc l).
    + apply insert_desc_perm.
    + apply perm_skip, IH.
Qed.

Lemma sort_desc_In (x : result) (l : list result) : In x (sort_desc l) <-> In x l.
Proof.
  split; apply Permutation_in; [|apply Permutation_sym]; apply sort_desc_perm.
Qed.

Section Aggregation.

Variables (cfg : config) (api : rag_api) (query_text : string).
Variables (k : Z) (thr : Q) (mf : option dict).

Let step := corpus_step cfg api query_text k thr mf.
Let succeeded := Notions.succeeded cfg api query_text k thr mf.
Let kept := Notions.kept cfg api query_text k thr mf.
Let contributes := Notions.contributes cfg api query_text k thr mf.

(** One turn of the loop, by the answer of the corpus. *)
Lemma corpus_step_cases (st : astate) (c : corpus_entry) :
  step st c
  = if succeeded c then
      if dict_truthy (kept c) then
        mk_astate (all_results st ++ kept c)%list
          (dict_set (ce_display_name c)
             (mk_corpus_result (ce_id c) (ce_display_name c) (kept c)
                (List.length (kept c)))
             (corpus_results_map st))
          (searched st ++ [ce_display_name c])%list
      else mk_astate (all_results st ++ kept c)%list (corpus_results_map st) (searched st)
    else st.
Proof. reflexivity. Qed.

(** A corpus that does not contribute leaves the accumulators as they
    are, whether its query failed or kept nothing. *)
Lemma corpus_step_idle (st : astate) (c : corpus_entry) :
  contributes c = false -> step st c = st.
Proof.
  intro Hc. rewrite corpus_step_cases.
  unfold contributes, Notions.contributes in Hc. fold succeeded kept in Hc.
  destruct (succeeded c); [|reflexivity].
  simpl in Hc. rewrite Hc.
  destruct (kept c) as [|x l]; [|discriminate Hc].
  rewrite app_nil_r. destruct st; reflexivity.
Qed.

(** The accumulators after the loop. *)
Lemma loop_accumulates (corpora : list corpus_entry) :
  forall st : astate,
    let st' := fold_left step corpora st in
    all_results st' = (all_results st ++ flat_map kept (filter succeeded corpora))%list
    /\ searched st'
       = (searched st ++ map ce_display_name (filter contributes corpora))%list
    /\ (forall key,
           dict_has key (corpus_results_map st')
           = dict_has key (corpus_results_map st)
             || existsb (String.eqb key)
                  (map ce_display_name (filter contributes corpora))).
Proof.
  induction corpora as [|c corpora IH]; intro st; cbn [fold_left filter].
  - cbn [flat_map map existsb]. rewrite !app_nil_r. repeat split.
    intro key. rewrite orb_false_r. reflexivity.
  - destruct (IH (step st c)) as [Ha [Hs Hm]]. cbv zeta.
    rewrite Ha, Hs. rewrite corpus_step_cases in *.
    unfold contributes, Notions.contributes. fold succeeded kept.
    destruct (succeeded c) eqn:Hsuc; cbn [andb].
    + destruct (dict_truthy (kept c)) eqn:Hk;
        cbn [all_results searched corpus_results_map flat_map map existsb] in *.
      * rewrite <- !app_assoc. repeat split.
        intro key. rewrite Hm, dict_has_set.
        unfold contributes, Notions.contributes. fold succeeded kept.
        destruct (String.eqb key (ce_display_name c));
          destruct (dict_has key (corpus_results_map st)); reflexivity.
      * rewrite <- !app_assoc. repeat split. exact Hm.
    + repeat split. exact Hm.
Qed.

(** Every searched name has its entry, so the summary loop finds each. *)
Lemma summarize_lines (crm : list (string * corpus_result)) (names : list string) :
  (forall n, In n names -> dict_has n crm = true) ->
  summarize crm names = Ok (map (summary_line crm) names).
Proof.
  induction names as [|n names IH]; intro Hall; cbn [summarize map].
  - reflexivity.
  - assert (Hn : dict_has n crm = true) by (apply Hall; left; reflexivity).
    unfold dict_has in Hn. unfold summary_line at 1.
    destruct (dict_get n crm) as [d|]; [|discriminate Hn].
    rewrite IH by (intros m Hm; apply Hall; right; exact Hm). reflexivity.
Qed.

(** The dict [search_all_corpora] returns when the listing gives at
    least one corpus. *)
Lemma search_all_body_success (sdk : list RagCorpus) :
  list_corpora api = Ok sdk -> sdk <> [] ->
  let corpora := map (list_step api) sdk in
  let st := fold_left step corpora (mk_astate [] [] []) in
  let names := map ce_display_name (filter contributes corpora) in
  search_all_body cfg api query_text k thr mf
  = Ok (mk_response "success" None (Some (sort_desc (all_results st)))
          (Some (List.length (sort_desc (all_results st)))) (Some query_text)
          (dict_or_none mf)
          (Some ("Found " ++ PyStr.of_nat (List.length (sort_desc (all_results st)))
                   ++ " results for query '" ++ query_text ++ "' across "
                   ++ PyStr.of_nat (List.length (searched st)) ++ " corpora"
                   ++ match dict_or_none mf with
                      | Some m => " with metadata filter: " ++ dict_repr m
                      | None => ""
                      end))
          None None
          (Some (corpus_results_map st)) (Some (searched st))
          (Some (map (summary_line (corpus_results_map st)) names))
          (Some "Each result includes a citation indicating its source corpus and file."))
  /\ all_results st = flat_map kept (filter succeeded corpora)
  /\ searched st = names
  /\ (forall key, dict_has key (corpus_results_map st) = true <-> In key names).
Proof.
  intros Hl Hne corpora st names.
  destruct (loop_accumulates corpora (mk_astate [] [] [])) as [Ha [Hs Hm]].
  fold st in Ha, Hs, Hm. cbn [all_results searched corpus_results_map app] in Ha, Hs, Hm.
  fold names in Hs, Hm.
  assert (Hkeys : forall key, dict_has key (corpus_results_map st) = true <-> In key names).
  { intro key. rewrite Hm. cbn [dict_has dict_get orb]. apply existsb_eqb_In. }
  split; [|split; [exact Ha|split; [exact Hs|exact Hkeys]]].
  unfold search_all_body, list_rag_corpora. rewrite Hl.
  cbn [bind try_except l_status l_corpora or_default]. cbn [String.eqb negb].
  change (negb ("success" =? "success")%string) with false. cbv iota.
  fold corpora.
  assert (Hd : dict_truthy corpora = true).
  { unfold corpora. destruct sdk; [exfalso; apply Hne; reflexivity|reflexivity]. }
  rewrite Hd. cbn [negb]. fold step. fold st.
  rewrite summarize_lines.
  - cbn [bind]. rewrite Hs. reflexivity.
  - intros n Hn. apply Hkeys. rewrite <- Hs. exact Hn.
Qed.

End Aggregation.

(** The answer for a corpus depends on its id only. *)
Lemma succeeded_by_id (cfg : config) (api : rag_api) (query_text : string) (k : Z)
  (thr : Q) (mf : option dict) (c c' : corpus_entry) :
  ce_id c' = ce_id c ->
  succeeded cfg api query_text k thr mf c' = succeeded cfg api query_text k thr mf c.
Proof.
  intro H. unfold succeeded, answer. rewrite H. reflexivity.
Qed.

Lemma kept_corpus_id (cfg : config) (api : rag_api) (query_text : string) (k : Z)
  (thr : Q) (mf : option dict) (c : corpus_entry) (x : result) :
  In x (kept cfg api query_text k thr mf c) -> r_corpus_id x = Some (ce_id c).
Proof.
  unfold kept. rewrite in_map_iff. intros [y [Hy _]]. subst x. reflexivity.
Qed.

Lemma not_contributing_name (contributes : corpus_entry -> bool)
  (corpora : list corpus_entry) (c : corpus_entry) :
  (forall c', In c' corpora -> contributes c' = true ->
              ce_display_name c' <> ce_display_name c) ->
  ~ In (ce_display_name c) (map ce_display_name (filter contributes corpora)).
Proof.
  intros Hdistinct Hin. apply in_map_iff in Hin. destruct Hin as [c' [Hname Hc']].
  apply filter_In in Hc'. destruct Hc' as [Hin Hcontrib].
  exact (Hdistinct c' Hin Hcontrib Hname).
Qed.

(** *** What the three operations report *)








(** *** Partial failure *)

(** C6. When the listing gives at least one corpus, [search_all_corpora]
    returns status "success" whatever number of per-corpus queries
    fail; [results] is the sorted merge of the annotated results of the
    corpora whose query succeeded, and [searched_corpora] has one entry
    for each corpus whose query succeeded and kept a result, in listing
    order. So a corpus whose query failed has no result carrying its id
    in [results], and its name is not in [searched_corpora] unless a
    contributing corpus has the same display name. *)
Theorem partial_failure_isolation (cfg : config) (api : rag_api) (query_text : string)
  (top_k : option Z) (thr : option Q) (mf : option dict) (sdk : list RagCorpus) :
  list_corpora api = Ok sdk ->
  sdk <> [] ->
  let k := or_default top_k (RAG_DEFAULT_SEARCH_TOP_K cfg) in
  let t := or_default thr (RAG_DEFAULT_VECTOR_DISTANCE_THRESHOLD cfg) in
  let corpora := map (list_step api) sdk in
  let r := search_all_corpora cfg api query_text top_k thr mf in
  status r = "success"
  /\ results r
     = Some (sort_desc (flat_map (kept cfg api query_text k t mf)
                          (filter (succeeded cfg api query_text k t mf) corpora)))
  /\ searched_corpora r
     = Some (map ce_display_name (filter (contributes cfg api query_text k t mf) corpora))
  /\ (forall c,
         In c corpora ->
         status (answer cfg api query_text k t mf c) <> "success" ->
         (forall x, In x (or_default (results r) []) -> r_corpus_id x <> Some (ce_id c))
         /\ ((forall c', In c' corpora ->
                         contributes cfg api query_text k t mf c' = true ->
                         ce_display_name c' <> ce_display_name c) ->
             ~ In (ce_display_name c) (or_default (searched_corpora r) []))).
Proof.
  intros Hl Hne k t corpora r.
  destruct (search_all_body_success cfg api query_text k t mf sdk Hl Hne)
    as [Hbody [Ha [Hs _]]].
  fold corpora in Hbody, Ha, Hs.
  assert (Hr : r = try_except (search_all_body cfg api query_text k t mf) search_error)
    by reflexivity.
  rewrite Hbody in Hr. cbn [try_except] in Hr. rewrite Ha, Hs in Hr.
  rewrite Hr. cbn [status results searched_corpora or_default].
  split; [reflexivity|]. split; [reflexivity|]. split; [reflexivity|].
  intros c Hc Hfail. split.
  - intros x Hx Hid. apply (proj1 (sort_desc_In _ _)) in Hx.
    apply (proj1 (in_flat_map _ _ _)) in Hx.
    destruct Hx as [c' [Hc' Hx]]. apply filter_In in Hc'. destruct Hc' as [_ Hok].
    apply kept_corpus_id in Hx. rewrite Hx in Hid. inversion Hid as [Heq].
    rewrite (succeeded_by_id cfg api query_text k t mf c c' Heq) in Hok.
    unfold succeeded in Hok. apply String.eqb_eq in Hok. exact (Hfail Hok).
  - apply not_contributing_name.
Qed.

(** Science and Maths answer, the retrieval of History raises. *)
Lemma partial_failure_isolation_witness :
  let api := Samples.flaky_api [Samples.science; Samples.history; Samples.maths]
               (Samples.corpus_path "43") "" [Samples.unit3_context] in
  let corpora := map (list_step api) [Samples.science; Samples.history; Samples.maths] in
  let r := search_all_corpora Samples.cfg api "photosynthesis" None None None in
  status r = "success"
  /\ results r
     = Some (sort_desc (flat_map (kept Samples.cfg api "photosynthesis" 5 (1 # 2) None)
                          (filter (succeeded Samples.cfg api "photosynthesis" 5 (1 # 2) None)
                             corpora)))
  /\ searched_corpora r
     = Some (map ce_display_name
               (filter (contributes Samples.cfg api "photosynthesis" 5 (1 # 2) None)
                  corpora))
  /\ (forall c,
         In c corpora ->
         status (answer Samples.cfg api "photosynthesis" 5 (1 # 2) None c) <> "success" ->
         (forall x, In x (or_default (results r) []) -> r_corpus_id x <> Some (ce_id c))
         /\ ((forall c', In c' corpora ->
                         contributes Samples.cfg api "photosynthesis" 5 (1 # 2) None c' = true ->
                         ce_display_name c' <> ce_display_name c) ->
             ~ In (ce_display_name c) (or_default (searched_corpora r) []))).
Proof.
  intros api.
  apply (partial_failure_isolation Samples.cfg api "photosynthesis" None None None
           [Samples.science; Samples.history; Samples.maths]).
  - reflexivity.
  - discriminate.
Defined.

(** The same call, evaluated. *)
Example partial_failure_evaluated :
  let api := Samples.flaky_api [Samples.science; Samples.history; Samples.maths]
               (Samples.corpus_path "43") "" [Samples.unit3_context] in
  let r := search_all_corpora Samples.cfg api "photosynthesis" None None None in
  status (query_rag_corpus Samples.cfg api "43" "photosynthesis" (Some 5) None None)
  = "error"
  /\ status r = "success"
  /\ searched_corpora r = Some ["Science"; "Maths"]
  /\ map r_corpus_name (or_default (results r) []) = [Some "Science"; Some "Maths"]
  /\ citations_summary r = Some ["Science (42): 1 results"; "Maths (44): 1 results"].
Proof.
  repeat split; vm_compute; reflexivity.
Qed.

(** *** Corpora that keep nothing *)

(** C10. In the loop of [search_all_corpora] a corpus whose query
    succeeded with no result leaves the three accumulators exactly as a
    corpus whose query failed does: unchanged. Hence, when the listing
    gives at least one corpus, [searched_corpora] lists the corpora that
    succeeded with at least one result, the keys of [corpus_results] are
    those names, and [citations_summary] has one line per entry of
    [searched_corpora]; a corpus that kept nothing, failed or not, whose
    name no contributing corpus shares, is in none of the three. *)
Theorem empty_corpus_like_failed (cfg : config) (api : rag_api) (query_text : string)
  (top_k : option Z) (thr : option Q) (mf : option dict) (sdk : list RagCorpus) :
  list_corpora api = Ok sdk ->
  sdk <> [] ->
  let k := or_default top_k (RAG_DEFAULT_SEARCH_TOP_K cfg) in
  let t := or_default thr (RAG_DEFAULT_VECTOR_DISTANCE_THRESHOLD cfg) in
  let corpora := map (list_step api) sdk in
  let r := search_all_corpora cfg api query_text top_k thr mf in
  let names :=
    map ce_display_name (filter (contributes cfg api query_text k t mf) corpora) in
  (forall st c,
      status (answer cfg api query_text k t mf c) <> "success"
      \/ (status (answer cfg api query_text k t mf c) = "success"
          /\ or_default (results (answer cfg api query_text k t mf c)) [] = []) ->
      corpus_step cfg api query_text k t mf st c = st)
  /\ searched_corpora r = Some names
  /\ (exists crm,
         corpus_results r = Some crm
         /\ (forall key, dict_has key crm = true <-> In key names)
         /\ citations_summary r = Some (map (summary_line crm) names)
         /\ (forall c,
                In c corpora ->
                contributes cfg api query_text k t mf c = false ->
                (forall c', In c' corpora ->
                            contributes cfg api query_text k t mf c' = true ->
                            ce_display_name c' <> ce_display_name c) ->
                ~ In (ce_display_name c) names
                /\ dict_get (ce_display_name c) crm = None)).
Proof.
  intros Hl Hne k t corpora r names.
  destruct (search_all_body_success cfg api query_text k t mf sdk Hl Hne)
    as [Hbody [_ [Hs Hkeys]]].
  fold corpora in Hbody, Hs, Hkeys. fold names in Hbody, Hs, Hkeys.
  assert (Hr : r = try_except (search_all_body cfg api query_text k t mf) search_error)
    by reflexivity.
  rewrite Hbody in Hr. cbn [try_except] in Hr.
  split; [|split].
  - intros st c Hidle. apply corpus_step_idle.
    unfold contributes, succeeded, kept.
    destruct Hidle as [Hfail | [Hok Hnone]].
    + destruct (String.eqb _ "success") eqn:E; [|reflexivity].
      apply String.eqb_eq in E. contradiction.
    + rewrite Hnone. apply andb_false_r.
  - rewrite Hr. cbn [searched_corpora]. rewrite Hs. reflexivity.
  - eexists. rewrite Hr. cbn [corpus_results citations_summary].
    split; [reflexivity|]. split; [exact Hkeys|]. split; [reflexivity|].
    intros c Hc Hidle Hdistinct.
    assert (Hnot : ~ In (ce_display_name c) names)
      by (apply not_contributing_name; exact Hdistinct).
    split; [exact Hnot|].
    specialize (Hkeys (ce_display_name c)). unfold dict_has in Hkeys.
    destruct (dict_get (ce_display_name c) _); [|reflexivity].
    exfalso. apply Hnot, Hkeys. reflexivity.
Qed.

(** Science answers one passage, the retrieval of History raises, Maths
    answers no passage. *)
Lemma empty_corpus_like_failed_witness :
  let api := Samples.flaky_api [Samples.science; Samples.history; Samples.maths]
               (Samples.corpus_path "43") (Samples.corpus_path "44")
               [Samples.unit3_context] in
  let corpora := map (list_step api) [Samples.science; Samples.history; Samples.maths] in
  let r := search_all_corpora Samples.cfg api "photosynthesis" None None None in
  let names :=
    map ce_display_name
      (filter (contributes Samples.cfg api "photosynthesis" 5 (1 # 2) None) corpora) in
  (forall st c,
      status (answer Samples.cfg api "photosynthesis" 5 (1 # 2) None c) <> "success"
      \/ (status (answer Samples.cfg api "photosynthesis" 5 (1 # 2) None c) = "success"
          /\ or_default (results (answer Samples.cfg api "photosynthesis" 5 (1 # 2) None c)) []
             = []) ->
      corpus_step Samples.cfg api "photosynthesis" 5 (1 # 2) None st c = st)
  /\ searched_corpora r = Some names
  /\ (exists crm,
         corpus_results r = Some crm
         /\ (forall key, dict_has key crm = true <-> In key names)
         /\ citations_summary r = Some (map (summary_line crm) names)
         /\ (forall c,
                In c corpora ->
                contributes Samples.cfg api "photosynthesis" 5 (1 # 2) None c = false ->
                (forall c', In c' corpora ->
                            contributes Samples.cfg api "photosynthesis" 5 (1 # 2) None c' = true ->
                            ce_display_name c' <> ce_display_name c) ->
                ~ In (ce_display_name c) names
                /\ dict_get (ce_display_name c) crm = None)).
Proof.
  intros api.
  apply (empty_corpus_like_failed Samples.cfg api "photosynthesis" None None None
           [Samples.science; Samples.history; Samples.maths]).
  - reflexivity.
  - discriminate.
Defined.

(** The same call, evaluated: History (failed) and Maths (empty) are
    treated alike. *)
Example empty_and_failed_evaluated :
  let api := Samples.flaky_api [Samples.science; Samples.history; Samples.maths]
               (Samples.corpus_path "43") (Samples.corpus_path "44")
               [Samples.unit3_context] in
  let r := search_all_corpora Samples.cfg api "photosynthesis" None None None in
  let ask n := query_rag_corpus Samples.cfg api n "photosynthesis" (Some 5) None None in
  status (ask "43") = "error"
  /\ (status (ask "44") = "success" /\ results (ask "44") = Some [])
  /\ searched_corpora r = Some ["Science"]
  /\ option_map (map fst) (corpus_results r) = Some ["Science"]
  /\ citations_summary r = Some ["Science (42): 1 results"].
Proof.
  repeat split; vm_compute; reflexivity.
Qed.

(* ===================================================================== *)
(** ** Further properties *)
(* ===================================================================== *)

Import SchemaReading.

(** *** Trimming *)

Lemma lstrip_by_idem (p : ascii -> bool) (s : string) :
  PyStr.lstrip_by p (PyStr.lstrip_by p s) = PyStr.lstrip_by p s.
Proof.
  induction s as [|c r IH]; simpl; [reflexivity|].
  destruct (p c) eqn:Hc; [exact IH|]. simpl. rewrite Hc. reflexivity.
Qed.

Lemma rstrip_by_idem (p : ascii -> bool) (s : string) :
  PyStr.rstrip_by p (PyStr.rstrip_by p s) = PyStr.rstrip_by p s.
Proof.
  induction s as [|c r IH]; simpl; [reflexivity|].
  destruct (PyStr.rstrip_by p r) as [|d r'] eqn:Hr.
  - destruct (p c) eqn:Hc; simpl; [reflexivity|]. rewrite Hc. reflexivity.
  - simpl in IH |- *. rewrite IH. reflexivity.
Qed.

Lemma strip_sides_commute (p : ascii -> bool) (s : string) :
  PyStr.rstrip_by p (PyStr.lstrip_by p s) = PyStr.lstrip_by p (PyStr.rstrip_by p s).
Proof.
  induction s as [|c r IH]; simpl; [reflexivity|].
  destruct (p c) eqn:Hc.
  - rewrite IH. destruct (PyStr.rstrip_by p r) as [|d r'] eqn:Hr.
    + reflexivity.
    + simpl. rewrite Hc. reflexivity.
  - simpl. destruct (PyStr.rstrip_by p r) as [|d r'] eqn:Hr; rewrite ?Hc;
      simpl; rewrite ?Hc; reflexivity.
Qed.

Lemma strip_by_idem (p : ascii -> bool) (s : string) :
  PyStr.strip_by p (PyStr.strip_by p s) = PyStr.strip_by p s.
Proof.
  unfold PyStr.strip_by.
  rewrite (strip_sides_commute p (PyStr.rstrip_by p s)).
  rewrite rstrip_by_idem, lstrip_by_idem. reflexivity.
Qed.

Lemma strip_trimmed (s : string) : trimmed (PyStr.strip s).
Proof.
  unfold trimmed, PyStr.strip, PyStr.strip_by. split.
  - apply lstrip_by_idem.
  - rewrite strip_sides_commute, rstrip_by_idem. reflexivity.
Qed.

Lemma trimmed_strip (s : string) : trimmed s -> PyStr.strip s = s.
Proof.
  intros [Hl Hr]. unfold PyStr.strip, PyStr.strip_by. rewrite Hr. exact Hl.
Qed.

Lemma lstrip_by_length (p : ascii -> bool) (s : string) :
  (String.length (PyStr.lstrip_by p s) <= String.length s)%nat.
Proof.
  induction s as [|c r IH]; simpl; [lia|]. destruct (p c); simpl; lia.
Qed.

Lemma lstrip_fixed_head (p : ascii -> bool) (c : ascii) (r : string) :
  PyStr.lstrip_by p (String c r) = String c r -> p c = false.
Proof.
  simpl. destruct (p c); [|reflexivity]. intro H.
  pose proof (lstrip_by_length p r) as Hlen. rewrite H in Hlen. simpl in Hlen. lia.
Qed.

Lemma map_chars_compose (f g : ascii -> ascii) (s : string) :
  PyStr.map_chars f (PyStr.map_chars g s) = PyStr.map_chars (fun c => f (g c)) s.
Proof.
  induction s as [|c r IH]; simpl; [reflexivity|]. rewrite IH. reflexivity.
Qed.

Lemma map_chars_ext (f g : ascii -> ascii) (s : string) :
  (forall c, f c = g c) -> PyStr.map_chars f s = PyStr.map_chars g s.
Proof.
  intro H. induction s as [|c r IH]; simpl; [reflexivity|]. rewrite H, IH. reflexivity.
Qed.

(** A character map that sends no character onto whitespace keeps a
    string trimmed. *)
Lemma trimmed_map_chars (f : ascii -> ascii) (s : string) :
  (forall c, PyStr.is_space c = false -> PyStr.is_space (f c) = false) ->
  trimmed s -> trimmed (PyStr.map_chars f s).
Proof.
  intros Hf [Hl Hr]. split.
  - destruct s as [|c r]; [reflexivity|].
    apply lstrip_fixed_head in Hl. simpl. rewrite (Hf c Hl). reflexivity.
  - clear Hl. induction s as [|c r IH]; [reflexivity|].
    simpl in Hr |- *.
    destruct (PyStr.rstrip_by PyStr.is_space r) as [|d r'] eqn:Er.
    + destruct (PyStr.is_space c) eqn:Hc; [discriminate Hr|].
      inversion Hr; subst r. simpl. rewrite (Hf c Hc). reflexivity.
    + inversion Hr as [Hr']. rewrite Hr' in *.
      rewrite (IH eq_refl). destruct r; [discriminate Hr'|]. reflexivity.
Qed.

(** Proof by inspection of the 256 characters. *)
Ltac by_chars c :=
  destruct c as [[|] [|] [|] [|] [|] [|] [|] [|]];
  vm_compute; try reflexivity; try (intro; try reflexivity; discriminate).

(** The character map of the board normal form of [validate_metadata]. *)
Lemma board_norm_chars (s : string) :
  field_norm "board" s
  = PyStr.map_chars
      (fun c => if Ascii.eqb (PyStr.to_upper c) " " then "_"%char else PyStr.to_upper c)
      (PyStr.strip s).
Proof.
  unfold field_norm, PyStr.replace_char, PyStr.upper. cbn [String.eqb Ascii.eqb Bool.eqb].
  change ("board" =? "board")%string with true. cbv iota.
  apply map_chars_compose.
Qed.

Lemma field_norm_trimmed (field s : string) : trimmed (field_norm field s).
Proof.
  destruct (String.eqb field "board") eqn:Hb.
  - apply String.eqb_eq in Hb. subst field. rewrite board_norm_chars.
    apply trimmed_map_chars; [|apply strip_trimmed].
    intro c. by_chars c.
  - unfold field_norm. rewrite Hb. apply strip_trimmed.
Qed.

Lemma field_norm_idem (field s : string) :
  field_norm field (field_norm field s) = field_norm field s.
Proof.
  destruct (String.eqb field "board") eqn:Hb.
  - apply String.eqb_eq in Hb. subst field.
    rewrite (board_norm_chars (field_norm "board" s)).
    rewrite (trimmed_strip _ (field_norm_trimmed "board" s)).
    rewrite board_norm_chars, map_chars_compose.
    apply map_chars_ext. intro c. by_chars c.
  - unfold field_norm. rewrite Hb. apply strip_by_idem.
Qed.

(** *** What validate_metadata computes *)

Lemma vstate_eta (st : vstate) :
  mk_vstate (st_errors st) (st_warnings st) (st_normalized st) = st.
Proof. destruct st; reflexivity. Qed.

(** One turn of the loop over the required fields. *)
Lemma required_step_reads (metadata : dict) (st : vstate) (f : string) :
  In f required_names ->
  required_step metadata st (f, TStr)
  = mk_vstate (st_errors st ++ required_errors metadata f)%list
      (st_warnings st ++ required_warnings metadata f)%list
      (apply_entry (normal_entry metadata f) (st_normalized st)).
Proof.
  intros [<- | [<- | [<- | []]]];
    unfold required_step, required_errors, required_warnings, normal_entry, field_norm;
    cbn [fst snd];
    destruct (dict_get _ metadata) as [[|z|s]|];
    cbn [isinstance type_of pytype_eqb negb str_of apply_entry fold_left fst snd];
    try (unfold add_error; cbn [st_errors st_warnings st_normalized];
         rewrite ?app_nil_r; reflexivity).
  all: cbn [String.eqb Ascii.eqb Bool.eqb];
    unfold warn_if, set_normalized, add_warning; cbn [pyval_eqb];
    try destruct (String.eqb _ s);
    cbn [negb st_errors st_warnings st_normalized]; rewrite ?app_nil_r; reflexivity.
Qed.

(** One turn of the loop over the optional fields. *)
Lemma optional_step_reads (metadata : dict) (strict : bool) (st : vstate) (f : string) :
  String.eqb f "board" = false ->
  optional_step metadata strict st (f, TStr)
  = mk_vstate (st_errors st ++ optional_errors metadata strict f)%list
      (st_warnings st ++ optional_warnings metadata f)%list
      (apply_entry (normal_entry metadata f) (st_normalized st)).
Proof.
  intro Hb.
  unfold optional_step, optional_errors, optional_warnings, normal_entry, field_norm,
    enum_errors.
  rewrite Hb. cbn [fst snd].
  destruct (dict_get f metadata) as [[|z|s]|];
    cbn [isinstance type_of pytype_eqb negb str_of apply_entry fold_left fst snd];
    try (unfold add_error; cbn [st_errors st_warnings st_normalized];
         rewrite ?app_nil_r; try rewrite vstate_eta; reflexivity).
  unfold warn_if, set_normalized, add_warning, add_error. cbn [pyval_eqb].
  destruct (String.eqb f "content_type" && strict
            && negb (str_in s ALLOWED_CONTENT_TYPES));
    destruct (String.eqb f "difficulty" && strict
              && negb (str_in s ALLOWED_DIFFICULTY_LEVELS));
    destruct (String.eqb (PyStr.strip s) s);
    cbn [negb st_errors st_warnings st_normalized app];
    rewrite ?app_nil_r, <- ?app_assoc; reflexivity.
Qed.

(** A loop whose turns append errors and warnings and extend the
    normalized dict. *)
Lemma loop_reads (step : vstate -> string * pytype -> vstate)
  (E W : string -> list string) (N : string -> dict) (ok : string -> Prop) :
  (forall st f, ok f ->
     step st (f, TStr)
     = mk_vstate (st_errors st ++ E f)%list (st_warnings st ++ W f)%list
         (apply_entry (N f) (st_normalized st))) ->
  forall fs st,
    (forall f, In f fs -> ok f) ->
    fold_left step (map (fun f => (f, TStr)) fs) st
    = mk_vstate (st_errors st ++ flat_map E fs)%list
        (st_warnings st ++ flat_map W fs)%list
        (fold_left (fun d f => apply_entry (N f) d) fs (st_normalized st)).
Proof.
  intros Hstep fs. induction fs as [|f fs IH]; intros st Hok.
  - simpl. rewrite !app_nil_r. symmetry. apply vstate_eta.
  - cbn [map fold_left flat_map]. rewrite Hstep by (apply Hok; left; reflexivity).
    rewrite IH by (intros g Hg; apply Hok; right; exact Hg).
    cbn [st_errors st_warnings st_normalized]. rewrite <- !app_assoc. reflexivity.
Qed.

Lemma dict_get_app {V : Type} (k : string) (d e : list (string * V)) :
  dict_get k (d ++ e)%list
  = match dict_get k d with Some v => Some v | None => dict_get k e end.
Proof.
  induction d as [|[k' v'] d IH]; simpl; [reflexivity|].
  destruct (String.eqb k k'); [reflexivity|exact IH].
Qed.

Lemma dict_set_fresh {V : Type} (k : string) (v : V) (d : list (string * V)) :
  dict_get k d = None -> dict_set k v d = (d ++ [(k, v)])%list.
Proof.
  induction d as [|[k' v'] d IH]; simpl; [reflexivity|].
  destruct (String.eqb k k'); [discriminate|]. intro H. rewrite (IH H). reflexivity.
Qed.

Lemma normal_entry_key (metadata : dict) (f g : string) :
  String.eqb g f = false -> dict_get g (normal_entry metadata f) = None.
Proof.
  intro H. unfold normal_entry.
  destruct (dict_get f metadata) as [[|z|s]|]; simpl; rewrite ?H; reflexivity.
Qed.

(** Over distinct fresh fields the assignments append, in order. *)
Lemma entries_append (metadata : dict) (fs : list string) :
  NoDup fs ->
  forall d,
    (forall f, In f fs -> dict_get f d = None) ->
    fold_left (fun d f => apply_entry (normal_entry metadata f) d) fs d
    = (d ++ flat_map (normal_entry metadata) fs)%list.
Proof.
  intro Hnd. induction Hnd as [|f fs Hf Hnd IH]; intros d Hfresh.
  - simpl. rewrite app_nil_r. reflexivity.
  - cbn [fold_left flat_map].
    assert (Hstep : apply_entry (normal_entry metadata f) d
                    = (d ++ normal_entry metadata f)%list).
    { unfold normal_entry. destruct (dict_get f metadata) as [[|z|s]|];
        cbn [apply_entry fold_left fst snd]; rewrite ?app_nil_r; try reflexivity.
      apply dict_set_fresh, Hfresh. left; reflexivity. }
    rewrite Hstep, IH, <- app_assoc; [reflexivity|].
    intros g Hg. rewrite dict_get_app, (Hfresh g (or_intror Hg)).
    apply normal_entry_key. apply String.eqb_neq. intro Heq. subst g. exact (Hf Hg).
Qed.

Lemma key_loop_reads (keys : list string) :
  forall st,
    fold_left key_step keys st
    = mk_vstate (st_errors st) (st_warnings st ++ flat_map key_warnings keys)%list
        (st_normalized st).
Proof.
  induction keys as [|key keys IH]; intro st.
  - simpl. rewrite app_nil_r. symmetry. apply vstate_eta.
  - cbn [fold_left flat_map]. rewrite IH. unfold key_step, key_warnings, warn_if, add_warning.
    destruct (String.eqb key (PyStr.lower key));
      cbn [negb st_errors st_warnings st_normalized app]; rewrite <- ?app_assoc;
      reflexivity.
Qed.

Lemma schema_names_distinct : NoDup schema_names.
Proof.
  repeat (constructor; [simpl; intuition discriminate|]). constructor.
Qed.

(** [validate_metadata] read as a function of the tags: the errors and
    warnings field by field, and the normal forms of the str-valued schema
    fields in schema order. *)
Lemma validate_metadata_reads (metadata : dict) (strict : bool) :
  validate_metadata metadata strict
  = mk_validation (Nat.eqb (List.length (validation_errors metadata strict)) 0)
      (validation_errors metadata strict) (validation_warnings metadata)
      (if Nat.eqb (List.length (validation_errors metadata strict)) 0
       then Some (validation_normalized metadata) else None).
Proof.
  unfold validate_metadata.
  change REQUIRED_METADATA_FIELDS with (map (fun f => (f, TStr)) required_names).
  change OPTIONAL_METADATA_FIELDS with (map (fun f => (f, TStr)) optional_names).
  rewrite (loop_reads (required_step metadata) (required_errors metadata)
             (required_warnings metadata) (normal_entry metadata)
             (fun f => In f required_names))
    by (try (intros; apply required_step_reads; assumption); auto).
  rewrite (loop_reads (optional_step metadata strict) (optional_errors metadata strict)
             (optional_warnings metadata) (normal_entry metadata)
             (fun f => String.eqb f "board" = false))
    by (try (intros; apply optional_step_reads; assumption);
        intros f Hf; simpl in Hf; intuition (subst; reflexivity)).
  cbn [st_errors st_warnings st_normalized app].
  rewrite <- fold_left_app.
  fold schema_names.
  rewrite (entries_append metadata schema_names schema_names_distinct [])
    by reflexivity.
  cbn [app].
  unfold warn_if. fold (unknown_warnings metadata).
  assert (Hunk : (if dict_truthy (unknown_fields metadata)
                  then add_warning
                         (mk_vstate
                            (flat_map (required_errors metadata) required_names
                               ++ flat_map (optional_errors metadata strict) optional_names)%list
                            (flat_map (required_warnings metadata) required_names
                               ++ flat_map (optional_warnings metadata) optional_names)%list
                            (flat_map (normal_entry metadata) schema_names))
                         ("Unknown fields found (will be ignored): "
                            ++ PyStr.join ", " (unknown_fields metadata))
                  else mk_vstate
                         (flat_map (required_errors metadata) required_names
                            ++ flat_map (optional_errors metadata strict) optional_names)%list
                         (flat_map (required_warnings metadata) required_names
                            ++ flat_map (optional_warnings metadata) optional_names)%list
                         (flat_map (normal_entry metadata) schema_names))
                 = mk_vstate (validation_errors metadata strict)
                     ((flat_map (required_warnings metadata) required_names
                         ++ flat_map (optional_warnings metadata) optional_names)
                        ++ unknown_warnings metadata)%list
                     (validation_normalized metadata)).
  { unfold unknown_warnings, add_warning.
    destruct (dict_truthy (unknown_fields metadata));
      cbn [st_errors st_warnings st_normalized]; rewrite ?app_nil_r; reflexivity. }
  rewrite Hunk, key_loop_reads. cbn [st_errors st_warnings st_normalized].
  unfold validation_warnings. rewrite <- !app_assoc. reflexivity.
Qed.

Lemma flat_map_nil_iff {A B : Type} (f : A -> list B) (l : list A) :
  flat_map f l = [] <-> forall x, In x l -> f x = [].
Proof.
  induction l as [|a l IH]; simpl.
  - split; [intros _ x []|reflexivity].
  - split.
    + intros H x [<-|Hx]; apply app_eq_nil in H; destruct H as [Ha Hl];
        [exact Ha|exact (proj1 IH Hl x Hx)].
    + intro H. rewrite (H a (or_introl eq_refl)). simpl. apply IH.
      intros x Hx. apply H. right. exact Hx.
Qed.

Lemma flat_map_ext_in {A B : Type} (f g : A -> list B) (l : list A) :
  (forall x, In x l -> f x = g x) -> flat_map f l = flat_map g l.
Proof.
  induction l as [|a l IH]; intro H; simpl; [reflexivity|].
  rewrite (H a (or_introl eq_refl)), IH; [reflexivity|].
  intros x Hx. apply H. right. exact Hx.
Qed.

Lemma required_errors_nil (metadata : dict) (f : string) :
  required_errors metadata f = [] <-> exists s, dict_get f metadata = Some (PStr s).
Proof.
  unfold required_errors. destruct (dict_get f metadata) as [[|z|s]|]; split;
    try discriminate; try (intros [s' H]; discriminate H); eauto.
Qed.

Lemma enum_errors_nil (strict : bool) (f name : string) (allowed : list string)
  (s : string) :
  enum_errors strict f name allowed s = []
  <-> (String.eqb f name = true -> strict = true -> str_in s allowed = true).
Proof.
  unfold enum_errors.
  destruct (String.eqb f name); destruct strict; destruct (str_in s allowed);
    simpl; split; try reflexivity; try discriminate; auto.
  intro H. discriminate (H eq_refl eq_refl).
Qed.

Lemma optional_errors_nil (metadata : dict) (strict : bool) (f : string) :
  optional_errors metadata strict f = []
  <-> dict_get f metadata = None
      \/ exists s, dict_get f metadata = Some (PStr s)
                   /\ enum_errors strict f "content_type" ALLOWED_CONTENT_TYPES s = []
                   /\ enum_errors strict f "difficulty" ALLOWED_DIFFICULTY_LEVELS s = [].
Proof.
  unfold optional_errors. destruct (dict_get f metadata) as [[|z|s]|].
  - split; [discriminate|]. intros [H|[s [H _]]]; discriminate H.
  - split; [discriminate|]. intros [H|[s [H _]]]; discriminate H.
  - split.
    + intro H. apply app_eq_nil in H. right. exists s. tauto.
    + intros [H|[s' [H [H1 H2]]]]; [discriminate H|]. inversion H; subst s'.
      rewrite H1, H2. reflexivity.
  - split; [left; reflexivity|reflexivity].
Qed.

Lemma validation_errors_nil (metadata : dict) (strict : bool) :
  validation_errors metadata strict = [] <-> well_tagged metadata strict.
Proof.
  unfold validation_errors, well_tagged. split.
  - intro H. apply app_eq_nil in H. destruct H as [Hr Ho].
    rewrite flat_map_nil_iff in Hr, Ho. split; [|split].
    + intros f Hf. apply required_errors_nil, Hr, Hf.
    + intros f Hf. apply Ho, optional_errors_nil in Hf.
      destruct Hf as [H|[s [H _]]]; [left; exact H|right; exists s; exact H].
    + intro Hs. split; intros s Hget.
      * assert (Hin : In "content_type" optional_names) by (simpl; tauto).
        apply Ho, optional_errors_nil in Hin.
        destruct Hin as [H|[s' [H [H1 _]]]]; [congruence|].
        rewrite Hget in H. inversion H; subst s'.
        apply enum_errors_nil in H1; [exact H1|reflexivity|exact Hs].
      * assert (Hin : In "difficulty" optional_names) by (simpl; tauto).
        apply Ho, optional_errors_nil in Hin.
        destruct Hin as [H|[s' [H [_ H2]]]]; [congruence|].
        rewrite Hget in H. inversion H; subst s'.
        apply enum_errors_nil in H2; [exact H2|reflexivity|exact Hs].
  - intros [Hr [Ho Hs]].
    assert (Hreq : flat_map (required_errors metadata) required_names = []).
    { apply flat_map_nil_iff. intros f Hf. apply required_errors_nil, Hr, Hf. }
    assert (Hopt : flat_map (optional_errors metadata strict) optional_names = []).
    { apply flat_map_nil_iff. intros f Hf. apply optional_errors_nil.
      destruct (Ho f Hf) as [H|[s H]]; [left; exact H|]. right. exists s.
      split; [exact H|]. split; apply enum_errors_nil; intros Hname Hstrict;
        apply String.eqb_eq in Hname; subst f; destruct (Hs Hstrict) as [Hc Hd];
        [apply Hc|apply Hd]; exact H. }
    rewrite Hreq, Hopt. reflexivity.
Qed.

(** X1. [validate_metadata] accepts exactly the tag sets in which each
    required field is a key bound to a str, each optional field is either
    not a key or bound to a str, and, in strict mode, [content_type] and
    [difficulty], when they are str, are in their list of allowed values
    as written. So a schema field bound to a value that is not a str,
    [None] included, makes the tag set invalid, and in strict mode so does
    a [content_type] or [difficulty] that is not literally in its list. *)
Theorem validate_metadata_accepts_iff (metadata : dict) (strict : bool) :
  (valid (validate_metadata metadata strict) = true <-> well_tagged metadata strict)
  /\ (forall f v,
         In f schema_names ->
         dict_get f metadata = Some v ->
         isinstance v TStr = false ->
         valid (validate_metadata metadata strict) = false)
  /\ (strict = true ->
      forall s,
        (dict_get "content_type" metadata = Some (PStr s)
         /\ str_in s ALLOWED_CONTENT_TYPES = false)
        \/ (dict_get "difficulty" metadata = Some (PStr s)
            /\ str_in s ALLOWED_DIFFICULTY_LEVELS = false) ->
        valid (validate_metadata metadata strict) = false).
Proof.
  assert (Hiff : valid (validate_metadata metadata strict) = true
                 <-> well_tagged metadata strict).
  { rewrite validate_metadata_reads. cbn [valid].
    rewrite <- validation_errors_nil.
    destruct (validation_errors metadata strict); simpl; split; congruence. }
  split; [exact Hiff|]. split.
  - intros f v Hf Hget Hty.
    destruct (valid (validate_metadata metadata strict)) eqn:Hv; [|reflexivity].
    exfalso. destruct (proj1 Hiff eq_refl) as [Hr [Ho _]].
    unfold schema_names in Hf. apply in_app_or in Hf.
    destruct Hf as [Hf|Hf].
    + destruct (Hr f Hf) as [s Hs]. rewrite Hs in Hget. inversion Hget; subst v.
      discriminate Hty.
    + destruct (Ho f Hf) as [Hn|[s Hs]]; [congruence|].
      rewrite Hs in Hget. inversion Hget; subst v. discriminate Hty.
  - intros Hs s Hbad.
    destruct (valid (validate_metadata metadata strict)) eqn:Hv; [|reflexivity].
    exfalso. destruct (proj1 Hiff eq_refl) as [_ [_ He]].
    destruct (He Hs) as [Hc Hd].
    destruct Hbad as [[Hget Hno]|[Hget Hno]];
      [rewrite (Hc s Hget) in Hno|rewrite (Hd s Hget) in Hno]; discriminate Hno.
Qed.

(** A chapter bound to [None], and a content type with a capital letter
    under both strictness levels. *)
Lemma validate_metadata_accepts_iff_witness :
  let tags := [("board", PStr "CBSE"); ("grade", PStr "10"); ("subject", PStr "Science")] in
  valid (validate_metadata (tags ++ [("chapter", PNone)])%list false) = false
  /\ valid (validate_metadata (tags ++ [("content_type", PStr "Theory")])%list true) = false
  /\ valid (validate_metadata (tags ++ [("content_type", PStr "Theory")])%list false) = true.
Proof.
  intro tags. split; [|split].
  - apply (proj1 (proj2 (validate_metadata_accepts_iff
                           (tags ++ [("chapter", PNone)])%list false))
             "chapter" PNone).
    + simpl. tauto.
    + reflexivity.
    + reflexivity.
  - apply (proj2 (proj2 (validate_metadata_accepts_iff
                           (tags ++ [("content_type", PStr "Theory")])%list true))
             eq_refl "Theory").
    left. split; reflexivity.
  - apply (proj2 (proj1 (validate_metadata_accepts_iff
                           (tags ++ [("content_type", PStr "Theory")])%list false))).
    apply validation_errors_nil. reflexivity.
Defined.

(** X2. The verdict of [validate_metadata] depends on the schema fields
    only: two tag sets that agree on every schema field get the same
    errors, the same validity and the same normalized dict, whatever other
    keys they hold. *)
Theorem validate_metadata_schema_only (m1 m2 : dict) (strict : bool) :
  (forall f, In f schema_names -> dict_get f m1 = dict_get f m2) ->
  errors (validate_metadata m1 strict) = errors (validate_metadata m2 strict)
  /\ valid (validate_metadata m1 strict) = valid (validate_metadata m2 strict)
  /\ normalized (validate_metadata m1 strict) = normalized (validate_metadata m2 strict).
Proof.
  intro Hagree. rewrite !validate_metadata_reads. cbn [errors valid normalized].
  assert (He : validation_errors m1 strict = validation_errors m2 strict).
  { unfold validation_errors. f_equal; apply flat_map_ext_in; intros f Hf.
    - unfold required_errors. rewrite Hagree; [reflexivity|].
      unfold schema_names. apply in_or_app. left. exact Hf.
    - unfold optional_errors. rewrite Hagree; [reflexivity|].
      unfold schema_names. apply in_or_app. right. exact Hf. }
  assert (Hn : validation_normalized m1 = validation_normalized m2).
  { unfold validation_normalized. apply flat_map_ext_in. intros f Hf.
    unfold normal_entry. rewrite (Hagree f Hf). reflexivity. }
  rewrite He, Hn. repeat split.
Qed.

(** A tag set and the same tag set with a key outside the schema. *)
Lemma validate_metadata_schema_only_witness :
  let m1 := [("board", PStr "CBSE"); ("grade", PStr "10"); ("subject", PStr "Science")] in
  let m2 := (m1 ++ [("author", PInt 7)])%list in
  errors (validate_metadata m1 true) = errors (validate_metadata m2 true)
  /\ valid (validate_metadata m1 true) = valid (validate_metadata m2 true)
  /\ normalized (validate_metadata m1 true) = normalized (validate_metadata m2 true).
Proof.
  intros m1 m2. apply (validate_metadata_schema_only m1 m2 true).
  intros f Hf. simpl in Hf.
  repeat (destruct Hf as [<-|Hf]; [reflexivity|]). destruct Hf.
Defined.

(** *** The normalized tags *)

Lemma dict_get_entries (metadata : dict) (k : string) (fs : list string) :
  dict_get k (flat_map (normal_entry metadata) fs)
  = if str_in k fs then dict_get k (normal_entry metadata k) else None.
Proof.
  induction fs as [|f fs IH]; [reflexivity|].
  cbn [flat_map]. rewrite dict_get_app, IH. unfold str_in. cbn [existsb].
  fold (str_in k fs).
  destruct (String.eqb k f) eqn:Hk.
  - apply String.eqb_eq in Hk. subst f. cbn [orb].
    destruct (dict_get k (normal_entry metadata k)); [reflexivity|].
    destruct (str_in k fs); reflexivity.
  - rewrite (normal_entry_key metadata f k Hk). reflexivity.
Qed.

Lemma dict_get_normal_entry (metadata : dict) (k : string) :
  dict_get k (normal_entry metadata k)
  = match dict_get k metadata with
    | Some (PStr s) => Some (PStr (field_norm k s))
    | _ => None
    end.
Proof.
  unfold normal_entry. destruct (dict_get k metadata) as [[|z|s]|]; simpl;
    rewrite ?String.eqb_refl; reflexivity.
Qed.

Lemma str_in_In (k : string) (l : list string) : str_in k l = true <-> In k l.
Proof. apply existsb_eqb_In. Qed.

(** The value of a key in the normalized dict. *)
Lemma validation_normalized_get (metadata : dict) (k : string) :
  dict_get k (validation_normalized metadata)
  = if str_in k schema_names then
      match dict_get k metadata with
      | Some (PStr s) => Some (PStr (field_norm k s))
      | _ => None
      end
    else None.
Proof.
  unfold validation_normalized. rewrite dict_get_entries, dict_get_normal_entry.
  reflexivity.
Qed.

Lemma normalized_is (metadata : dict) (strict : bool) (n : dict) :
  normalized (validate_metadata metadata strict) = Some n ->
  n = validation_normalized metadata /\ validation_errors metadata strict = [].
Proof.
  rewrite validate_metadata_reads. cbn [normalized].
  destruct (validation_errors metadata strict); simpl; [|discriminate].
  intro H. inversion H. split; reflexivity.
Qed.

(** The board normal form has no lowercase letter and no space. *)
Lemma board_norm_upper (s : string) :
  all_chars (fun c => negb (PyStr.is_lower c) && negb (Ascii.eqb c " "))
    (field_norm "board" s) = true.
Proof.
  rewrite board_norm_chars. induction (PyStr.strip s) as [|c r IH]; [reflexivity|].
  cbn [PyStr.map_chars all_chars]. rewrite IH, andb_true_r. clear IH. by_chars c.
Qed.

(** X3. When [validate_metadata] returns a normalized dict, its keys are
    the schema fields present in the input, each bound to the trimmed
    string of the input value (for [board]: also upper-cased, spaces
    turned into underscores); no key outside the schema is in it, every
    value is free of surrounding whitespace, and the board has no
    lowercase letter and no space. *)
Theorem normalized_tags_content (metadata : dict) (strict : bool) (n : dict) :
  normalized (validate_metadata metadata strict) = Some n ->
  (forall k v,
      dict_get k n = Some v
      <-> In k schema_names
          /\ exists s, dict_get k metadata = Some (PStr s) /\ v = PStr (field_norm k s))
  /\ (forall k s, dict_get k n = Some (PStr s) -> trimmed s)
  /\ (forall s, dict_get "board" n = Some (PStr s) ->
                all_chars (fun c => negb (PyStr.is_lower c) && negb (Ascii.eqb c " ")) s
                = true).
Proof.
  intro Hn. apply normalized_is in Hn. destruct Hn as [-> _].
  assert (Hget : forall k v,
             dict_get k (validation_normalized metadata) = Some v
             <-> In k schema_names
                 /\ exists s, dict_get k metadata = Some (PStr s)
                              /\ v = PStr (field_norm k s)).
  { intros k v. rewrite validation_normalized_get.
    destruct (str_in k schema_names) eqn:Hk.
    - apply str_in_In in Hk.
      destruct (dict_get k metadata) as [[|z|s]|]; split;
        try discriminate; try (intros [_ [s' [H _]]]; discriminate H).
      + intro H. inversion H. split; [exact Hk|]. exists s. split; reflexivity.
      + intros [_ [s' [H ->]]]. inversion H. reflexivity.
    - split; [discriminate|]. intros [Hin _]. apply str_in_In in Hin. congruence. }
  split; [exact Hget|]. split.
  - intros k s H. apply Hget in H. destruct H as [_ [s' [_ H]]]. inversion H.
    apply field_norm_trimmed.
  - intros s H. apply Hget in H. destruct H as [_ [s' [_ H]]]. inversion H.
    apply board_norm_upper.
Qed.

Lemma normalized_tags_content_witness :
  let metadata := [("board", PStr " Tamil Nadu Board "); ("grade", PStr "10 ");
                   ("subject", PStr "Science"); ("Author", PStr "Rao")] in
  let n := [("board", PStr "TAMIL_NADU_BOARD"); ("grade", PStr "10");
            ("subject", PStr "Science")] in
  (forall k v,
      dict_get k n = Some v
      <-> In k schema_names
          /\ exists s, dict_get k metadata = Some (PStr s) /\ v = PStr (field_norm k s))
  /\ (forall k s, dict_get k n = Some (PStr s) -> trimmed s)
  /\ (forall s, dict_get "board" n = Some (PStr s) ->
                all_chars (fun c => negb (PyStr.is_lower c) && negb (Ascii.eqb c " ")) s
                = true).
Proof.
  intros metadata n. apply (normalized_tags_content metadata false n). reflexivity.
Defined.

Lemma normalized_keys_in_schema (metadata : dict) (k : string) :
  In k (dict_keys (validation_normalized metadata)) -> In k schema_names.
Proof.
  unfold validation_normalized, dict_keys. rewrite in_map_iff.
  intros [[k' v] [Hk Hin]]. simpl in Hk. subst k'.
  apply in_flat_map in Hin. destruct Hin as [f [Hf Hin]].
  unfold normal_entry in Hin.
  destruct (dict_get f metadata) as [[|z|s]|]; simpl in Hin; try contradiction.
  destruct Hin as [Heq|[]]. inversion Heq. subst. exact Hf.
Qed.

Lemma schema_name_cases (P : string -> Prop) :
  P "board" -> P "grade" -> P "subject" -> P "term" -> P "chapter" ->
  P "chapter_number" -> P "publisher" -> P "edition" -> P "language" ->
  P "content_type" -> P "difficulty" ->
  forall k, In k schema_names -> P k.
Proof.
  intros ? ? ? ? ? ? ? ? ? ? ? k Hk. simpl in Hk.
  repeat (destruct Hk as [<-|Hk]; [assumption|]). destruct Hk.
Qed.

Lemma allowed_value_trimmed (s : string) (allowed : list string) :
  allowed = ALLOWED_CONTENT_TYPES \/ allowed = ALLOWED_DIFFICULTY_LEVELS ->
  str_in s allowed = true -> PyStr.strip s = s.
Proof.
  intros Hl Hin. apply str_in_In in Hin.
  destruct Hl as [-> | ->]; simpl in Hin;
    repeat (destruct Hin as [<-|Hin]; [reflexivity|]); destruct Hin.
Qed.

(** X4. Validation is a normal form: when [validate_metadata] returns a
    normalized dict, validating that dict again (same strictness) is
    valid and gives no error, no warning, and the same dict. *)
Theorem validate_metadata_round_trip (metadata : dict) (strict : bool) (n : dict) :
  normalized (validate_metadata metadata strict) = Some n ->
  validate_metadata n strict = mk_validation true [] [] (Some n).
Proof.
  intro Hn. apply normalized_is in Hn. destruct Hn as [-> Herr].
  set (n := validation_normalized metadata).
  assert (Hget : forall f, In f schema_names ->
             dict_get f n = match dict_get f metadata with
                            | Some (PStr s) => Some (PStr (field_norm f s))
                            | _ => None
                            end).
  { intros f Hf. unfold n. rewrite validation_normalized_get.
    apply str_in_In in Hf. rewrite Hf. reflexivity. }
  assert (Hschema : forall f, In f required_names \/ In f optional_names ->
                              In f schema_names).
  { intros f Hf. unfold schema_names. apply in_or_app. exact Hf. }
  apply validation_errors_nil in Herr. destruct Herr as [Hreq [Hopt Hstrict]].
  (* the normalized dict is its own normal form *)
  assert (Hnorm : validation_normalized n = n).
  { unfold n at 2. unfold validation_normalized. apply flat_map_ext_in. intros f Hf.
    unfold normal_entry. rewrite (Hget f Hf).
    destruct (dict_get f metadata) as [[|z|s]|]; try reflexivity.
    rewrite field_norm_idem. reflexivity. }
  (* it has no error *)
  assert (Herrs : validation_errors n strict = []).
  { apply validation_errors_nil. split; [|split].
    - intros f Hf. rewrite (Hget f (Hschema f (or_introl Hf))).
      destruct (Hreq f Hf) as [s ->]. eauto.
    - intros f Hf. rewrite (Hget f (Hschema f (or_intror Hf))).
      destruct (Hopt f Hf) as [-> | [s ->]]; [left; reflexivity|right; eauto].
    - intro Hs. destruct (Hstrict Hs) as [Hc Hd]. split; intros s Hs'.
      + rewrite Hget in Hs' by (simpl; tauto).
        destruct (dict_get "content_type" metadata) as [[|z|s0]|] eqn:E;
          try discriminate Hs'.
        inversion Hs'. unfold field_norm. cbn [String.eqb Ascii.eqb Bool.eqb].
        rewrite (allowed_value_trimmed s0 ALLOWED_CONTENT_TYPES); auto.
      + rewrite Hget in Hs' by (simpl; tauto).
        destruct (dict_get "difficulty" metadata) as [[|z|s0]|] eqn:E;
          try discriminate Hs'.
        inversion Hs'. unfold field_norm. cbn [String.eqb Ascii.eqb Bool.eqb].
        rewrite (allowed_value_trimmed s0 ALLOWED_DIFFICULTY_LEVELS); auto. }
  (* and no warning *)
  assert (Hstrip : forall f s, String.eqb f "board" = false ->
                               PyStr.strip (field_norm f s) = field_norm f s).
  { intros f s Hb. apply trimmed_strip, field_norm_trimmed. }
  assert (Hrw : flat_map (required_warnings n) required_names = []).
  { apply flat_map_nil_iff. intros f Hf. unfold required_warnings.
    rewrite (Hget f (Hschema f (or_introl Hf))).
    destruct (dict_get f metadata) as [[|z|s]|]; try reflexivity.
    destruct (String.eqb f "board") eqn:Hb.
    - rewrite field_norm_idem, String.eqb_refl. reflexivity.
    - rewrite (Hstrip f s Hb), String.eqb_refl.
      destruct (String.eqb f "grade"); reflexivity. }
  assert (How : flat_map (optional_warnings n) optional_names = []).
  { apply flat_map_nil_iff. intros f Hf. unfold optional_warnings.
    rewrite (Hget f (Hschema f (or_intror Hf))).
    destruct (dict_get f metadata) as [[|z|s]|]; try reflexivity.
    rewrite Hstrip, String.eqb_refl; [reflexivity|].
    simpl in Hf. repeat (destruct Hf as [<-|Hf]; [reflexivity|]). destruct Hf. }
  assert (Hkeys : forall k, In k (dict_keys n) -> In k schema_names)
    by (intro k; apply normalized_keys_in_schema).
  assert (Hunk : unknown_warnings n = []).
  { unfold unknown_warnings, unknown_fields.
    assert (Hf : filter (fun k => negb (is_schema_field k)) (dict_keys n) = []).
    { induction (dict_keys n) as [|k l IH]; [reflexivity|]. simpl.
      assert (Hk : is_schema_field k = true).
      { revert k Hkeys. intros k Hk'.
        apply (schema_name_cases (fun k => is_schema_field k = true));
          try reflexivity. apply Hk'. left. reflexivity. }
      rewrite Hk. simpl. apply IH. intros k' Hk'. apply Hkeys. right. exact Hk'. }
    rewrite Hf. reflexivity. }
  assert (Hkw : flat_map key_warnings (dict_keys n) = []).
  { apply flat_map_nil_iff. intros k Hk.
    apply (schema_name_cases (fun k => key_warnings k = [])); try reflexivity.
    apply Hkeys, Hk. }
  rewrite validate_metadata_reads, Herrs, Hnorm.
  unfold validation_warnings. rewrite Hrw, How, Hunk, Hkw. reflexivity.
Qed.

Lemma validate_metadata_round_trip_witness :
  validate_metadata
    [("board", PStr "TAMIL_NADU_BOARD"); ("grade", PStr "10");
     ("subject", PStr "Science"); ("difficulty", PStr "basic")] true
  = mk_validation true [] []
      (Some [("board", PStr "TAMIL_NADU_BOARD"); ("grade", PStr "10");
             ("subject", PStr "Science"); ("difficulty", PStr "basic")]).
Proof.
  apply (validate_metadata_round_trip
           [("subject", PStr " Science"); ("board", PStr "Tamil Nadu Board");
            ("difficulty", PStr "basic"); ("grade", PStr "10 "); ("Note", PInt 3)]
           true).
  reflexivity.
Defined.

(** *** The filter normal form *)

Lemma dict_get_absent {V : Type} (k : string) (d : list (string * V)) :
  ~ In k (dict_keys d) -> dict_get k d = None.
Proof.
  induction d as [|[k' v] d IH]; simpl; [reflexivity|].
  intro H. destruct (String.eqb k k') eqn:E.
  - apply String.eqb_eq in E. subst. exfalso. apply H. left. reflexivity.
  - apply IH. intro Hin. apply H. right. exact Hin.
Qed.

Lemma filter_step_entry (acc : dict) (item : string * pyval) :
  filter_step acc item = apply_entry (filter_entry item) acc.
Proof.
  unfold filter_step, filter_entry, filter_value.
  destruct (is_schema_field (fst item)); [|reflexivity].
  destruct (String.eqb (fst item) "board"); [reflexivity|].
  destruct (String.eqb (fst item) "grade"); reflexivity.
Qed.

(** On criteria with distinct keys the filter is built by appending. *)
Lemma filter_loop_appends (criteria : dict) :
  NoDup (dict_keys criteria) ->
  forall acc,
    (forall k, In k (dict_keys criteria) -> dict_get k acc = None) ->
    fold_left filter_step criteria acc = (acc ++ flat_map filter_entry criteria)%list.
Proof.
  induction criteria as [|[k v] criteria IH]; intros Hnd acc Hfresh.
  - simpl. rewrite app_nil_r. reflexivity.
  - cbn [fold_left flat_map]. inversion Hnd as [|? ? Hk Hnd']; subst.
    rewrite filter_step_entry.
    assert (Hstep : apply_entry (filter_entry (k, v)) acc
                    = (acc ++ filter_entry (k, v))%list).
    { unfold filter_entry. cbn [fst snd].
      destruct (is_schema_field k); cbn [apply_entry fold_left fst snd];
        rewrite ?app_nil_r; try reflexivity.
      apply dict_set_fresh, Hfresh. left. reflexivity. }
    rewrite Hstep, (IH Hnd'), <- app_assoc; [reflexivity|].
    intros k' Hk'. rewrite dict_get_app, (Hfresh k' (or_intror Hk')).
    unfold filter_entry. cbn [fst snd]. destruct (is_schema_field k); [|reflexivity].
    simpl. destruct (String.eqb k' k) eqn:E; [|reflexivity].
    apply String.eqb_eq in E. subst. contradiction.
Qed.

Lemma create_metadata_filter_list (criteria : dict) :
  NoDup (dict_keys criteria) ->
  create_metadata_filter criteria = flat_map filter_entry criteria.
Proof.
  intro Hnd. unfold create_metadata_filter.
  rewrite (filter_loop_appends criteria Hnd []); reflexivity.
Qed.

Lemma dict_get_filter_entries (criteria : dict) (k : string) :
  NoDup (dict_keys criteria) ->
  dict_get k (flat_map filter_entry criteria)
  = if is_schema_field k then option_map (filter_value k) (dict_get k criteria) else None.
Proof.
  induction criteria as [|[k' v] criteria IH]; intro Hnd.
  - simpl. destruct (is_schema_field k); reflexivity.
  - inversion Hnd as [|? ? Hk Hnd']; subst. cbn [flat_map].
    rewrite dict_get_app, (IH Hnd'). unfold filter_entry at 1. cbn [fst snd dict_get].
    destruct (String.eqb k k') eqn:E.
    + apply String.eqb_eq in E. subst k'.
      destruct (is_schema_field k); simpl; rewrite ?String.eqb_refl; reflexivity.
    + destruct (is_schema_field k'); simpl; rewrite ?E; reflexivity.
Qed.

(** X5. [create_metadata_filter] keeps exactly the recognised fields of
    the criteria: a key of the schema is bound to a str, the normalized
    board for [board] and the trimmed [str(value)] for every other field,
    and a key outside the schema is absent from the filter. *)
Theorem create_metadata_filter_get (criteria : dict) (k : string) :
  NoDup (dict_keys criteria) ->
  dict_get k (create_metadata_filter criteria)
  = if is_schema_field k
    then option_map (filter_value k) (dict_get k criteria)
    else None.
Proof.
  intro Hnd. rewrite (create_metadata_filter_list criteria Hnd).
  apply dict_get_filter_entries. exact Hnd.
Qed.

Lemma create_metadata_filter_get_witness :
  dict_get "grade"
    (create_metadata_filter
       [("author", PStr "Rao"); ("grade", PInt 10); ("subject", PStr " Science ")])
  = if is_schema_field "grade"
    then option_map (filter_value "grade")
           (dict_get "grade"
              [("author", PStr "Rao"); ("grade", PInt 10); ("subject", PStr " Science ")])
    else None.
Proof.
  apply (create_metadata_filter_get
           [("author", PStr "Rao"); ("grade", PInt 10); ("subject", PStr " Science ")]
           "grade").
  repeat (constructor; [simpl; intuition discriminate|]). constructor.
Defined.

Lemma filter_entries_fixed (criteria : dict) :
  dict_get "board" criteria = None ->
  flat_map filter_entry (flat_map filter_entry criteria) = flat_map filter_entry criteria.
Proof.
  induction criteria as [|[k v] criteria IH]; intro Hb; [reflexivity|].
  cbn [flat_map]. rewrite flat_map_app. cbn [dict_get] in Hb.
  destruct (String.eqb "board" k) eqn:E; [discriminate Hb|].
  rewrite (IH Hb). f_equal.
  unfold filter_entry. cbn [fst snd].
  destruct (is_schema_field k) eqn:Hs; [|reflexivity].
  cbn [flat_map fst snd]. rewrite Hs, app_nil_r.
  unfold filter_value. rewrite String.eqb_sym in E. rewrite E. cbn [str_of].
  unfold PyStr.strip. rewrite strip_by_idem. reflexivity.
Qed.

Lemma filter_entries_keys (criteria : dict) (k : string) :
  In k (dict_keys (flat_map filter_entry criteria)) -> In k (dict_keys criteria).
Proof.
  unfold dict_keys. induction criteria as [|[k' v] criteria IH]; [intros []|].
  cbn [flat_map]. rewrite map_app, in_app_iff. intros [H|H].
  - unfold filter_entry in H. cbn [fst snd] in H.
    destruct (is_schema_field k'); simpl in H; [|contradiction].
    destruct H as [<-|[]]. left. reflexivity.
  - right. apply IH, H.
Qed.

Lemma filter_entries_distinct (criteria : dict) :
  NoDup (dict_keys criteria) -> NoDup (dict_keys (flat_map filter_entry criteria)).
Proof.
  induction criteria as [|[k v] criteria IH]; intro Hnd; [constructor|].
  inversion Hnd as [|? ? Hk Hnd']; subst. cbn [flat_map].
  unfold filter_entry at 1. cbn [fst snd].
  destruct (is_schema_field k); [|exact (IH Hnd')].
  simpl. constructor; [|exact (IH Hnd')].
  intro Hin. apply Hk. apply (filter_entries_keys criteria k Hin).
Qed.

(** X6. Without a [board] criterion the filter normalization is
    idempotent: normalizing a normalized filter gives the same filter. *)
Theorem create_metadata_filter_idempotent (criteria : dict) :
  NoDup (dict_keys criteria) ->
  dict_get "board" criteria = None ->
  create_metadata_filter (create_metadata_filter criteria)
  = create_metadata_filter criteria.
Proof.
  intros Hnd Hb.
  rewrite (create_metadata_filter_list criteria Hnd).
  rewrite create_metadata_filter_list by (apply filter_entries_distinct; exact Hnd).
  apply filter_entries_fixed. exact Hb.
Qed.

Lemma create_metadata_filter_idempotent_witness :
  create_metadata_filter
    (create_metadata_filter
       [("author", PStr "Rao"); ("grade", PInt 10); ("subject", PStr " Science ")])
  = create_metadata_filter
      [("author", PStr "Rao"); ("grade", PInt 10); ("subject", PStr " Science ")].
Proof.
  apply create_metadata_filter_idempotent.
  - repeat (constructor; [simpl; intuition discriminate|]). constructor.
  - reflexivity.
Defined.

(** *** The board normal form of the filter *)

Lemma all_chars_lstrip (p q : ascii -> bool) (s : string) :
  all_chars p s = true -> all_chars p (PyStr.lstrip_by q s) = true.
Proof.
  induction s as [|c r IH]; simpl; [reflexivity|].
  intro H. apply andb_prop in H. destruct H as [Hc Hr].
  destruct (q c); [exact (IH Hr)|]. simpl. rewrite Hc, Hr. reflexivity.
Qed.

Lemma all_chars_rstrip (p q : ascii -> bool) (s : string) :
  all_chars p s = true -> all_chars p (PyStr.rstrip_by q s) = true.
Proof.
  induction s as [|c r IH]; simpl; [reflexivity|].
  intro H. apply andb_prop in H. destruct H as [Hc Hr]. specialize (IH Hr).
  destruct (PyStr.rstrip_by q r) as [|d r'].
  - destruct (q c); simpl; rewrite ?Hc; reflexivity.
  - cbn [all_chars] in IH |- *. rewrite Hc, IH. reflexivity.
Qed.

Lemma all_chars_strip (p q : ascii -> bool) (s : string) :
  all_chars p s = true -> all_chars p (PyStr.strip_by q s) = true.
Proof.
  intro H. apply all_chars_lstrip, all_chars_rstrip, H.
Qed.

Lemma all_chars_map (p q : ascii -> bool) (f : ascii -> ascii) (s : string) :
  (forall c, p c = true -> q (f c) = true) ->
  all_chars p s = true -> all_chars q (PyStr.map_chars f s) = true.
Proof.
  intro Hf. induction s as [|c r IH]; simpl; [reflexivity|].
  intro H. apply andb_prop in H. destruct H as [Hc Hr].
  rewrite (Hf c Hc), (IH Hr). reflexivity.
Qed.

Lemma all_chars_camel_sub (p : ascii -> bool) (s : string) :
  p "_"%char = true ->
  all_chars p s = true -> forall prev, all_chars p (camel_sub prev s) = true.
Proof.
  intro Hu. induction s as [|c r IH]; simpl; [reflexivity|].
  intros H prev. apply andb_prop in H. destruct H as [Hc Hr].
  destruct prev as [q|]; [destruct (PyStr.is_upper c && negb (Ascii.eqb q "_"))|];
    cbn [all_chars]; rewrite ?Hu, Hc, (IH Hr); reflexivity.
Qed.

Lemma all_chars_collapse (p : ascii -> bool) (s : string) :
  all_chars p s = true -> forall b, all_chars p (collapse_underscores b s) = true.
Proof.
  induction s as [|c r IH]; simpl; [reflexivity|].
  intros H b. apply andb_prop in H. destruct H as [Hc Hr].
  destruct (Ascii.eqb c "_"); [destruct b|]; cbn [all_chars];
    rewrite ?Hc, (IH Hr); reflexivity.
Qed.

Lemma all_chars_any (s : string) : all_chars (fun _ => true) s = true.
Proof. induction s as [|c r IH]; simpl; [reflexivity|exact IH]. Qed.

Lemma contains_lstrip (sub : string) (p : ascii -> bool) (s : string) :
  PyStr.contains sub s = false -> PyStr.contains sub (PyStr.lstrip_by p s) = false.
Proof.
  induction s as [|c r IH]; [intro H; exact H|].
  intro H. cbn [PyStr.lstrip_by]. destruct (p c); [|exact H].
  apply IH. cbn [PyStr.contains] in H. apply orb_false_elim in H. tauto.
Qed.

Lemma prefix_empty (s : string) : String.prefix "" s = true.
Proof. destruct s; reflexivity. Qed.

Lemma prefix_of_rstrip (sub : string) (p : ascii -> bool) (s : string) :
  String.prefix sub (PyStr.rstrip_by p s) = true -> String.prefix sub s = true.
Proof.
  revert sub. induction s as [|c r IH]; intro sub; [intro H; exact H|].
  cbn [PyStr.rstrip_by].
  destruct sub as [|a sub]; [reflexivity|].
  destruct (PyStr.rstrip_by p r) as [|d r'] eqn:Er.
  - destruct (p c); [discriminate|]. simpl.
    destruct (ascii_dec a c); [|discriminate].
    destruct sub; [intros _; apply prefix_empty|discriminate].
  - simpl. destruct (ascii_dec a c); [|discriminate]. apply IH.
Qed.

Lemma contains_rstrip_true (sub : string) (p : ascii -> bool) (s : string) :
  PyStr.contains sub (PyStr.rstrip_by p s) = true -> PyStr.contains sub s = true.
Proof.
  induction s as [|c r IH]; [intro H; exact H|].
  intro E. pose proof (prefix_of_rstrip sub p (String c r)) as Hpre.
  cbn [PyStr.rstrip_by] in E, Hpre. cbn [PyStr.contains].
  destruct (PyStr.rstrip_by p r) as [|d r'] eqn:Er.
  - destruct (p c).
    + cbn [PyStr.contains] in E. rewrite orb_false_r in E.
      rewrite (Hpre E). reflexivity.
    + cbn [PyStr.contains] in E. apply orb_prop in E. destruct E as [E|E].
      * rewrite (Hpre E). reflexivity.
      * rewrite (IH E). apply orb_true_r.
  - cbn [PyStr.contains] in E. apply orb_prop in E. destruct E as [E|E].
    + rewrite (Hpre E). reflexivity.
    + rewrite (IH E). apply orb_true_r.
Qed.

Lemma contains_rstrip (sub : string) (p : ascii -> bool) (s : string) :
  PyStr.contains sub s = false -> PyStr.contains sub (PyStr.rstrip_by p s) = false.
Proof.
  intro H. destruct (PyStr.contains sub (PyStr.rstrip_by p s)) eqn:E; [|reflexivity].
  apply contains_rstrip_true in E. congruence.
Qed.

Lemma prefix_cons (a b : ascii) (s1 s2 : string) :
  String.prefix (String a s1) (String b s2)
  = if Ascii.eqb a b then String.prefix s1 s2 else false.
Proof.
  cbn [String.prefix]. destruct (ascii_dec a b) as [E|E].
  - subst. rewrite Ascii.eqb_refl. reflexivity.
  - apply Ascii.eqb_neq in E. rewrite E. reflexivity.
Qed.

(** After the collapse no underscore follows an underscore. *)
Lemma collapse_no_double (s : string) :
  forall b,
    PyStr.contains "__" (collapse_underscores b s) = false
    /\ (b = true -> String.prefix "_" (collapse_underscores b s) = false).
Proof.
  induction s as [|c r IH]; intro b; [split; reflexivity|].
  cbn [collapse_underscores].
  destruct (Ascii.eqb c "_") eqn:Hc.
  - apply Ascii.eqb_eq in Hc. subst c. destruct (IH true) as [Hn Hs].
    destruct b; [split; [exact Hn|intros _; exact (Hs eq_refl)]|].
    split; [|discriminate].
    cbn [PyStr.contains]. rewrite Hn, orb_false_r, prefix_cons.
    rewrite Ascii.eqb_refl. exact (Hs eq_refl).
  - destruct (IH false) as [Hn _]. rewrite Ascii.eqb_sym in Hc. split.
    + cbn [PyStr.contains]. rewrite Hn, orb_false_r, prefix_cons, Hc. reflexivity.
    + intros _. rewrite prefix_cons, Hc. reflexivity.
Qed.

Lemma board_form_chars (s : string) : all_chars board_char (normalize_board s) = true.
Proof.
  unfold normalize_board.
  apply all_chars_strip, all_chars_collapse.
  unfold PyStr.replace_char, PyStr.upper. rewrite map_chars_compose.
  apply (all_chars_map
           (fun c => negb (Ascii.eqb c "-") && negb (Ascii.eqb c "."))).
  { intro c. unfold board_char. by_chars c. }
  apply all_chars_camel_sub; [reflexivity|].
  rewrite map_chars_compose.
  apply (all_chars_map (fun _ => true)); [|apply all_chars_any].
  intros c _. by_chars c.
Qed.

Lemma board_form_no_double (s : string) :
  PyStr.contains "__" (normalize_board s) = false.
Proof.
  unfold normalize_board, PyStr.strip_underscores, PyStr.strip_by.
  apply contains_lstrip, contains_rstrip, collapse_no_double.
Qed.

Lemma board_form_stripped (s : string) :
  PyStr.strip_underscores (normalize_board s) = normalize_board s.
Proof.
  unfold normalize_board, PyStr.strip_underscores. apply strip_by_idem.
Qed.

(** X7. The board normal form of [create_metadata_filter] holds no
    lowercase letter, space, hyphen or dot, never has two underscores in
    a row, and neither starts nor ends with an underscore. *)
Theorem normalize_board_canonical (s : string) :
  all_chars board_char (normalize_board s) = true
  /\ PyStr.contains "__" (normalize_board s) = false
  /\ PyStr.strip_underscores (normalize_board s) = normalize_board s.
Proof.
  split; [apply board_form_chars|].
  split; [apply board_form_no_double|apply board_form_stripped].
Qed.

(** *** The loop over the retrieved contexts *)

(** Under an active filter, with room left, the loop adds the passing
    candidates in order until [top_k] results are kept. *)
Lemma collect_filtered (top_k : Z) (f : dict) (contexts : list context) :
  f <> [] ->
  forall results : list result,
    (List.length results < Z.to_nat top_k)%nat ->
    collect top_k (Some f) contexts results
    = (results
         ++ firstn (Z.to_nat top_k - List.length results)
              (filter (passes_filter f) (map build_result contexts)))%list.
Proof.
  intro Hf. induction contexts as [|context rest IH]; intros results Hlt.
  - simpl. rewrite firstn_nil, app_nil_r. reflexivity.
  - cbn [collect map filter]. rewrite (active_filter_nonempty f Hf).
    destruct (passes_filter f (build_result context)).
    + destruct (Z.to_nat top_k - List.length results)%nat as [|m] eqn:Hm; [lia|].
      cbn [firstn].
      destruct (Z.geb (Z.of_nat (List.length (results ++ [build_result context])%list)) top_k)
        eqn:Hge.
      * rewrite Z.geb_leb in Hge. apply Z.leb_le in Hge.
        rewrite length_app in Hge. simpl in Hge.
        assert (m = 0%nat) by lia. subst m. reflexivity.
      * rewrite Z.geb_leb in Hge. apply Z.leb_gt in Hge.
        rewrite length_app in Hge. simpl in Hge.
        rewrite IH by (rewrite length_app; simpl; lia).
        rewrite length_app. simpl. rewrite <- app_assoc. simpl.
        replace (Z.to_nat top_k - (List.length results + 1))%nat with m by lia.
        reflexivity.
    + apply IH. exact Hlt.
Qed.

Lemma collect_unfiltered (top_k : Z) (nf : option dict) (contexts : list context) :
  active_filter nf = None ->
  forall results : list result,
    collect top_k nf contexts results = (results ++ map build_result contexts)%list.
Proof.
  intro Hn. induction contexts as [|context rest IH]; intro results; cbn [collect map].
  - rewrite app_nil_r. reflexivity.
  - rewrite Hn, IH, <- app_assoc. reflexivity.
Qed.

(** X8. Under a filter with at least one recognised field and
    [top_k >= 1], the results of [query_rag_corpus] are exactly the first
    [top_k] retrieved candidates that pass the filter, in the order the
    service returned them. *)
Theorem filtered_results_first_matches (top_k : Z) (f : dict) (contexts : list context) :
  f <> [] ->
  1 <= top_k ->
  process_response top_k (Some f) (Contexts contexts)
  = firstn (Z.to_nat top_k) (filter (passes_filter f) (map build_result contexts))
  /\ process_response top_k (Some f) (NestedContexts contexts)
     = firstn (Z.to_nat top_k) (filter (passes_filter f) (map build_result contexts)).
Proof.
  intros Hf Hk. unfold process_response.
  rewrite (collect_filtered top_k f contexts Hf []) by (simpl; lia).
  simpl. rewrite Nat.sub_0_r. split; reflexivity.
Qed.

Lemma filtered_results_first_matches_witness :
  let cbse := Samples.tagged_context "Light travels in straight lines."
                [("board", PStr "CBSE")] in
  let icse := Samples.tagged_context "Sound needs a medium." [("board", PStr "ICSE")] in
  let contexts := [icse; cbse; icse; cbse; cbse] in
  let f := create_metadata_filter [("board", PStr "CBSE")] in
  process_response 2 (Some f) (Contexts contexts)
  = firstn (Z.to_nat 2) (filter (passes_filter f) (map build_result contexts))
  /\ process_response 2 (Some f) (NestedContexts contexts)
     = firstn (Z.to_nat 2) (filter (passes_filter f) (map build_result contexts)).
Proof.
  intros cbse icse contexts f.
  apply (filtered_results_first_matches 2 f contexts).
  - vm_compute. discriminate.
  - lia.
Defined.

(** X9. Without a filter, and with a filter that is empty or has no
    recognised field, [query_rag_corpus] returns every retrieved candidate
    in order: nothing is dropped and [top_k] does not cap the list. *)
Theorem unfiltered_results_all_candidates (top_k : Z) (nf : option dict)
  (contexts : list context) :
  nf = None \/ nf = Some [] ->
  process_response top_k nf (Contexts contexts) = map build_result contexts
  /\ process_response top_k nf (NestedContexts contexts) = map build_result contexts
  /\ List.length (process_response top_k nf (Contexts contexts)) = List.length contexts.
Proof.
  intro Hn. assert (Ha : active_filter nf = None) by (destruct Hn as [-> | ->]; reflexivity).
  unfold process_response. rewrite (collect_unfiltered top_k nf contexts Ha []).
  simpl. rewrite length_map. repeat split.
Qed.

Lemma unfiltered_results_all_candidates_witness :
  let contexts := repeat Samples.unit3_context 3 in
  process_response 1 (Some (create_metadata_filter [("author", PStr "Rao")]))
    (Contexts contexts) = map build_result contexts
  /\ process_response 1 (Some (create_metadata_filter [("author", PStr "Rao")]))
       (NestedContexts contexts) = map build_result contexts
  /\ List.length
       (process_response 1 (Some (create_metadata_filter [("author", PStr "Rao")]))
          (Contexts contexts))
     = List.length contexts.
Proof.
  intro contexts.
  apply (unfiltered_results_all_candidates 1
           (Some (create_metadata_filter [("author", PStr "Rao")])) contexts).
  right. reflexivity.
Defined.

(** *** The note about chunks of one document *)

Import QueryReading.

Lemma source_eqb_eq (a b : option string) : source_eqb a b = true <-> a = b.
Proof.
  destruct a as [x|], b as [y|]; simpl; split; intro H; try discriminate;
    try reflexivity.
  - apply String.eqb_eq in H. subst. reflexivity.
  - inversion H. apply String.eqb_refl.
Qed.

Lemma source_eqb_refl (a : option string) : source_eqb a a = true.
Proof. apply source_eqb_eq. reflexivity. Qed.

Lemma count_of_bump (s s' : option string) (fc : list (option string * nat)) :
  count_of s (bump s' fc)
  = (count_of s fc + if source_eqb s s' then 1 else 0)%nat.
Proof.
  induction fc as [|[k n] fc IH]; simpl.
  - destruct (source_eqb s s'); reflexivity.
  - destruct (source_eqb s' k) eqn:Ek; simpl.
    + apply source_eqb_eq in Ek. subst k.
      destruct (source_eqb s s'); lia.
    + destruct (source_eqb s k) eqn:Es; [|exact IH].
      destruct (source_eqb s s') eqn:Ess; [|lia].
      apply source_eqb_eq in Es, Ess. subst. rewrite source_eqb_refl in Ek. discriminate.
Qed.

Lemma bump_keys (s' : option string) (fc : list (option string * nat)) (k : option string) :
  In k (map fst (bump s' fc)) <-> k = s' \/ In k (map fst fc).
Proof.
  induction fc as [|[k' n] fc IH]; simpl.
  - intuition.
  - destruct (source_eqb s' k') eqn:E; simpl.
    + apply source_eqb_eq in E. subst. intuition.
    + rewrite IH. intuition.
Qed.

Lemma bump_distinct (s' : option string) (fc : list (option string * nat)) :
  NoDup (map fst fc) -> NoDup (map fst (bump s' fc)).
Proof.
  induction fc as [|[k n] fc IH]; simpl; intro H.
  - constructor; [intros []|constructor].
  - inversion H as [|? ? Hk Hnd]; subst.
    destruct (source_eqb s' k) eqn:E; simpl.
    + constructor; assumption.
    + constructor; [|exact (IH Hnd)].
      rewrite bump_keys. intros [Heq|Hin]; [|exact (Hk Hin)].
      subst. rewrite source_eqb_refl in E. discriminate.
Qed.

(** The counts the loop builds are the numbers of occurrences. *)
Lemma file_counts_reads (sources : list (option string)) :
  forall fc,
    NoDup (map fst fc) ->
    let fc' := fold_left (fun acc s => bump s acc) sources fc in
    NoDup (map fst fc')
    /\ forall s, count_of s fc' = (count_of s fc + count_occ source_eq_dec sources s)%nat.
Proof.
  induction sources as [|s' sources IH]; intros fc Hnd; cbn [fold_left].
  - split; [exact Hnd|]. intro s. simpl. lia.
  - destruct (IH (bump s' fc) (bump_distinct s' fc Hnd)) as [Hnd' Hc].
    split; [exact Hnd'|]. intro s. rewrite Hc, count_of_bump. simpl.
    destruct (source_eq_dec s' s) as [E|E].
    + subst. rewrite source_eqb_refl. lia.
    + destruct (source_eqb s s') eqn:E'; [|lia].
      apply source_eqb_eq in E'. congruence.
Qed.

Lemma count_of_entry (fc : list (option string * nat)) (k : option string) (n : nat) :
  NoDup (map fst fc) -> In (k, n) fc -> count_of k fc = n.
Proof.
  induction fc as [|[k' n'] fc IH]; simpl; intros Hnd Hin; [contradiction|].
  inversion Hnd as [|? ? Hk Hnd']; subst.
  destruct Hin as [Heq|Hin].
  - inversion Heq; subst. rewrite source_eqb_refl. reflexivity.
  - destruct (source_eqb k k') eqn:E; [|exact (IH Hnd' Hin)].
    apply source_eqb_eq in E. subst. exfalso. apply Hk.
    apply in_map_iff. exists (k', n). split; [reflexivity|exact Hin].
Qed.

Lemma count_of_positive (fc : list (option string * nat)) (k : option string) :
  (0 < count_of k fc)%nat -> In (k, count_of k fc) fc.
Proof.
  induction fc as [|[k' n'] fc IH]; simpl; [lia|].
  destruct (source_eqb k k') eqn:E.
  - apply source_eqb_eq in E. subst. left. reflexivity.
  - intro H. right. exact (IH H).
Qed.

Lemma fold_results_sources (results : list result) (fc : list (option string * nat)) :
  fold_left (fun acc (r : result) => bump (r_source_uri r) acc) results fc
  = fold_left (fun acc s => bump s acc) (map r_source_uri results) fc.
Proof.
  revert fc. induction results as [|r results IH]; intro fc; [reflexivity|].
  simpl. apply IH.
Qed.

(** X10. The note of [query_rag_corpus] about chunks of one document is
    set exactly when two kept results have the same [source_uri] (two
    results without a source count as the same source); otherwise there is
    no note. *)
Theorem note_iff_shared_source (results : list result) :
  (NoDup (map r_source_uri results) -> note_for results = "")
  /\ (~ NoDup (map r_source_uri results) -> note_for results = multiple_chunks_note).
Proof.
  unfold note_for. rewrite fold_results_sources.
  destruct (file_counts_reads (map r_source_uri results) [] (NoDup_nil _)) as [Hnd Hc].
  set (fc := fold_left (fun acc s => bump s acc) (map r_source_uri results) []) in *.
  simpl in Hc.
  assert (Hmult : dict_truthy (filter (fun kv : option string * nat => Nat.ltb 1 (snd kv)) fc)
                  = true
                  <-> ~ NoDup (map r_source_uri results)).
  { rewrite (NoDup_count_occ source_eq_dec). split.
    - intros Ht Hall.
      destruct (filter (fun kv : option string * nat => Nat.ltb 1 (snd kv)) fc)
        as [|[k n] l] eqn:Ef; [discriminate Ht|].
      assert (Hin : In (k, n) (filter (fun kv : option string * nat => Nat.ltb 1 (snd kv)) fc))
        by (rewrite Ef; left; reflexivity).
      apply filter_In in Hin. destruct Hin as [Hin Hn]. simpl in Hn.
      apply Nat.ltb_lt in Hn.
      pose proof (count_of_entry fc k n Hnd Hin) as Hk. rewrite Hc in Hk.
      specialize (Hall k). lia.
    - intro Hnot.
      destruct (filter (fun kv : option string * nat => Nat.ltb 1 (snd kv)) fc)
        as [|kv l] eqn:Ef; [|reflexivity].
      exfalso. apply Hnot. intro s.
      destruct (le_lt_dec (count_occ source_eq_dec (map r_source_uri results) s) 1)
        as [Hle|Hgt]; [exact Hle|].
      assert (Hpos : (0 < count_of s fc)%nat) by (rewrite Hc; lia).
      apply count_of_positive in Hpos.
      assert (Hin : In (s, count_of s fc)
                      (filter (fun kv : option string * nat => Nat.ltb 1 (snd kv)) fc)).
      { apply filter_In. split; [exact Hpos|]. simpl. apply Nat.ltb_lt. rewrite Hc. lia. }
      rewrite Ef in Hin. destruct Hin. }
  split.
  - intro Hn. destruct (Nat.ltb 1 (List.length results)); [|reflexivity].
    destruct (dict_truthy _) eqn:E; [|reflexivity].
    exfalso. apply (proj1 Hmult); [reflexivity|exact Hn].
  - intro Hn. pose proof (proj2 Hmult Hn) as Ht. rewrite Ht.
    destruct (Nat.ltb 1 (List.length results)) eqn:El; [reflexivity|].
    exfalso. apply Nat.ltb_ge in El. apply Hn.
    destruct results as [|r [|r' l]]; simpl in *; try lia;
      repeat (constructor; try (intros [])).
Qed.

(** Two chunks of one file, then with a chunk of another file instead. *)
Lemma note_iff_shared_source_witness :
  let chunk text uri := mk_result text (Some uri) None None None None None None None in
  note_for [chunk "a" "gs://b/f.pdf"; chunk "b" "gs://b/f.pdf"] = multiple_chunks_note
  /\ note_for [chunk "a" "gs://b/f.pdf"; chunk "b" "gs://b/g.pdf"] = "".
Proof.
  intro chunk. split.
  - apply (proj2 (note_iff_shared_source _)). intro H.
    inversion H as [|x l Hin Hnd]; subst. apply Hin. left. reflexivity.
  - apply (proj1 (note_iff_shared_source _)).
    repeat constructor; simpl; intuition discriminate.
Defined.

(** *** Integers and their decimal text *)

Ltac digit_step :=
  cbn [NilEmpty.string_of_uint PyStr.int_digits];
  match goal with
  | |- context [PyStr.is_digit ?c] => change (PyStr.is_digit c) with true
  end;
  cbv iota;
  match goal with
  | |- context [PyStr.digit_val ?c] =>
      let v := eval vm_compute in (PyStr.digit_val c) in
      change (PyStr.digit_val c) with v
  end.

Lemma int_digits_acc (l : Decimal.uint) :
  forall acc : positive,
    PyStr.int_digits (NilEmpty.string_of_uint l) (Z.pos acc) true
    = Some (Z.pos (Pos.of_uint_acc l acc)).
Proof.
  induction l; intro acc; [reflexivity| | | | | | | | | |];
    digit_step; cbn [Pos.of_uint_acc]; rewrite <- IHl; f_equal; lia.
Qed.

Lemma int_digits_zero (l : Decimal.uint) :
  forall b : bool,
    l <> Decimal.Nil \/ b = true ->
    PyStr.int_digits (NilEmpty.string_of_uint l) 0 b = Some (Z.of_N (Pos.of_uint l)).
Proof.
  induction l; intros b Hb.
  - destruct Hb as [Hb|Hb]; [contradiction|]. subst b. reflexivity.
  - digit_step. cbn [Pos.of_uint]. apply IHl. right. reflexivity.
  - digit_step. cbn [Pos.of_uint]. apply (int_digits_acc l 1).
  - digit_step. cbn [Pos.of_uint]. apply (int_digits_acc l 2).
  - digit_step. cbn [Pos.of_uint]. apply (int_digits_acc l 3).
  - digit_step. cbn [Pos.of_uint]. apply (int_digits_acc l 4).
  - digit_step. cbn [Pos.of_uint]. apply (int_digits_acc l 5).
  - digit_step. cbn [Pos.of_uint]. apply (int_digits_acc l 6).
  - digit_step. cbn [Pos.of_uint]. apply (int_digits_acc l 7).
  - digit_step. cbn [Pos.of_uint]. apply (int_digits_acc l 8).
  - digit_step. cbn [Pos.of_uint]. apply (int_digits_acc l 9).
Qed.

Lemma int_digits_uint (d : Decimal.uint) :
  PyStr.int_digits (NilZero.string_of_uint d) 0 false = Some (Z.of_uint d).
Proof.
  unfold Z.of_uint. destruct d; try reflexivity;
    apply int_digits_zero; left; discriminate.
Qed.

Lemma uint_text_digits (d : Decimal.uint) :
  all_chars PyStr.is_digit (NilZero.string_of_uint d) = true.
Proof.
  assert (H : forall l, all_chars PyStr.is_digit (NilEmpty.string_of_uint l) = true).
  { induction l; simpl; try reflexivity; exact IHl. }
  destruct d; try reflexivity; apply H.
Qed.

Lemma all_chars_weaken (p q : ascii -> bool) (s : string) :
  (forall c, p c = true -> q c = true) -> all_chars p s = true -> all_chars q s = true.
Proof.
  intro Hpq. induction s as [|c r IH]; simpl; [reflexivity|].
  intro H. apply andb_prop in H. destruct H as [Hc Hr].
  rewrite (Hpq c Hc), (IH Hr). reflexivity.
Qed.

(** Stripping a class of characters that the string does not hold. *)
Lemma strip_by_absent (p : ascii -> bool) (s : string) :
  all_chars (fun c => negb (p c)) s = true -> PyStr.strip_by p s = s.
Proof.
  intro H. unfold PyStr.strip_by.
  assert (Hr : PyStr.rstrip_by p s = s).
  { induction s as [|c r IH]; [reflexivity|]. simpl in H |- *.
    apply andb_prop in H. destruct H as [Hc Hrest]. rewrite (IH Hrest).
    apply negb_true_iff in Hc. destruct r; [rewrite Hc|]; reflexivity. }
  rewrite Hr. destruct s as [|c r]; [reflexivity|]. simpl in H |- *.
  apply andb_prop in H. destruct H as [Hc _]. apply negb_true_iff in Hc.
  rewrite Hc. reflexivity.
Qed.

Lemma int_text_chars (i : Decimal.int) :
  all_chars (fun c => PyStr.is_digit c || Ascii.eqb c "-") (NilZero.string_of_int i) = true.
Proof.
  destruct i as [d|d]; cbn [NilZero.string_of_int all_chars];
    [|change (PyStr.is_digit "-" || Ascii.eqb "-" "-") with true; cbn [andb]];
    apply (all_chars_weaken PyStr.is_digit); try apply uint_text_digits;
    intros c Hc; rewrite Hc; reflexivity.
Qed.

(** [int()] reads back the decimal text of an int. *)
Lemma py_int_of_decimal (i : Decimal.int) :
  PyStr.py_int (NilZero.string_of_int i) = Some (Z.of_int i).
Proof.
  unfold PyStr.py_int. rewrite strip_by_absent.
  - destruct i as [d|d]; cbn [NilZero.string_of_int Z.of_int].
    + rewrite <- int_digits_uint.
      destruct d; try reflexivity.
    + rewrite int_digits_uint. reflexivity.
  - apply (all_chars_weaken (fun c => PyStr.is_digit c || Ascii.eqb c "-"));
      [|apply int_text_chars].
    intro c. by_chars c.
Qed.

Lemma py_int_of_Z (z : Z) : PyStr.py_int (PyStr.of_Z z) = Some z.
Proof.
  unfold PyStr.of_Z. rewrite py_int_of_decimal, DecimalZ.of_to. reflexivity.
Qed.

(** *** Splitting *)

Lemma append_nil_r (s : string) : s ++ "" = s.
Proof. induction s as [|c r IH]; simpl; [reflexivity|]. rewrite IH. reflexivity. Qed.

Lemma append_assoc (a b c : string) : (a ++ b) ++ c = a ++ (b ++ c).
Proof. induction a as [|x a IH]; simpl; [reflexivity|]. rewrite IH. reflexivity. Qed.

Lemma has_char_append (a : ascii) (x y : string) :
  PyStr.has_char a (x ++ y) = PyStr.has_char a x || PyStr.has_char a y.
Proof.
  induction x as [|c x IH]; simpl; [reflexivity|]. rewrite IH. apply orb_assoc.
Qed.

Lemma has_char_absent (p : ascii -> bool) (a : ascii) (s : string) :
  p a = false -> all_chars p s = true -> PyStr.has_char a s = false.
Proof.
  intro Ha. induction s as [|c r IH]; simpl; [reflexivity|].
  intro H. apply andb_prop in H. destruct H as [Hc Hr]. rewrite (IH Hr), orb_false_r.
  destruct (Ascii.eqb a c) eqn:E; [|reflexivity].
  apply Ascii.eqb_eq in E. subst. congruence.
Qed.

Lemma prefix_append (x y : string) : String.prefix x (x ++ y) = true.
Proof.
  induction x as [|c x IH]; simpl; [apply prefix_empty|].
  destruct (ascii_dec c c); [exact IH|congruence].
Qed.

Lemma contains_at (sub x y : string) : PyStr.contains sub (x ++ sub ++ y) = true.
Proof.
  induction x as [|c x IH].
  - simpl. destruct (sub ++ y) eqn:E; cbn [PyStr.contains]; rewrite <- E, prefix_append;
      reflexivity.
  - cbn [append PyStr.contains]. rewrite IH. apply orb_true_r.
Qed.

Lemma split_go_nonempty (sep : string) (s : string) :
  forall skip cur, PyStr.split_go sep skip cur s <> [].
Proof.
  induction s as [|c r IH]; intros skip cur; cbn [PyStr.split_go]; [discriminate|].
  destruct skip; [|apply IH]. destruct (String.prefix sep (String c r)); [discriminate|apply IH].
Qed.

(** A string without the first character of the separator is one piece. *)
Lemma split_go_no_sep (a : ascii) (sep' s : string) :
  PyStr.has_char a s = false ->
  forall cur, PyStr.split_go (String a sep') 0 cur s = [cur ++ s].
Proof.
  induction s as [|c r IH]; intros H cur; cbn [PyStr.split_go].
  - rewrite append_nil_r. reflexivity.
  - simpl in H. apply orb_false_elim in H. destruct H as [Hc Hr].
    rewrite prefix_cons, Hc, (IH Hr), append_assoc. reflexivity.
Qed.

Lemma split_go_skip (sep sep' rest : string) :
  forall cur,
    PyStr.split_go sep (String.length sep') cur (sep' ++ rest)
    = PyStr.split_go sep 0 cur rest.
Proof.
  induction sep' as [|c sep' IH]; intro cur; [reflexivity|].
  cbn [String.length append PyStr.split_go]. apply IH.
Qed.

(** The first occurrence of the separator, after a piece without its
    first character. *)
Lemma split_go_at_sep (a : ascii) (sep' base rest : string) :
  PyStr.has_char a base = false ->
  forall cur,
    PyStr.split_go (String a sep') 0 cur (base ++ String a sep' ++ rest)
    = (cur ++ base) :: PyStr.split_go (String a sep') 0 "" rest.
Proof.
  induction base as [|c base IH]; intros H cur.
  - cbn [append PyStr.split_go].
    change (String a (sep' ++ rest)) with (String a sep' ++ rest).
    rewrite prefix_append. cbn [String.length Nat.sub]. rewrite Nat.sub_0_r.
    rewrite append_nil_r. cbn [append]. rewrite split_go_skip. reflexivity.
  - simpl in H. apply orb_false_elim in H. destruct H as [Hc Hr].
    cbn [append PyStr.split_go]. rewrite prefix_cons, Hc.
    rewrite (IH Hr), append_assoc. reflexivity.
Qed.

(** The last piece of a split by one character. *)
Lemma last_split_go (ch : ascii) (a b : string) :
  PyStr.has_char ch b = false ->
  forall cur,
    last (PyStr.split_go (String ch "") 0 cur (a ++ String ch b)) "" = b.
Proof.
  intro Hb. induction a as [|c a IH]; intro cur.
  - change ("" ++ String ch b) with ("" ++ String ch "" ++ b).
    rewrite (split_go_at_sep ch "" "" b eq_refl cur).
    rewrite (split_go_no_sep ch "" b Hb). reflexivity.
  - cbn [append PyStr.split_go]. rewrite prefix_cons.
    destruct (Ascii.eqb ch c).
    + rewrite prefix_empty. cbn [String.length Nat.sub].
      specialize (IH "").
      destruct (PyStr.split_go (String ch "") 0 "" (a ++ String ch b)) as [|x l] eqn:E;
        [exfalso; exact (split_go_nonempty _ _ _ _ E)|].
      exact IH.
    + apply IH.
Qed.

(** *** The page in the URI fragment *)

Lemma decimal_text_lacks (a : ascii) (z : Z) :
  (PyStr.is_digit a || Ascii.eqb a "-") = false -> PyStr.has_char a (PyStr.of_Z z) = false.
Proof.
  intro Ha. apply (has_char_absent (fun c => PyStr.is_digit c || Ascii.eqb c "-"));
    [exact Ha|apply int_text_chars].
Qed.

(** X11. A source URI that ends in the fragment [#page=N], possibly
    followed by [&...], gives back the page N: for a base without [#],
    [page_from_uri] of [base#page=<str(N)><tail>] is N, for every int N. *)
Theorem page_from_uri_round_trip (base tail : string) (z : Z) :
  PyStr.has_char "#" base = false ->
  PyStr.has_char "#" tail = false ->
  tail = "" \/ (exists t, tail = String "&" t) ->
  page_from_uri (Some (base ++ "#page=" ++ PyStr.of_Z z ++ tail)) = Some z.
Proof.
  intros Hbase Htail Hshape. unfold page_from_uri.
  assert (Hne : String.eqb (base ++ "#page=" ++ PyStr.of_Z z ++ tail) "" = false)
    by (destruct base; reflexivity).
  rewrite Hne, contains_at. cbn [negb andb].
  unfold PyStr.split.
  rewrite (split_go_at_sep "#" "page=" base (PyStr.of_Z z ++ tail) Hbase "").
  rewrite (split_go_no_sep "#" "page=" (PyStr.of_Z z ++ tail))
    by (rewrite has_char_append, Htail, decimal_text_lacks; reflexivity).
  cbn [nth append].
  destruct Hshape as [-> | [t ->]].
  - rewrite append_nil_r.
    rewrite (split_go_no_sep "&" "" (PyStr.of_Z z)) by (apply decimal_text_lacks; reflexivity).
    cbn [hd append]. apply py_int_of_Z.
  - rewrite (split_go_at_sep "&" "" (PyStr.of_Z z) t)
      by (apply decimal_text_lacks; reflexivity).
    cbn [hd append]. apply py_int_of_Z.
Qed.

Lemma page_from_uri_round_trip_witness :
  page_from_uri (Some ("gs://b/f.pdf" ++ "#page=" ++ PyStr.of_Z 12 ++ "&zoom=2")) = Some 12.
Proof.
  apply (page_from_uri_round_trip "gs://b/f.pdf" "&zoom=2" 12).
  - reflexivity.
  - reflexivity.
  - right. exists "zoom=2". reflexivity.
Defined.

(** *** The file named in a citation *)

Lemma citation_of_reads (corpus_id corpus_name : string) (r : result) :
  citation_of corpus_id corpus_name r
  = ("[Source: " ++ corpus_name ++ " (" ++ corpus_id ++ ")]")
      ++ match r_source_uri r with
         | Some source_path =>
             if String.eqb source_path "" then ""
             else " File: " ++ citation_file_name source_path
         | None => ""
         end
      ++ match r_page_number r with
         | Some p => if is_none p then "" else " Page: " ++ str_of p
         | None => ""
         end.
Proof.
  unfold citation_of, citation_file_name.
  destruct (r_source_uri r) as [source_path|];
    [destruct (String.eqb source_path "")|];
    destruct (r_page_number r) as [p|]; try destruct (is_none p);
    cbn [append]; rewrite ?append_nil_r, ?append_assoc; reflexivity.
Qed.

Lemma file_name_of_path (dir name frag : string) :
  PyStr.has_char "/" name = false ->
  PyStr.has_char "#" name = false ->
  frag = "" \/ (exists f, frag = String "#" f /\ PyStr.has_char "/" f = false) ->
  citation_file_name (dir ++ "/" ++ name ++ frag) = name.
Proof.
  intros Hslash Hhash Hfrag. unfold citation_file_name.
  assert (Hhas : PyStr.has_char "/" (dir ++ "/" ++ name ++ frag) = true).
  { rewrite has_char_append. simpl. apply orb_true_r. }
  rewrite Hhas. unfold PyStr.split.
  assert (Hseg : PyStr.has_char "/" (name ++ frag) = false).
  { rewrite has_char_append, Hslash.
    destruct Hfrag as [-> | [f [-> Hf]]]; simpl; [reflexivity|exact Hf]. }
  change (dir ++ "/" ++ name ++ frag) with (dir ++ String "/" (name ++ frag)).
  rewrite (last_split_go "/" dir (name ++ frag) Hseg "").
  destruct Hfrag as [-> | [f [-> Hf]]].
  - rewrite append_nil_r, Hhash. reflexivity.
  - assert (Hh : PyStr.has_char "#" (name ++ String "#" f) = true).
    { rewrite has_char_append. simpl. apply orb_true_r. }
    rewrite Hh. change (name ++ String "#" f) with (name ++ String "#" "" ++ f).
    rewrite (split_go_at_sep "#" "" name f Hhash ""). reflexivity.
Qed.

(** X12. The citation names the file by the last path segment of the
    source URI without its fragment: for a source [dir/name] or
    [dir/name#fragment] (the name without [/] and [#], the fragment
    without [/]) the citation is the bracketed corpus part followed by
    [ File: name] and, when a page number is attached, [ Page: N]. *)
Theorem citation_names_file (corpus_id corpus_name dir name frag : string)
  (page : option Z) (r : result) :
  r_source_uri r = Some (dir ++ "/" ++ name ++ frag) ->
  r_page_number r = option_map PInt page ->
  PyStr.has_char "/" name = false ->
  PyStr.has_char "#" name = false ->
  frag = "" \/ (exists f, frag = String "#" f /\ PyStr.has_char "/" f = false) ->
  citation_of corpus_id corpus_name r
  = ("[Source: " ++ corpus_name ++ " (" ++ corpus_id ++ ")]")
      ++ (" File: " ++ name)
      ++ match page with
         | Some z => " Page: " ++ PyStr.of_Z z
         | None => ""
         end.
Proof.
  intros Huri Hpage Hslash Hhash Hfrag.
  rewrite citation_of_reads, Huri, Hpage.
  assert (Hne : String.eqb (dir ++ "/" ++ name ++ frag) "" = false)
    by (destruct dir; reflexivity).
  rewrite Hne, (file_name_of_path dir name frag Hslash Hhash Hfrag).
  destruct page; reflexivity.
Qed.

Lemma citation_names_file_witness :
  citation_of "42" "Science"
    (mk_result "Chlorophyll absorbs light." (Some ("gs://b/unit3" ++ "/" ++ "ch2.pdf" ++ "#page=7"))
       None None (Some (PInt 7)) None None None None)
  = ("[Source: " ++ "Science" ++ " (" ++ "42" ++ ")]")
      ++ (" File: " ++ "ch2.pdf") ++ (" Page: " ++ PyStr.of_Z 7).
Proof.
  apply (citation_names_file "42" "Science" "gs://b/unit3" "ch2.pdf" "#page=7" (Some 7)).
  - reflexivity.
  - reflexivity.
  - reflexivity.
  - reflexivity.
  - right. exists "page=7". split; reflexivity.
Defined.

(** *** Corpus ids and resource names *)

(** X13. The id that [list_rag_corpora] derives for a corpus of the
    configured project and location is the id from which the query
    operations rebuild the resource name of that corpus: for an id without
    [/], listing the corpus named [projects/P/locations/L/ragCorpora/id]
    gives back [id], and [query_rag_corpus] on the listed id addresses
    exactly that resource name. *)
Theorem listed_id_addresses_corpus (cfg : config) (api : rag_api)
  (corpus_id display_name : string) (top_k : Z) (thr : Q) (mf : option dict) :
  PyStr.has_char "/" corpus_id = false ->
  let listed := list_step api (mk_RagCorpus (resource_name cfg corpus_id) display_name) in
  ce_id listed = corpus_id
  /\ ce_display_name listed = display_name
  /\ (forall p, prepare cfg api (ce_id listed) top_k thr mf = Ok p ->
                rr_rag_corpus (p_rag_resource p) = ce_name listed).
Proof.
  intros Hid listed.
  assert (Hce : ce_id listed = corpus_id).
  { unfold listed, list_step. cbn [ce_id sdk_name]. unfold resource_name, PyStr.split.
    assert (Hpath : "projects/" ++ PROJECT_ID cfg ++ "/locations/" ++ LOCATION cfg
                      ++ "/ragCorpora/" ++ corpus_id
                    = ("projects/" ++ PROJECT_ID cfg ++ "/locations/" ++ LOCATION cfg
                         ++ "/ragCorpora") ++ String "/" corpus_id).
    { rewrite !append_assoc. reflexivity. }
    rewrite Hpath. apply last_split_go. exact Hid. }
  split; [exact Hce|]. split; [reflexivity|].
  intros p Hp. rewrite Hce in Hp. unfold prepare in Hp.
  destruct (RagResource_raises api _); cbn [raising bind] in Hp; [discriminate|].
  destruct (RagRetrievalConfig_raises api _ _); cbn [raising bind] in Hp; [discriminate|].
  inversion Hp. reflexivity.
Qed.

Lemma listed_id_addresses_corpus_witness :
  let listed :=
    list_step (Samples.steady_api [] [])
      (mk_RagCorpus (resource_name Samples.cfg "42") "Science") in
  ce_id listed = "42"
  /\ ce_display_name listed = "Science"
  /\ (forall p, prepare Samples.cfg (Samples.steady_api [] []) (ce_id listed) 5 (1 # 2) None
                = Ok p ->
                rr_rag_corpus (p_rag_resource p) = ce_name listed).
Proof.
  apply (listed_id_addresses_corpus Samples.cfg (Samples.steady_api [] []) "42" "Science"
           5 (1 # 2) None).
  reflexivity.
Defined.

(** *** The order of the merged results *)

Lemma score_total (x y : result) :
  Qle_bool (sort_key y) (sort_key x) = false -> Qle (sort_key x) (sort_key y).
Proof.
  intro H. apply Qlt_le_weak, Qnot_le_lt. intro Hle.
  apply Qle_bool_iff in Hle. congruence.
Qed.

Lemma insert_desc_head (x y : result) (l : list result) :
  score_ge y x -> HdRel score_ge y l -> HdRel score_ge y (insert_desc x l).
Proof.
  intros Hyx Hl. destruct l as [|z l]; simpl.
  - constructor. exact Hyx.
  - destruct (Qle_bool (sort_key z) (sort_key x)); constructor;
      [exact Hyx|inversion Hl; assumption].
Qed.

Lemma insert_desc_sorted (x : result) (l : list result) :
  Sorted score_ge l -> Sorted score_ge (insert_desc x l).
Proof.
  induction l as [|y l IH]; intro Hs; simpl.
  - constructor; constructor.
  - destruct (Qle_bool (sort_key y) (sort_key x)) eqn:E.
    + constructor; [exact Hs|]. constructor. apply Qle_bool_iff. exact E.
    + inversion Hs as [|? ? Hl Hhd]; subst. constructor; [exact (IH Hl)|].
      apply insert_desc_head; [|exact Hhd]. apply score_total. exact E.
Qed.

Lemma sort_desc_sorted (l : list result) : Sorted score_ge (sort_desc l).
Proof.
  induction l as [|x l IH]; simpl; [constructor|].
  apply insert_desc_sorted. exact IH.
Qed.

Lemma insert_desc_stable (q : Q) (x : result) (l : list result) :
  filter (same_score q) (insert_desc x l) = filter (same_score q) (x :: l).
Proof.
  induction l as [|y l IH]; [reflexivity|].
  cbn [insert_desc]. destruct (Qle_bool (sort_key y) (sort_key x)) eqn:E; [reflexivity|].
  cbn [filter] in IH |- *. rewrite IH.
  destruct (same_score q x) eqn:Hx; destruct (same_score q y) eqn:Hy; try reflexivity.
  exfalso. unfold same_score in Hx, Hy. apply Qeq_bool_iff in Hx, Hy.
  assert (Hle : Qle (sort_key y) (sort_key x)) by (rewrite Hx, Hy; apply Qle_refl).
  apply Qle_bool_iff in Hle. congruence.
Qed.

Lemma sort_desc_stable (q : Q) (l : list result) :
  filter (same_score q) (sort_desc l) = filter (same_score q) l.
Proof.
  induction l as [|x l IH]; [reflexivity|].
  cbn [sort_desc]. rewrite insert_desc_stable. cbn [filter]. rewrite IH. reflexivity.
Qed.

(** What [search_all_corpora] returns, by the three ways out of its
    body. *)
Lemma search_all_corpora_results (cfg : config) (api : rag_api) (query_text : string)
  (top_k : option Z) (thr : option Q) (mf : option dict) (l : list result) :
  results (search_all_corpora cfg api query_text top_k thr mf) = Some l ->
  exists st : astate,
    l = sort_desc (all_results st)
    /\ st = fold_left
              (corpus_step cfg api query_text
                 (or_default top_k (RAG_DEFAULT_SEARCH_TOP_K cfg))
                 (or_default thr (RAG_DEFAULT_VECTOR_DISTANCE_THRESHOLD cfg)) mf)
              (or_default (l_corpora (list_rag_corpora api)) []) (mk_astate [] [] [])
    /\ search_all_corpora cfg api query_text top_k thr mf
       = mk_response "success" None (Some l) (Some (List.length l)) (Some query_text)
           (dict_or_none mf)
           (message (search_all_corpora cfg api query_text top_k thr mf)) None None
           (Some (corpus_results_map st)) (Some (searched st))
           (citations_summary (search_all_corpora cfg api query_text top_k thr mf))
           (Some "Each result includes a citation indicating its source corpus and file.").
Proof.
  unfold search_all_corpora, search_all_body.
  destruct (negb (String.eqb (l_status (list_rag_corpora api)) "success"));
    [discriminate|].
  destruct (negb (dict_truthy (or_default (l_corpora (list_rag_corpora api)) [])));
    [discriminate|].
  destruct (summarize _ _) as [lines|e]; cbn [bind try_except results]; [|discriminate].
  intro H. inversion H. eexists. split; [reflexivity|]. split; reflexivity.
Qed.

(** X14. Whenever [search_all_corpora] returns results, they are in
    non-increasing order of relevance score, a result without a score
    counting as score 0, and [count] is their number. *)
Theorem merged_results_sorted (cfg : config) (api : rag_api) (query_text : string)
  (top_k : option Z) (thr : option Q) (mf : option dict) (l : list result) :
  results (search_all_corpora cfg api query_text top_k thr mf) = Some l ->
  Sorted score_ge l
  /\ count (search_all_corpora cfg api query_text top_k thr mf) = Some (List.length l).
Proof.
  intro H. destruct (search_all_corpora_results _ _ _ _ _ _ _ H) as [st [Hl [_ Hr]]].
  split.
  - rewrite Hl. apply sort_desc_sorted.
  - rewrite Hr. reflexivity.
Qed.

Lemma merged_results_sorted_witness :
  let low := mk_context (Some "Roots absorb water.") (Some "gs://b/a.pdf") (Some (1 # 4))
               [] None [] None None in
  let none := mk_context (Some "Stems carry water.") (Some "gs://b/b.pdf") None
                [] None [] None None in
  let api := Samples.steady_api [Samples.science] [low; none; Samples.unit3_context] in
  let r := search_all_corpora Samples.cfg api "plants" None None None in
  Sorted score_ge (or_default (results r) [])
  /\ count r = Some (List.length (or_default (results r) [])).
Proof.
  intros low none api r.
  apply (merged_results_sorted Samples.cfg api "plants" None None None).
  reflexivity.
Defined.

(** X15. The merge of [search_all_corpora] is stable: among the results
    with one and the same score, the order is the order in which the
    corpora were listed and, within a corpus, the order of its own
    results. *)
Theorem merged_results_stable (cfg : config) (api : rag_api) (query_text : string)
  (top_k : option Z) (thr : option Q) (mf : option dict) (sdk : list RagCorpus) (q : Q) :
  list_corpora api = Ok sdk ->
  sdk <> [] ->
  let k := or_default top_k (RAG_DEFAULT_SEARCH_TOP_K cfg) in
  let t := or_default thr (RAG_DEFAULT_VECTOR_DISTANCE_THRESHOLD cfg) in
  let corpora := map (list_step api) sdk in
  filter (same_score q)
    (or_default (results (search_all_corpora cfg api query_text top_k thr mf)) [])
  = filter (same_score q)
      (flat_map (kept cfg api query_text k t mf)
         (filter (succeeded cfg api query_text k t mf) corpora)).
Proof.
  intros Hl Hne k t corpora.
  destruct (search_all_body_success cfg api query_text k t mf sdk Hl Hne)
    as [Hbody [Ha _]].
  fold corpora in Hbody, Ha.
  unfold search_all_corpora. fold k t. rewrite Hbody.
  cbn [try_except results or_default]. rewrite sort_desc_stable, Ha. reflexivity.
Qed.

Lemma merged_results_stable_witness :
  let api := Samples.steady_api [Samples.science; Samples.maths] [Samples.unit3_context] in
  let corpora := map (list_step api) [Samples.science; Samples.maths] in
  filter (same_score (3 # 4))
    (or_default (results (search_all_corpora Samples.cfg api "light" None None None)) [])
  = filter (same_score (3 # 4))
      (flat_map (kept Samples.cfg api "light" 5 (1 # 2) None)
         (filter (succeeded Samples.cfg api "light" 5 (1 # 2) None) corpora)).
Proof.
  intros api.
  apply (merged_results_stable Samples.cfg api "light" None None None
           [Samples.science; Samples.maths] (3 # 4)).
  - reflexivity.
  - discriminate.
Defined.

(** *** The per-corpus map *)

Lemma dict_set_Forall {V : Type} (P : string * V -> Prop) (k : string) (v : V)
  (d : list (string * V)) :
  Forall P d -> P (k, v) -> Forall P (dict_set k v d).
Proof.
  intros Hd Hkv. induction d as [|[k' v'] d IH]; simpl.
  - constructor; [exact Hkv|constructor].
  - inversion Hd as [|? ? Hh Ht]; subst.
    destruct (String.eqb k k'); constructor; auto.
Qed.

Lemma dict_set_keys {V : Type} (k : string) (v : V) (d : list (string * V)) (x : string) :
  In x (dict_keys (dict_set k v d)) <-> x = k \/ In x (dict_keys d).
Proof.
  unfold dict_keys. induction d as [|[k' v'] d IH]; simpl.
  - intuition.
  - destruct (String.eqb k k') eqn:E; simpl.
    + apply String.eqb_eq in E. subst. intuition.
    + rewrite IH. intuition.
Qed.

Lemma dict_set_distinct {V : Type} (k : string) (v : V) (d : list (string * V)) :
  NoDup (dict_keys d) -> NoDup (dict_keys (dict_set k v d)).
Proof.
  unfold dict_keys. induction d as [|[k' v'] d IH]; simpl; intro H.
  - constructor; [intros []|constructor].
  - inversion H as [|? ? Hk Hnd]; subst.
    destruct (String.eqb k k') eqn:E; simpl.
    + apply String.eqb_eq in E. subst. constructor; assumption.
    + constructor; [|exact (IH Hnd)].
      intro Hin. apply (dict_set_keys k v d k') in Hin. destruct Hin as [Heq|Hin].
      * subst. rewrite String.eqb_refl in E. discriminate.
      * exact (Hk Hin).
Qed.

Lemma kept_entry_consistent (cfg : config) (api : rag_api) (query_text : string)
  (k : Z) (thr : Q) (mf : option dict) (c : corpus_entry) :
  kept cfg api query_text k thr mf c <> [] ->
  entry_consistent
    (ce_display_name c,
     mk_corpus_result (ce_id c) (ce_display_name c) (kept cfg api query_text k thr mf c)
       (List.length (kept cfg api query_text k thr mf c))).
Proof.
  intro Hne. unfold entry_consistent. cbn [fst snd cr_corpus_name cr_count cr_results
                                             cr_corpus_id].
  repeat split; [exact Hne|].
  unfold kept. apply Forall_forall. intros x Hx. apply in_map_iff in Hx.
  destruct Hx as [y [<- _]]. repeat split.
Qed.

(** The map after the loop: consistent entries under distinct keys. *)
Lemma loop_map_consistent (cfg : config) (api : rag_api) (query_text : string)
  (k : Z) (thr : Q) (mf : option dict) (corpora : list corpus_entry) :
  forall st,
    Forall entry_consistent (corpus_results_map st) ->
    NoDup (dict_keys (corpus_results_map st)) ->
    let st' := fold_left (corpus_step cfg api query_text k thr mf) corpora st in
    Forall entry_consistent (corpus_results_map st')
    /\ NoDup (dict_keys (corpus_results_map st')).
Proof.
  induction corpora as [|c corpora IH]; intros st Hf Hnd; [split; assumption|].
  cbn [fold_left]. apply IH; rewrite corpus_step_cases;
    destruct (Notions.succeeded cfg api query_text k thr mf c); try assumption;
    destruct (dict_truthy (Notions.kept cfg api query_text k thr mf c)) eqn:Hk;
    cbn [corpus_results_map]; try assumption.
  - apply dict_set_Forall; [exact Hf|]. apply kept_entry_consistent.
    intro Hnil. rewrite Hnil in Hk. discriminate Hk.
  - apply dict_set_distinct. exact Hnd.
Qed.

(** X16. In every response of [search_all_corpora] that has the map
    [corpus_results], its keys are distinct and every entry agrees with
    its key: the entry's corpus name is the key, its count is the number
    of its results, it has at least one result, and each of its results
    carries that corpus name, the entry's corpus id and the citation for
    them. *)
Theorem corpus_results_consistent (cfg : config) (api : rag_api) (query_text : string)
  (top_k : option Z) (thr : option Q) (mf : option dict)
  (crm : list (string * corpus_result)) :
  corpus_results (search_all_corpora cfg api query_text top_k thr mf) = Some crm ->
  Forall entry_consistent crm /\ NoDup (dict_keys crm).
Proof.
  unfold search_all_corpora, search_all_body.
  destruct (negb (String.eqb (l_status (list_rag_corpora api)) "success"));
    [discriminate|].
  destruct (negb (dict_truthy (or_default (l_corpora (list_rag_corpora api)) [])));
    [discriminate|].
  destruct (summarize _ _) as [lines|e]; cbn [bind try_except corpus_results];
    [|discriminate].
  intro H. inversion H. apply loop_map_consistent; constructor.
Qed.

Lemma corpus_results_consistent_witness :
  let api := Samples.steady_api [Samples.science; Samples.maths] [Samples.unit3_context] in
  let r := search_all_corpora Samples.cfg api "light" None None None in
  Forall entry_consistent (or_default (corpus_results r) [])
  /\ NoDup (dict_keys (or_default (corpus_results r) [])).
Proof.
  intros api r.
  apply (corpus_results_consistent Samples.cfg api "light" None None None).
  reflexivity.
Defined.

(** *** Looking a corpus up by name *)

Lemma lstrip_map_chars (f : ascii -> ascii) (s : string) :
  (forall c, PyStr.is_space (f c) = PyStr.is_space c) ->
  PyStr.lstrip_by PyStr.is_space (PyStr.map_chars f s)
  = PyStr.map_chars f (PyStr.lstrip_by PyStr.is_space s).
Proof.
  intro Hf. induction s as [|c r IH]; simpl; [reflexivity|].
  rewrite Hf. destruct (PyStr.is_space c); [exact IH|reflexivity].
Qed.

Lemma rstrip_map_chars (f : ascii -> ascii) (s : string) :
  (forall c, PyStr.is_space (f c) = PyStr.is_space c) ->
  PyStr.rstrip_by PyStr.is_space (PyStr.map_chars f s)
  = PyStr.map_chars f (PyStr.rstrip_by PyStr.is_space s).
Proof.
  intro Hf. induction s as [|c r IH]; simpl; [reflexivity|].
  rewrite IH, Hf.
  destruct (PyStr.rstrip_by PyStr.is_space r) as [|d r']; simpl;
    [destruct (PyStr.is_space c)|]; reflexivity.
Qed.

Lemma strip_map_chars (f : ascii -> ascii) (s : string) :
  (forall c, PyStr.is_space (f c) = PyStr.is_space c) ->
  PyStr.strip (PyStr.map_chars f s) = PyStr.map_chars f (PyStr.strip s).
Proof.
  intro Hf. unfold PyStr.strip, PyStr.strip_by.
  rewrite (rstrip_map_chars f s Hf). apply lstrip_map_chars. exact Hf.
Qed.

(** The key of the lookup ignores the case of the name. *)
Lemma lookup_key_upper (s : string) :
  PyStr.lower (PyStr.strip (PyStr.upper s)) = PyStr.lower (PyStr.strip s).
Proof.
  unfold PyStr.upper. rewrite strip_map_chars by (intro c; by_chars c).
  unfold PyStr.lower. rewrite map_chars_compose.
  apply map_chars_ext. intro c. by_chars c.
Qed.

(** ... and the whitespace around it. *)
Lemma lookup_key_padded (s : string) :
  PyStr.lower (PyStr.strip (" " ++ s ++ " ")) = PyStr.lower (PyStr.strip s).
Proof.
  f_equal. unfold PyStr.strip, PyStr.strip_by.
  assert (Hr : forall t, PyStr.rstrip_by PyStr.is_space (t ++ " ")
                         = PyStr.rstrip_by PyStr.is_space t).
  { induction t as [|c t IH]; [reflexivity|]. simpl. rewrite IH. reflexivity. }
  change (" " ++ s ++ " ") with (String " " (s ++ " ")).
  cbn [PyStr.rstrip_by]. rewrite Hr.
  destruct (PyStr.rstrip_by PyStr.is_space s) as [|d r']; reflexivity.
Qed.

Lemma name_matches_key (n n' : string) (c : corpus_entry) :
  PyStr.lower (PyStr.strip n') = PyStr.lower (PyStr.strip n) ->
  name_matches n' c = name_matches n c.
Proof. intro H. unfold name_matches. rewrite H. reflexivity. Qed.

Lemma find_ext_all {A : Type} (f g : A -> bool) (l : list A) :
  (forall x, f x = g x) -> find f l = find g l.
Proof.
  intro H. induction l as [|a l IH]; simpl; [reflexivity|]. rewrite H, IH. reflexivity.
Qed.

(** X17. When the listing succeeds, [search_corpus_by_name] takes the
    first listed corpus whose display name is not empty and equals the
    requested name up to case and surrounding whitespace: the response is
    that of [query_rag_corpus] on its id with the default [top_k] and
    threshold; when no corpus matches, the response is an error whose
    message holds the requested name as it was typed, without
    [error_message]. Two requested names that are equal up to case and
    surrounding whitespace find the same corpus: they get the same
    response when a corpus matches, and when none matches each gets the
    error with its own spelling. *)
Theorem search_by_name_resolution (cfg : config) (api : rag_api)
  (corpus_name query_text : string) (mf : option dict) (sdk : list RagCorpus) :
  list_corpora api = Ok sdk ->
  let corpora := map (list_step api) sdk in
  let key n := PyStr.lower (PyStr.strip n) in
  let hit c := negb (String.eqb (ce_display_name c) "")
               && String.eqb (key (ce_display_name c)) (key corpus_name) in
  let not_found n :=
    mk_response "error" None None None None None
      (Some ("❌ Error: Corpus with name '" ++ n ++ "' not found."))
      None None None None None None in
  (forall c,
      find hit corpora = Some c ->
      search_corpus_by_name cfg api corpus_name query_text mf
      = query_rag_corpus cfg api (ce_id c) query_text None None mf)
  /\ (find hit corpora = None ->
      search_corpus_by_name cfg api corpus_name query_text mf = not_found corpus_name)
  /\ (forall other,
         key other = key corpus_name ->
         (forall c,
             find hit corpora = Some c ->
             search_corpus_by_name cfg api other query_text mf
             = search_corpus_by_name cfg api corpus_name query_text mf)
         /\ (find hit corpora = None ->
             search_corpus_by_name cfg api other query_text mf = not_found other))
  /\ key (PyStr.upper corpus_name) = key corpus_name
  /\ key (" " ++ corpus_name ++ " ") = key corpus_name.
Proof.
  intros Hl corpora key hit not_found.
  assert (Hbody : forall n,
             search_corpus_by_name cfg api n query_text mf
             = match find (name_matches n) corpora with
               | Some c => query_rag_corpus cfg api (ce_id c) query_text None None mf
               | None => not_found n
               end).
  { intro n. unfold search_corpus_by_name, by_name_body, list_rag_corpora.
    rewrite Hl. cbn [bind try_except l_status l_corpora or_default].
    change (negb ("success" =? "success")%string) with false. cbv iota.
    fold corpora. destruct (find (name_matches n) corpora); reflexivity. }
  assert (Hhit : find hit corpora = find (name_matches corpus_name) corpora)
    by (apply find_ext_all; intro c; reflexivity).
  split; [|split; [|split; [|split]]].
  - intros c Hc. rewrite Hbody, <- Hhit, Hc. reflexivity.
  - intro Hc. rewrite Hbody, <- Hhit, Hc. reflexivity.
  - intros other Hkey.
    assert (Hother : find (name_matches other) corpora = find hit corpora).
    { rewrite Hhit. apply find_ext_all. intro x. apply name_matches_key. exact Hkey. }
    split.
    + intros c Hc. rewrite !Hbody. rewrite Hother, <- Hhit, Hc. reflexivity.
    + intro Hc. rewrite Hbody, Hother, Hc. reflexivity.
  - apply lookup_key_upper.
  - apply lookup_key_padded.
Qed.

(** Maths asked for as " MATHS " and as "maths"; Physics, which is not
    listed, asked for as " PHYSICS " and as "physics". *)
Lemma search_by_name_resolution_witness :
  let api := Samples.steady_api [Samples.science; Samples.maths] [Samples.unit3_context] in
  let not_found n :=
    mk_response "error" None None None None None
      (Some ("❌ Error: Corpus with name '" ++ n ++ "' not found."))
      None None None None None None in
  search_corpus_by_name Samples.cfg api " MATHS " "angles" None
  = query_rag_corpus Samples.cfg api "44" "angles" None None None
  /\ search_corpus_by_name Samples.cfg api "maths" "angles" None
     = search_corpus_by_name Samples.cfg api " MATHS " "angles" None
  /\ search_corpus_by_name Samples.cfg api " PHYSICS " "angles" None
     = not_found " PHYSICS "
  /\ search_corpus_by_name Samples.cfg api "physics" "angles" None
     = not_found "physics".
Proof.
  intros api not_found.
  destruct (search_by_name_resolution Samples.cfg api " MATHS " "angles" None
              [Samples.science; Samples.maths] eq_refl)
    as [Hfound [_ [Hsame _]]].
  destruct (search_by_name_resolution Samples.cfg api " PHYSICS " "angles" None
              [Samples.science; Samples.maths] eq_refl)
    as [_ [Hmiss [Hother _]]].
  split; [|split; [|split]].
  - exact (Hfound (list_step api Samples.maths) eq_refl).
  - exact (proj1 (Hsame "maths" eq_refl) (list_step api Samples.maths) eq_refl).
  - exact (Hmiss eq_refl).
  - exact (proj2 (Hother "physics" eq_refl) eq_refl).
Defined.

(** *** Ingested tags against query filters *)

Lemma schema_name_recognised (k : string) : In k schema_names -> is_schema_field k = true.
Proof.
  apply (schema_name_cases (fun k => is_schema_field k = true)); reflexivity.
Qed.

Lemma single_criterion_filter (k : string) (v : pyval) :
  is_schema_field k = true ->
  create_metadata_filter [(k, v)] = [(k, filter_value k v)].
Proof.
  intro Hk. unfold create_metadata_filter. cbn [fold_left].
  rewrite filter_step_entry. unfold filter_entry. cbn [fst snd]. rewrite Hk. reflexivity.
Qed.

(** X18. Filter symmetry for every field but the board: a tag that
    [validate_metadata] accepted and normalized is matched by a query
    filter on that field whose value differs from the ingested one only in
    case and surrounding whitespace. *)
Theorem ingested_tag_matches_filter (metadata : dict) (strict : bool) (n : dict)
  (k s s' : string) (r : result) :
  normalized (validate_metadata metadata strict) = Some n ->
  In k schema_names ->
  k <> "board" ->
  dict_get k metadata = Some (PStr s) ->
  PyStr.lower (PyStr.strip s') = PyStr.lower (PyStr.strip s) ->
  r_metadata r = Some n ->
  passes_filter (create_metadata_filter [(k, PStr s')]) r = true.
Proof.
  intros Hn Hk Hb Hget Hkey Hr. apply normalized_is in Hn. destruct Hn as [-> _].
  rewrite (single_criterion_filter k (PStr s') (schema_name_recognised k Hk)).
  apply String.eqb_neq in Hb.
  assert (Hstored : dict_get k (validation_normalized metadata) = Some (PStr (PyStr.strip s))).
  { rewrite validation_normalized_get, Hget.
    apply str_in_In in Hk. rewrite Hk. unfold field_norm. rewrite Hb. reflexivity. }
  unfold passes_filter. rewrite Hr.
  assert (Hne : dict_truthy (validation_normalized metadata) = true).
  { destruct (validation_normalized metadata); [discriminate Hstored|reflexivity]. }
  rewrite Hne. cbn [andb forallb]. rewrite andb_true_r.
  unfold criterion_matches, filter_value. cbn [fst snd str_of]. rewrite Hstored, Hb.
  unfold PyStr.strip. rewrite !strip_by_idem. fold PyStr.strip.
  rewrite Hkey. apply String.eqb_refl.
Qed.

Lemma ingested_tag_matches_filter_witness :
  passes_filter (create_metadata_filter [("subject", PStr " science ")])
    (build_result (Samples.tagged_context "Cells divide." Samples.ingested))
  = true.
Proof.
  apply (ingested_tag_matches_filter
           [("board", PStr "Tamil Nadu Board"); ("grade", PStr "10");
            ("subject", PStr "Science")]
           false Samples.ingested "subject" "Science" " science ").
  - reflexivity.
  - simpl. tauto.
  - discriminate.
  - reflexivity.
  - reflexivity.
  - reflexivity.
Defined.

Lemma map_chars_fixed (p : ascii -> bool) (f : ascii -> ascii) (s : string) :
  (forall c, p c = true -> f c = c) -> all_chars p s = true -> PyStr.map_chars f s = s.
Proof.
  intro Hf. induction s as [|c r IH]; simpl; [reflexivity|].
  intro H. apply andb_prop in H. destruct H as [Hc Hr].
  rewrite (Hf c Hc), (IH Hr). reflexivity.
Qed.

(** Without two underscores in a row the collapse changes nothing. *)
Lemma collapse_fixed (s : string) :
  forall b,
    PyStr.contains "__" s = false ->
    (b = true -> String.prefix "_" s = false) ->
    collapse_underscores b s = s.
Proof.
  induction s as [|c r IH]; intros b Hn Hb; [reflexivity|].
  cbn [collapse_underscores]. cbn [PyStr.contains] in Hn.
  apply orb_false_elim in Hn. destruct Hn as [Hp Hr].
  rewrite prefix_cons in Hp.
  destruct (Ascii.eqb c "_") eqn:Hc.
  - apply Ascii.eqb_eq in Hc. subst c. rewrite Ascii.eqb_refl in Hp.
    destruct b.
    + specialize (Hb eq_refl). rewrite prefix_cons, Ascii.eqb_refl, prefix_empty in Hb.
      discriminate Hb.
    + rewrite (IH true Hr (fun _ => Hp)). reflexivity.
  - rewrite (IH false Hr); [reflexivity|discriminate].
Qed.

(** The stored board, as a filter value and as a metadata value, has one
    and the same normal form, and that form is a fixed point of the
    normalization of the filter side. *)
Lemma stored_board_forms (v : string) :
  all_chars ordinary_char v = true ->
  let B := field_norm "board" v in
  board_meta_norm B = normalize_board B
  /\ board_filter_norm (normalize_board B) = normalize_board B.
Proof.
  intros Hv B.
  assert (HB : all_chars (fun c => negb (PyStr.is_space c) && negb (PyStr.is_lower c)) B
               = true).
  { unfold B. rewrite board_norm_chars.
    apply (all_chars_map ordinary_char); [|apply all_chars_strip; exact Hv].
    intro c. unfold ordinary_char. by_chars c. }
  assert (Hstrip : PyStr.strip B = B).
  { apply strip_by_absent. revert HB. apply all_chars_weaken.
    intros c Hc. apply andb_prop in Hc. tauto. }
  assert (Hup : PyStr.upper B = B).
  { unfold PyStr.upper. revert HB. apply map_chars_fixed. intro c. by_chars c. }
  set (y := camel_sub None (PyStr.replace_char "." "_" (PyStr.replace_char "-" "_" B))).
  assert (Hy : all_chars settled_char y = true).
  { unfold y. apply all_chars_camel_sub; [reflexivity|].
    unfold PyStr.replace_char. rewrite map_chars_compose.
    revert HB. apply all_chars_map. intro c. unfold settled_char. by_chars c. }
  assert (Hfix : forall s, all_chars settled_char s = true ->
                           PyStr.replace_char " " "_" s = s /\ PyStr.upper s = s
                           /\ PyStr.replace_char "." "_" (PyStr.replace_char "-" "_" s) = s
                           /\ PyStr.strip s = s).
  { intros s Hs. split; [|split; [|split]].
    - unfold PyStr.replace_char. revert Hs. apply map_chars_fixed.
      intro c. unfold settled_char. by_chars c.
    - unfold PyStr.upper. revert Hs. apply map_chars_fixed.
      intro c. unfold settled_char. by_chars c.
    - unfold PyStr.replace_char. rewrite map_chars_compose. revert Hs.
      apply map_chars_fixed. intro c. unfold settled_char. by_chars c.
    - apply strip_by_absent. revert Hs. apply all_chars_weaken.
      intro c. unfold settled_char. by_chars c. }
  destruct (Hfix y Hy) as [Hsp [Hupy _]].
  assert (Hnb : normalize_board B
                = PyStr.strip_underscores (collapse_underscores false y)).
  { unfold normalize_board. rewrite Hstrip. fold y. rewrite Hupy, Hsp. reflexivity. }
  split.
  - rewrite Hnb. unfold board_meta_norm. rewrite Hstrip, Hup. fold y. rewrite Hsp.
    reflexivity.
  - assert (HM : all_chars settled_char (normalize_board B) = true).
    { rewrite Hnb. apply all_chars_strip, all_chars_collapse. exact Hy. }
    destruct (Hfix _ HM) as [Hsp' [Hup' [Hdots Hst]]].
    unfold board_filter_norm. rewrite Hst, Hup', Hdots, Hsp'.
    rewrite collapse_fixed; [apply board_form_stripped|apply board_form_no_double|discriminate].
Qed.

(** X19. For the board, the ingested spelling is the one that filters
    reliably: when [validate_metadata] accepted a board that has no
    whitespace other than spaces, a query filter whose board is the
    stored (normalized) value matches the document. *)
Theorem stored_board_matches_itself (metadata : dict) (strict : bool) (n : dict)
  (v : string) (r : result) :
  normalized (validate_metadata metadata strict) = Some n ->
  dict_get "board" metadata = Some (PStr v) ->
  all_chars ordinary_char v = true ->
  r_metadata r = Some n ->
  dict_get "board" n = Some (PStr (field_norm "board" v))
  /\ passes_filter (create_metadata_filter [("board", PStr (field_norm "board" v))]) r
     = true.
Proof.
  intros Hn Hget Hv Hr. apply normalized_is in Hn. destruct Hn as [-> _].
  assert (Hstored : dict_get "board" (validation_normalized metadata)
                    = Some (PStr (field_norm "board" v))).
  { rewrite validation_normalized_get, Hget. reflexivity. }
  split; [exact Hstored|].
  rewrite (single_criterion_filter "board" _ eq_refl).
  unfold passes_filter. rewrite Hr.
  assert (Hne : dict_truthy (validation_normalized metadata) = true).
  { destruct (validation_normalized metadata); [discriminate Hstored|reflexivity]. }
  rewrite Hne. cbn [andb forallb]. rewrite andb_true_r.
  unfold criterion_matches, filter_value. cbn [fst snd str_of]. rewrite Hstored.
  cbn [String.eqb Ascii.eqb Bool.eqb].
  destruct (stored_board_forms v Hv) as [Hmeta Hfilter].
  rewrite Hmeta, Hfilter. apply String.eqb_refl.
Qed.

Lemma stored_board_matches_itself_witness :
  dict_get "board" Samples.ingested = Some (PStr (field_norm "board" "Tamil Nadu Board"))
  /\ passes_filter
       (create_metadata_filter [("board", PStr (field_norm "board" "Tamil Nadu Board"))])
       (build_result (Samples.tagged_context "Cells divide." Samples.ingested))
     = true.
Proof.
  apply (stored_board_matches_itself
           [("board", PStr "Tamil Nadu Board"); ("grade", PStr "10");
            ("subject", PStr "Science")]
           false Samples.ingested "Tamil Nadu Board").
  - reflexivity.
  - reflexivity.
  - reflexivity.
  - reflexivity.
Defined.

(** *** Importing a document *)

Import CorpusImport.

Lemma well_tagged_normalized_nonempty (metadata : dict) (strict : bool) :
  well_tagged metadata strict -> dict_or_none (Some (validation_normalized metadata))
                                 = Some (validation_normalized metadata).
Proof.
  intros [Hreq _].
  destruct (Hreq "board") as [s Hs]; [simpl; tauto|].
  assert (Hget : dict_get "board" (validation_normalized metadata)
                 = Some (PStr (field_norm "board" s))).
  { rewrite validation_normalized_get, Hs. reflexivity. }
  destruct (validation_normalized metadata); [discriminate Hget|reflexivity].
Qed.

Lemma nonempty_dict_or_none (metadata : dict) :
  metadata <> [] -> dict_or_none (Some metadata) = Some metadata.
Proof. destruct metadata; [intro H; exfalso; apply H; reflexivity|reflexivity]. Qed.

(** X20. [import_document_to_corpus] rejects tags that
    [validate_metadata] does not accept before anything is imported:
    for non-empty tags that fail the (non-strict) validation, whatever
    [rag.import_files] would do, the answer is the error dict listing the
    validation errors, with the validation report attached, and nothing is
    printed. *)
Theorem import_rejects_invalid_tags (cfg : config) (import_files : import_api)
  (corpus_id gcs_uri : string) (metadata : dict) (chunk_size chunk_overlap : option Z) :
  metadata <> [] ->
  ~ well_tagged metadata false ->
  validation_errors metadata false <> []
  /\ import_document_to_corpus cfg import_files corpus_id gcs_uri (Some metadata)
       chunk_size chunk_overlap
     = (mk_import_response "error" corpus_id
          ("Failed to import document: Invalid metadata. Errors: "
             ++ PyStr.join ", " (validation_errors metadata false))
          (Some ("Metadata validation failed: "
                   ++ PyStr.join ", " (validation_errors metadata false)))
          (Some (mk_metadata_validation false (validation_errors metadata false)
                   (validation_warnings metadata)))
          None,
        []).
Proof.
  intros Hne Hbad.
  assert (Herr : validation_errors metadata false <> [])
    by (intro H; apply Hbad, validation_errors_nil; exact H).
  split; [exact Herr|].
  unfold import_document_to_corpus, import_body.
  rewrite (nonempty_dict_or_none metadata Hne), validate_metadata_reads.
  cbn [valid errors warnings normalized].
  destruct (validation_errors metadata false) as [|e es]; [contradiction|].
  reflexivity.
Qed.

Lemma import_rejects_invalid_tags_witness :
  validation_errors [("subject", PStr "Math")] false <> []
  /\ import_document_to_corpus Samples.cfg (fun _ => Ok tt) "42" "gs://b/unit3.pdf"
       (Some [("subject", PStr "Math")]) None None
     = (mk_import_response "error" "42"
          ("Failed to import document: Invalid metadata. Errors: "
             ++ PyStr.join ", " (validation_errors [("subject", PStr "Math")] false))
          (Some ("Metadata validation failed: "
                   ++ PyStr.join ", " (validation_errors [("subject", PStr "Math")] false)))
          (Some (mk_metadata_validation false
                   (validation_errors [("subject", PStr "Math")] false)
                   (validation_warnings [("subject", PStr "Math")])))
          None,
        []).
Proof.
  apply (import_rejects_invalid_tags Samples.cfg (fun _ => Ok tt) "42" "gs://b/unit3.pdf"
           [("subject", PStr "Math")] None None).
  - discriminate.
  - intros [Hreq _]. destruct (Hreq "board") as [s Hs]; [simpl; tauto|discriminate Hs].
Defined.

(** X21. Tags that [validate_metadata] accepts reach the SDK in
    normalized form only: [rag.import_files] is called once, for the
    resource name of the corpus and the one URI, with the normalized dict
    as [rag_metadata]; when it returns, the answer is a success carrying
    the validation report and the normalized dict, and when it raises, the
    answer is the error dict with the exception text; the warnings of the
    validation are printed in both cases. *)
Theorem import_passes_normalized_tags (cfg : config) (import_files : import_api)
  (corpus_id gcs_uri : string) (metadata : dict) (chunk_size chunk_overlap : option Z) :
  metadata <> [] ->
  well_tagged metadata false ->
  let n := validation_normalized metadata in
  let report := mk_metadata_validation true [] (validation_warnings metadata) in
  import_document_to_corpus cfg import_files corpus_id gcs_uri (Some metadata)
    chunk_size chunk_overlap
  = (match import_files
             (mk_import_params (resource_name cfg corpus_id) [gcs_uri] chunk_size
                chunk_overlap (Some n)) with
     | Ok _ =>
         mk_import_response "success" corpus_id
           ("Successfully imported document " ++ gcs_uri ++ " to corpus '"
              ++ corpus_id ++ "'")
           None (Some report) (Some n)
     | Raise e => import_error corpus_id e
     end,
     if dict_truthy (validation_warnings metadata)
     then ["Metadata warnings: " ++ PyStr.join ", " (validation_warnings metadata)]
     else []).
Proof.
  intros Hne Hok n report.
  pose proof (well_tagged_normalized_nonempty metadata false Hok) as Hn.
  apply validation_errors_nil in Hok.
  unfold import_document_to_corpus, import_body, import_call.
  rewrite (nonempty_dict_or_none metadata Hne), validate_metadata_reads, Hok.
  cbn [valid errors warnings normalized List.length Nat.eqb negb fst snd].
  rewrite Hn. fold (resource_name cfg corpus_id). fold n.
  destruct (import_files _) as [u|e]; reflexivity.
Qed.

Lemma import_passes_normalized_tags_witness :
  let metadata := [("board", PStr "Tamil Nadu Board"); ("grade", PStr "10");
                   ("subject", PStr "Science"); ("Author", PStr "Rao")] in
  let n := validation_normalized metadata in
  let report := mk_metadata_validation true [] (validation_warnings metadata) in
  import_document_to_corpus Samples.cfg
    (fun p => match ip_rag_metadata p with Some _ => Ok tt | None => Raise "untagged" end)
    "42" "gs://b/unit3.pdf" (Some metadata) None (Some 100)
  = (match (fun p => match ip_rag_metadata p with
                     | Some _ => Ok tt
                     | None => Raise "untagged"
                     end)
             (mk_import_params (resource_name Samples.cfg "42") ["gs://b/unit3.pdf"] None
                (Some 100) (Some n)) with
     | Ok _ =>
         mk_import_response "success" "42"
           ("Successfully imported document " ++ "gs://b/unit3.pdf" ++ " to corpus '"
              ++ "42" ++ "'")
           None (Some report) (Some n)
     | Raise e => import_error "42" e
     end,
     if dict_truthy (validation_warnings metadata)
     then ["Metadata warnings: " ++ PyStr.join ", " (validation_warnings metadata)]
     else []).
Proof.
  intros metadata.
  apply (import_passes_normalized_tags Samples.cfg
           (fun p => match ip_rag_metadata p with Some _ => Ok tt | None => Raise "untagged" end)
           "42" "gs://b/unit3.pdf" metadata None (Some 100)).
  - discriminate.
  - apply validation_errors_nil. reflexivity.
Defined.

(** X22. Import without tags is not gated: when no metadata is given,
    or an empty dict, nothing is validated, [rag.import_files] is called
    without [rag_metadata], and the answer has neither a validation
    report nor metadata; the required fields are enforced only on
    non-empty metadata. *)
Theorem import_untagged_not_validated (cfg : config) (import_files : import_api)
  (corpus_id gcs_uri : string) (rag_metadata : option dict)
  (chunk_size chunk_overlap : option Z) :
  rag_metadata = None \/ rag_metadata = Some [] ->
  import_document_to_corpus cfg import_files corpus_id gcs_uri rag_metadata chunk_size
    chunk_overlap
  = (match import_files
             (mk_import_params (resource_name cfg corpus_id) [gcs_uri] chunk_size
                chunk_overlap None) with
     | Ok _ =>
         mk_import_response "success" corpus_id
           ("Successfully imported document " ++ gcs_uri ++ " to corpus '"
              ++ corpus_id ++ "'")
           None None None
     | Raise e => import_error corpus_id e
     end,
     []).
Proof.
  intros [-> | ->]; unfold import_document_to_corpus, import_body, import_call;
    cbn [dict_or_none dict_truthy fst snd]; fold (resource_name cfg corpus_id);
    destruct (import_files _) as [u|e]; reflexivity.
Qed.

Lemma import_untagged_not_validated_witness :
  import_document_to_corpus Samples.cfg (fun _ => Ok tt) "42" "gs://b/unit3.pdf" (Some [])
    None None
  = (match (fun _ : import_params => @Ok unit tt)
             (mk_import_params (resource_name Samples.cfg "42") ["gs://b/unit3.pdf"] None
                None None) with
     | Ok _ =>
         mk_import_response "success" "42"
           ("Successfully imported document " ++ "gs://b/unit3.pdf" ++ " to corpus '"
              ++ "42" ++ "'")
           None None None
     | Raise e => import_error "42" e
     end,
     []).
Proof.
  apply (import_untagged_not_validated Samples.cfg (fun _ => Ok tt) "42"
           "gs://b/unit3.pdf" (Some []) None None).
  right. reflexivity.
Defined.
